(** * graphql-api-koa: the [errorHandler] and [execute] Koa middleware

    A shallow embedding of [src/index.mjs] and [src/execute.mjs] and the
    properties of the request pipeline:

    - [JS]: the fragment of JavaScript values and object operations the two
      files use (truthiness, [typeof], property access, [Object.keys],
      object spread, [Array.prototype.join]);
    - [HttpErrors]: [createError] of the [http-errors] dependency;
    - [GraphQL]: [formatError] and the signature of the GraphQL.js primitives
      the middleware calls ([parse], [validate], [validateSchema],
      [execute]), which stay abstract;
    - [Koa]: the request context and the middleware monad (state, exceptions
      and a log of the calls made to the collaborators);
    - [Index]: [src/index.mjs];
    - [Execute]: [src/execute.mjs]. *)

From Stdlib Require Import List String Ascii ZArith Bool Lia.
From Stdlib Require Import DecimalString.
Import ListNotations.
Local Open Scope string_scope.
Local Open Scope Z_scope.

Set Implicit Arguments.
Set Warnings "-register-all".

(* ================================================================== *)
(** ** JavaScript values *)

Module JS.

(** Constructors an error object can come from: the built-in [Error] (and
    [TypeError]), the class [http-errors] defines for one status code
    ([createError[code]]), and [GraphQLError]. *)
Inductive ErrClass : Type :=
| NativeError
| HttpErrorClass (code : Z)
| GraphQLErrorClass.

Inductive ObjKind : Type :=
| KPlain                      (* object literal, parsed JSON object *)
| KFunction (id : nat)        (* callable; [id] names the function *)
| KSchema                     (* instance of [GraphQLSchema] *)
| KError (c : ErrClass).      (* instance of [Error] *)

(** A value. An object carries its own properties in enumeration order; an
    array carries its elements and, after them, any named property that was
    assigned to it. Numbers are the integers. *)
Inductive value : Type :=
| VUndefined
| VNull
| VBool (b : bool)
| VNumber (n : Z)
| VString (s : string)
| VArray (elems : list value) (named : list (string * value))
| VObject (k : ObjKind) (props : list (string * value)).

Definition Props := list (string * value).

(** [if (v)] *)
Definition truthy (v : value) : bool :=
  match v with
  | VUndefined | VNull => false
  | VBool b => b
  | VNumber n => negb (n =? 0)
  | VString s => negb (String.eqb s "")
  | VArray _ _ | VObject _ _ => true
  end.

Inductive jstype : Type :=
| TUndefined | TObject | TBoolean | TNumber | TString | TFunction.

(** [typeof v] *)
Definition typeof (v : value) : jstype :=
  match v with
  | VUndefined => TUndefined
  | VNull => TObject
  | VBool _ => TBoolean
  | VNumber _ => TNumber
  | VString _ => TString
  | VArray _ _ => TObject
  | VObject (KFunction _) _ => TFunction
  | VObject _ _ => TObject
  end.

Definition jstype_eqb (a b : jstype) : bool :=
  match a, b with
  | TUndefined, TUndefined | TObject, TObject | TBoolean, TBoolean
  | TNumber, TNumber | TString, TString | TFunction, TFunction => true
  | _, _ => false
  end.

Definition isUndefined (v : value) : bool := jstype_eqb (typeof v) TUndefined.

(** [Array.isArray(v)] *)
Definition isArray (v : value) : bool :=
  match v with VArray _ _ => true | _ => false end.

(** [v instanceof Error] *)
Definition instanceofError (v : value) : bool :=
  match v with VObject (KError _) _ => true | _ => false end.

(** [v instanceof GraphQLSchema] *)
Definition instanceofGraphQLSchema (v : value) : bool :=
  match v with VObject KSchema _ => true | _ => false end.

(** Property tables. *)
Fixpoint lookup (key : string) (ps : Props) : option value :=
  match ps with
  | [] => None
  | (k, v) :: rest => if String.eqb k key then Some v else lookup key rest
  end.

(** Assignment to a property: an existing key keeps its place, a new key is
    added last. *)
Fixpoint assign (key : string) (v : value) (ps : Props) : Props :=
  match ps with
  | [] => [(key, v)]
  | (k, w) :: rest =>
      if String.eqb k key then (k, v) :: rest else (k, w) :: assign key v rest
  end.

Definition keysOf (ps : Props) : list string := map fst ps.

(** The property key of array index [i]. *)
Definition indexKey (i : nat) : string :=
  NilEmpty.string_of_uint (Nat.to_uint i).

Definition indexed (l : list value) : Props :=
  combine (map indexKey (seq 0 (List.length l))) l.

Fixpoint chars (s : string) : list value :=
  match s with
  | EmptyString => []
  | String c rest => VString (String c EmptyString) :: chars rest
  end.

(** Is own property [key] of an object of kind [k] enumerable? The [message]
    of a built-in error is not; [http-errors] and GraphQL.js redefine theirs
    as enumerable. *)
Definition enumerable (k : ObjKind) (key : string) : bool :=
  match k with
  | KError NativeError => negb (String.eqb key "message")
  | _ => true
  end.

(** Own properties of a value that is not [null] or [undefined]. *)
Definition ownProps (v : value) : Props :=
  match v with
  | VString s => indexed (chars s)
  | VArray elems named => (indexed elems ++ named)%list
  | VObject _ props => props
  | _ => []
  end.

(** Own enumerable properties, as object spread and [for ... in] visit them. *)
Definition ownEnumerable (v : value) : Props :=
  match v with
  | VObject k props => filter (fun p => enumerable k (fst p)) props
  | _ => ownProps v
  end.

(** What the prototype chain supplies when an own property is missing, for
    the properties the program reads. The classes of [http-errors] keep
    [status], [statusCode] and [expose] on their prototype. The members of
    [Object.prototype] and of the other built-in prototypes ([toString],
    [constructor], ...) are left out: the program reads none of them, and a
    property of an object stated for every key is stated of its own
    properties, not of what a read gives. *)
Definition protoProp (v : value) (key : string) : value :=
  match v with
  | VString s =>
      if String.eqb key "length" then VNumber (Z.of_nat (String.length s))
      else VUndefined
  | VArray elems _ =>
      if String.eqb key "length" then VNumber (Z.of_nat (List.length elems))
      else VUndefined
  | VObject (KError (HttpErrorClass code)) _ =>
      if String.eqb key "status" then VNumber code
      else if String.eqb key "statusCode" then VNumber code
      else if String.eqb key "expose" then VBool (code <? 500)
      else VUndefined
  | VObject (KError _) _ =>
      if String.eqb key "message" then VString "" else VUndefined
  | _ => VUndefined
  end.

(** [v.key] for [v] other than [null] and [undefined] (reading a property of
    those throws, see [Koa.readProp]). *)
Definition getProp (v : value) (key : string) : value :=
  match lookup key (ownProps v) with
  | Some w => w
  | None => protoProp v key
  end.

(** [key in v] for an object [v]. *)
Definition hasProperty (v : value) (key : string) : bool :=
  match lookup key (ownProps v) with
  | Some _ => true
  | None => negb (isUndefined (protoProp v key))
  end.

(** [v.key = w] for an object or an array [v] and a key that is not an array
    index. *)
Definition setProp (v : value) (key : string) (w : value) : value :=
  match v with
  | VArray elems named => VArray elems (assign key w named)
  | VObject k props => VObject k (assign key w props)
  | _ => v
  end.

Definition isObjectValue (v : value) : bool :=
  match v with VArray _ _ | VObject _ _ => true | _ => false end.

(** [{ ...target, ...source }]: the own enumerable properties of [source]
    are assigned onto [target] in order; [null] and [undefined] add
    nothing. *)
Definition spreadInto (target : Props) (source : value) : Props :=
  fold_left (fun acc p => assign (fst p) (snd p) acc) (ownEnumerable source) target.

(** [const { key, ...rest } = v]: the rest object. *)
Definition restWithout (key : string) (v : value) : Props :=
  filter (fun p => negb (String.eqb (fst p) key)) (ownEnumerable v).

(** [array.includes(s)] on an array of strings. *)
Definition includes (l : list string) (s : string) : bool :=
  existsb (String.eqb s) l.

(** [array.join(sep)] on an array of strings. *)
Fixpoint join (sep : string) (l : list string) : string :=
  match l with
  | [] => ""
  | [s] => s
  | s :: rest => s ++ sep ++ join sep rest
  end.

(** An array literal. *)
Definition jsArray (l : list value) : value := VArray l [].

(** [new TypeError(message)] *)
Definition typeError (message : string) : value :=
  VObject (KError NativeError) [("message", VString message)].

(** How the evaluation of a function body completes: normally with a
    result, or abruptly with a thrown value. *)
Inductive Completion (A : Type) : Type :=
| Normal (a : A)
| Throw (error : value).
Arguments Normal {A} a.
Arguments Throw {A} error.

Definition andThen {A B} (c : Completion A) (k : A -> Completion B) : Completion B :=
  match c with
  | Normal a => k a
  | Throw e => Throw e
  end.

(** [v.key], which throws on [null] and [undefined] (V8's wording). *)
Definition readProp (v : value) (key : string) : Completion value :=
  match v with
  | VUndefined =>
      Throw (typeError ("Cannot read property '" ++ key ++ "' of undefined"))
  | VNull =>
      Throw (typeError ("Cannot read property '" ++ key ++ "' of null"))
  | _ => Normal (getProp v key)
  end.

(** [Object.keys(v)] *)
Definition objectKeys (v : value) : Completion (list string) :=
  match v with
  | VUndefined | VNull =>
      Throw (typeError "Cannot convert undefined or null to object")
  | _ => Normal (keysOf (ownEnumerable v))
  end.

(** How V8 prints a primitive in the message of a [TypeError]. *)
Definition display (v : value) : string :=
  match v with
  | VBool true => "true"
  | VBool false => "false"
  | VNumber n => NilZero.string_of_int (Z.to_int n)
  | VString s => s
  | VNull => "null"
  | _ => "undefined"
  end.

Definition typeName (t : jstype) : string :=
  match t with
  | TUndefined => "undefined" | TObject => "object" | TBoolean => "boolean"
  | TNumber => "number" | TString => "string" | TFunction => "function"
  end.

(** [v.key = w] in strict mode (an ES module): assignment to a property of
    a primitive throws, as does assignment to one of [null] or
    [undefined]. *)
Definition writeProp (v : value) (key : string) (w : value) : Completion value :=
  match v with
  | VArray _ _ | VObject _ _ => Normal (setProp v key w)
  | VUndefined | VNull =>
      Throw (typeError ("Cannot set property '" ++ key ++ "' of " ++ display v))
  | _ =>
      Throw (typeError ("Cannot create property '" ++ key ++ "' on "
                        ++ typeName (typeof v) ++ " '" ++ display v ++ "'"))
  end.

End JS.

(* ================================================================== *)
(** ** The [http-errors] dependency

    [createError] of [http-errors] 1.7 (the version [package.json] asks
    for), from its [index.js]. The function collects its arguments, settles
    the status, makes the error unless it was given one, and then

      if (!HttpError || !(err instanceof HttpError) || err.status !== status) {
        err.expose = status < 500
        err.status = err.statusCode = status
      }

    so an error that is not an instance of the class of its status gets its
    [expose] from the status. The deprecation warnings it prints are left
    out. *)

Module HttpErrors.
Import JS.

(** The table of the [statuses] package ([statuses[code]]), which
    [http-errors] consults for known codes and default messages. *)
Definition statuses (code : Z) : option string :=
  match code with
  | 100 => Some "Continue" | 101 => Some "Switching Protocols"
  | 102 => Some "Processing" | 103 => Some "Early Hints"
  | 200 => Some "OK" | 201 => Some "Created" | 202 => Some "Accepted"
  | 203 => Some "Non-Authoritative Information" | 204 => Some "No Content"
  | 205 => Some "Reset Content" | 206 => Some "Partial Content"
  | 207 => Some "Multi-Status" | 208 => Some "Already Reported"
  | 226 => Some "IM Used"
  | 300 => Some "Multiple Choices" | 301 => Some "Moved Permanently"
  | 302 => Some "Found" | 303 => Some "See Other" | 304 => Some "Not Modified"
  | 305 => Some "Use Proxy" | 306 => Some "(Unused)"
  | 307 => Some "Temporary Redirect" | 308 => Some "Permanent Redirect"
  | 400 => Some "Bad Request" | 401 => Some "Unauthorized"
  | 402 => Some "Payment Required" | 403 => Some "Forbidden"
  | 404 => Some "Not Found" | 405 => Some "Method Not Allowed"
  | 406 => Some "Not Acceptable" | 407 => Some "Proxy Authentication Required"
  | 408 => Some "Request Timeout" | 409 => Some "Conflict" | 410 => Some "Gone"
  | 411 => Some "Length Required" | 412 => Some "Precondition Failed"
  | 413 => Some "Payload Too Large" | 414 => Some "URI Too Long"
  | 415 => Some "Unsupported Media Type" | 416 => Some "Range Not Satisfiable"
  | 417 => Some "Expectation Failed" | 418 => Some "I'm a teapot"
  | 421 => Some "Misdirected Request" | 422 => Some "Unprocessable Entity"
  | 423 => Some "Locked" | 424 => Some "Failed Dependency"
  | 425 => Some "Unordered Collection" | 426 => Some "Upgrade Required"
  | 428 => Some "Precondition Required" | 429 => Some "Too Many Requests"
  | 431 => Some "Request Header Fields Too Large"
  | 451 => Some "Unavailable For Legal Reasons"
  | 500 => Some "Internal Server Error" | 501 => Some "Not Implemented"
  | 502 => Some "Bad Gateway" | 503 => Some "Service Unavailable"
  | 504 => Some "Gateway Timeout" | 505 => Some "HTTP Version Not Supported"
  | 506 => Some "Variant Also Negotiates" | 507 => Some "Insufficient Storage"
  | 508 => Some "Loop Detected" | 509 => Some "Bandwidth Limit Exceeded"
  | 510 => Some "Not Extended" | 511 => Some "Network Authentication Required"
  | _ => None
  end.

Definition known (code : Z) : bool :=
  match statuses code with Some _ => true | None => false end.

Definition statusMessage (code : Z) : value :=
  match statuses code with Some m => VString m | None => VUndefined end.

(** [codeClass(status)], on the three-digit codes that are left after the
    status was normalised. *)
Definition codeClass (status : Z) : Z := (status / 100) * 100.

(** [createError[code]] is defined for the known 4xx and 5xx codes. *)
Definition hasConstructor (code : Z) : bool :=
  known code && (400 <=? code) && (code <? 600).

(** [createError[status] || createError[codeClass(status)]] *)
Definition constructorFor (status : Z) : option Z :=
  if hasConstructor status then Some status
  else if hasConstructor (codeClass status) then Some (codeClass status)
  else None.

(** [new HttpError(msg)] for the class of [code]: the message defaults to
    the status text when [msg] is [null] or [undefined]; status, statusCode
    and expose are inherited from the prototype. *)
Definition newHttpError (code : Z) (msg : value) : value :=
  VObject (KError (HttpErrorClass code))
    [("message", match msg with
                 | VUndefined | VNull => statusMessage code
                 | _ => msg
                 end)].

(** [new Error(message)] *)
Definition newError (message : value) : value :=
  VObject (KError NativeError) [("message", message)].

(** The variables of the argument loop of [createError]: [err], [msg],
    [status] (500 at first) and [props] (an empty object at first). *)
Record Scan : Type := mkScan {
  scan_err : option value;
  scan_msg : value;
  scan_status : value;
  scan_props : value
}.

(** One turn of the loop: an [Error] becomes [err] and gives
    [status = err.status || err.statusCode || status]; otherwise a string is
    the message, a number the status, an object (or [null]) the
    properties. *)
Definition scanArg (a : Scan) (arg : value) : Scan :=
  if instanceofError arg then
    let s1 := getProp arg "status" in
    let s2 := getProp arg "statusCode" in
    mkScan (Some arg) (scan_msg a)
      (if truthy s1 then s1 else if truthy s2 then s2 else scan_status a)
      (scan_props a)
  else
    match typeof arg with
    | TString => mkScan (scan_err a) arg (scan_status a) (scan_props a)
    | TNumber => mkScan (scan_err a) (scan_msg a) arg (scan_props a)
    | TObject => mkScan (scan_err a) (scan_msg a) (scan_status a) arg
    | _ => a
    end.

(** A status that is not a number, or an unknown one outside 400..599,
    becomes 500. *)
Definition normalStatus (status : value) : Z :=
  match status with
  | VNumber n =>
      if negb (known n) && ((n <? 400) || (600 <=? n)) then 500 else n
  | _ => 500
  end.

(** [err instanceof HttpError] for the class of [code]. *)
Definition instanceOfClass (err : value) (code : Z) : bool :=
  match err with
  | VObject (KError (HttpErrorClass c)) _ => c =? code
  | _ => false
  end.

(** [err.status !== status] *)
Definition statusDiffers (err : value) (status : Z) : bool :=
  match getProp err "status" with
  | VNumber n => negb (n =? status)
  | _ => true
  end.

(** The final loop: every enumerable property of [props] but [status] and
    [statusCode] is copied onto the error. *)
Definition copyProps (err : value) (props : value) : value :=
  fold_left
    (fun e p =>
       if String.eqb (fst p) "status" || String.eqb (fst p) "statusCode"
       then e else setProp e (fst p) (snd p))
    (ownEnumerable props) err.

(** [createError(...args)] *)
Definition createError (args : list value) : value :=
  let a := fold_left scanArg args
             (mkScan None VUndefined (VNumber 500) (VObject KPlain [])) in
  let status := normalStatus (scan_status a) in
  let HttpError := constructorFor status in
  let err :=
    match scan_err a with
    | Some e => e
    | None =>
        match HttpError with
        | Some code => newHttpError code (scan_msg a)
        | None =>
            newError (if truthy (scan_msg a) then scan_msg a
                      else statusMessage status)
        end
    end in
  let err :=
    if match HttpError with
       | None => true
       | Some code => negb (instanceOfClass err code) || statusDiffers err status
       end
    then
      setProp
        (setProp (setProp err "expose" (VBool (status <? 500)))
           "statusCode" (VNumber status))
        "status" (VNumber status)
    else err in
  copyProps err (scan_props a).

End HttpErrors.

(* ================================================================== *)
(** ** GraphQL.js

    [formatError] is that of GraphQL.js 14, the version the package is
    tested with; the primitives that parse, validate and execute stay
    abstract (see [Koa.Env]). *)

Module GraphQL.
Import JS.

(** What the middleware reads of a [GraphQLError]. *)
Record GraphQLError : Type := mkGraphQLError {
  message : value;
  locations : value;
  path : value;
  extensions : value
}.

(** The error object itself. *)
Definition errorObject (e : GraphQLError) : value :=
  VObject (KError GraphQLErrorClass)
    [("message", message e); ("locations", locations e);
     ("path", path e); ("extensions", extensions e)].

(** The result of [execute]: [{ data, errors }], where [errors] is an array
    or is left out. *)
Record ExecutionResult : Type := mkResult {
  data : value;
  errors : option (list GraphQLError)
}.

(** [formatError(error)] *)
Definition formatError (error : value) : Completion value :=
  if negb (truthy error) then
    Throw (HttpErrors.newError (VString "Received null or undefined error."))
  else
    let message :=
      if truthy (getProp error "message") then getProp error "message"
      else VString "An unknown error occurred." in
    let locations := getProp error "locations" in
    let path := getProp error "path" in
    let extensions := getProp error "extensions" in
    Normal
      (if truthy extensions
       then VObject KPlain [("message", message); ("locations", locations);
                            ("path", path); ("extensions", extensions)]
       else VObject KPlain [("message", message); ("locations", locations);
                            ("path", path)]).

(** [array.map(formatError)] *)
Fixpoint mapFormatError (l : list value) : Completion (list value) :=
  match l with
  | [] => Normal []
  | e :: rest =>
      andThen (formatError e) (fun f =>
      andThen (mapFormatError rest) (fun fs => Normal (f :: fs)))
  end.

End GraphQL.

(* ================================================================== *)
(** ** The Koa request context and the middleware monad *)

Module Koa.
Import JS GraphQL.

(** What the middleware uses of the Koa context: [ctx.request.body],
    [ctx.response.status] and [ctx.response.body], as three plain fields
    that hold what was last assigned to them. The two files assign to the
    fields and read them back; what the accessors of a Koa response do
    besides is not in [src/] and is not part of the fields. The setter of
    [status] empties the body on a status of [statuses.empty] (204, 205,
    304) and refuses a status that is not an integer from 100 to 999: a
    property of [errorHandler] that depends on the body being kept is
    stated for a status outside [statuses.empty]. The setter of [body] sets
    the status 200 when none was assigned before: between the write of
    [{ data }] and the throw, or the write of the status, that follows it, a
    Koa response may hold 200 where the field holds the status it had. *)
Record Context : Type := mkContext {
  request_body : value;
  response_status : value;
  response_body : value
}.

(** The collaborators the middleware calls: the GraphQL.js primitives and the
    functions the application supplies. [parse source] stands for
    [parse(new Source(source))] and gives the document or, when it throws,
    the [message] of what it threw; [executeGraphQL] likewise. [call] applies
    a function of the application (the [override] option) to the context and
    awaits it. *)
Record Env : Type := mkEnv {
  parse : value -> string + value;
  validateSchema : value -> list GraphQLError;
  validate : value -> value -> Completion (list GraphQLError);
  executeGraphQL : value -> string + ExecutionResult;
  call : value -> Context -> Completion value
}.

(** The calls a request makes, in order. *)
Inductive Event : Type :=
| CallParse (source : value)
| CallOverride (fn : value)
| CallValidate (schema document : value)
| CallExecute (args : value)
| Emit (name : string) (error : value).

Record State : Type := mkState {
  ctx : Context;
  log : list Event
}.

(** An [async] function over the context. *)
Definition M (A : Type) : Type := State -> Completion A * State.

Definition ret {A} (a : A) : M A := fun s => (Normal a, s).

Definition bind {A B} (m : M A) (k : A -> M B) : M B :=
  fun s =>
    match m s with
    | (Normal a, s') => k a s'
    | (Throw e, s') => (Throw e, s')
    end.

Definition throw {A} (e : value) : M A := fun s => (Throw e, s).

(** [try { body } catch (error) { handler }] *)
Definition tryCatch {A} (body : M A) (handler : value -> M A) : M A :=
  fun s =>
    match body s with
    | (Normal a, s') => (Normal a, s')
    | (Throw e, s') => handler e s'
    end.

Definition lift {A} (c : Completion A) : M A := fun s => (c, s).

Definition getContext : M Context := fun s => (Normal (ctx s), s).

(** [ctx.response.status = v], as a write of the field. *)
Definition setResponseStatus (v : value) : M unit :=
  fun s =>
    (Normal tt,
     mkState (mkContext (request_body (ctx s)) v (response_body (ctx s))) (log s)).

(** [ctx.response.body = v], as a write of the field. *)
Definition setResponseBody (v : value) : M unit :=
  fun s =>
    (Normal tt,
     mkState (mkContext (request_body (ctx s)) (response_status (ctx s)) v) (log s)).

Definition record (e : Event) : M unit :=
  fun s => (Normal tt, mkState (ctx s) (log s ++ [e])%list).

End Koa.

Declare Scope koa_scope.
Delimit Scope koa_scope with koa.
Notation "x <- m ;; k" := (Koa.bind m (fun x => k))
  (at level 61, m at next level, right associativity) : koa_scope.
Notation "m ;; k" := (Koa.bind m (fun _ => k))
  (at level 61, right associativity) : koa_scope.

Declare Scope completion_scope.
Delimit Scope completion_scope with completion.
Notation "x <- m ;; k" := (JS.andThen m (fun x => k))
  (at level 61, m at next level, right associativity) : completion_scope.
Notation "m ;; k" := (JS.andThen m (fun _ => k))
  (at level 61, right associativity) : completion_scope.

(* ================================================================== *)
(** ** [src/index.mjs] *)

Module Index.
Import JS HttpErrors GraphQL Koa.

(** [isPlainObject(value)] *)
Definition isPlainObject (v : value) : bool :=
  jstype_eqb (typeof v) TObject
  && negb (match v with VNull => true | _ => false end)
  && negb (isArray v).

(** The keys [checkOptions] rejects:
    [Object.keys(options).filter(option => !allowed.includes(option))]. *)
Definition invalidKeys (keys allowed : list string) : list string :=
  filter (fun option => negb (includes allowed option)) keys.

Definition optionsInvalidMessage (description : string) (invalid : list string) : string :=
  description ++ " options invalid: `" ++ join "`, `" invalid ++ "`.".

(** [checkOptions(options, allowed, description)] *)
Definition checkOptions (options : value) (allowed : list string)
    (description : string) : Completion unit :=
  (keys <- objectKeys options ;;
   let invalid := invalidKeys keys allowed in
   if negb (Nat.eqb (List.length invalid) 0) then
     Throw (createError [VString (optionsInvalidMessage description invalid)])
   else Normal tt)%completion.

Definition ALLOWED_OPTIONS : list string :=
  ["schema"; "rootValue"; "contextValue"; "fieldResolver"; "override"].

(** [ALLOWED_OPTIONS.filter(option => option !== 'override')] *)
Definition withoutOverride (allowed : list string) : list string :=
  filter (fun option => negb (String.eqb option "override")) allowed.

(** [errorHandler()], applied to the rest of the chain. [createError(error)]
    returns the thrown object itself when it is an [Error], so the listeners
    of the app receive it as [createError] left it. *)
Definition errorHandler (next : M unit) : M unit :=
  tryCatch next
    (fun error =>
       let httpError := createError [error] in
       let httpError :=
         if negb (truthy (getProp httpError "expose")) then createError []
         else httpError in
       (setResponseStatus (getProp httpError "status") ;;
        c <- getContext ;;
        (if negb (truthy (response_body c))
         then setResponseBody (VObject KPlain []) else ret tt) ;;
        c <- getContext ;;
        formatted <-
          lift (if isArray (getProp httpError "graphqlErrors")
                then mapFormatError
                       (match getProp httpError "graphqlErrors" with
                        | VArray elems _ => elems
                        | _ => []
                        end)
                else andThen (formatError httpError) (fun f => Normal [f])) ;;
        body <- lift (writeProp (response_body c) "errors" (jsArray formatted)) ;;
        setResponseBody body ;;
        record (Emit "error"
                  (if instanceofError error then createError [error] else error)))%koa).

Section WithEnv.
Variable env : Env.

(** [checkSchema(schema)] *)
Definition checkSchema (schema : value) : Completion unit :=
  if negb (instanceofGraphQLSchema schema) then
    Throw (createError
      [VString "GraphQL schema is required and must be a `GraphQLSchema` instance."])
  else
    let schemaValidationErrors := validateSchema env schema in
    if negb (Nat.eqb (List.length schemaValidationErrors) 0) then
      Throw (createError
        [VString "GraphQL schema validation errors.";
         VObject KPlain
           [("graphqlErrors", jsArray (map errorObject schemaValidationErrors))]])
    else Normal tt.

(** The part of [execute(options)] that runs once, when the middleware is
    created (lines 138-162). *)
Definition setup (options : value) : Completion unit :=
  if isUndefined options then
    Throw (createError [VString "GraphQL execute middleware options missing."])
  else if negb (isPlainObject options) then
    Throw (createError [VString "GraphQL execute middleware options must be an object."])
  else
    (checkOptions options ALLOWED_OPTIONS "GraphQL execute middleware" ;;
     schema <- readProp options "schema" ;;
     (if negb (isUndefined schema) then checkSchema schema else Normal tt) ;;
     override <- readProp options "override" ;;
     if negb (isUndefined override)
        && negb (jstype_eqb (typeof override) TFunction)
     then
       Throw (createError
         [VString "GraphQL execute middleware `override` option must be a function."])
     else Normal tt)%completion.

(** Lines 165-180 of the middleware: the checks of the request body and the
    parse of the query; gives the document. *)
Definition parseRequest : M value :=
  (c <- getContext ;;
   let body := request_body c in
   if isUndefined body then
     throw (createError [VString "Request body missing."])
   else if negb (isPlainObject body) then
     throw (createError [VNumber 400; VString "Request body must be a JSON object."])
   else if negb (hasProperty body "query") then
     throw (createError
       [VNumber 400; VString "GraphQL operation field `query` missing."])
   else
     query <- lift (readProp body "query") ;;
     record (CallParse query) ;;
     match parse env query with
     | inl message =>
         throw (createError
           [VNumber 400; VString ("GraphQL query syntax error: " ++ message)])
     | inr document => ret document
     end)%koa.

(** Lines 182-200: the options the [override] function gives for the
    request. *)
Definition resolveOverride (options : value) : M value :=
  (override <- lift (readProp options "override") ;;
   if truthy override then
     record (CallOverride override) ;;
     c <- getContext ;;
     optionsOverride <- lift (call env override c) ;;
     if negb (isPlainObject optionsOverride) then
       throw (createError
         [VString "GraphQL execute middleware options must be an object, or an object promise."])
     else
       lift (checkOptions optionsOverride
               (withoutOverride ALLOWED_OPTIONS)
               "GraphQL execute middleware `override` option return") ;;
       schema <- lift (readProp optionsOverride "schema") ;;
       (if negb (isUndefined schema)
        then lift (checkSchema schema) else ret tt) ;;
       ret optionsOverride
   else ret (VObject KPlain []))%koa.

(** Lines 204-208: the validation of the document. *)
Definition validateDocument (schema document : value) : M unit :=
  (record (CallValidate schema document) ;;
   queryValidationErrors <- lift (validate env schema document) ;;
   if negb (Nat.eqb (List.length queryValidationErrors) 0) then
     throw (createError
       [VNumber 400; VString "GraphQL query validation errors.";
        VObject KPlain
          [("graphqlErrors", jsArray (map errorObject queryValidationErrors))]])
   else ret tt)%koa.

(** Lines 210-235: [executeGraphQL(args)] inside its [try] and the
    statements after it. *)
Definition runOperation (args : value) (next : M unit) : M unit :=
  (record (CallExecute args) ;;
   match executeGraphQL env args with
   | inl message =>
       throw (createError
         [VNumber 400; VString ("GraphQL operation field invalid: " ++ message)])
   | inr result =>
       (if truthy (data result)
        then setResponseBody (VObject KPlain [("data", data result)])
        else ret tt) ;;
       match errors result with
       | Some errs =>
           throw (createError
             [VNumber 200; VString "GraphQL errors.";
              VObject KPlain [("graphqlErrors", jsArray (map errorObject errs))]])
       | None =>
           setResponseStatus (VNumber 200) ;;
           next
       end
   end)%koa.

(** [{ ...options, ...optionsOverride }] *)
Definition mergeOptions (options optionsOverride : value) : value :=
  VObject KPlain (spreadInto (spreadInto [] options) optionsOverride).

(** [{ ...execute, document, variableValues, operationName }] *)
Definition executeArgs (execute document variables operationName : value) : value :=
  VObject KPlain
    (assign "operationName" operationName
       (assign "variableValues" variables
          (assign "document" document (spreadInto [] execute)))).

(** The middleware [execute(options)] returns (lines 164-236). *)
Definition middleware (options : value) (next : M unit) : M unit :=
  (document <- parseRequest ;;
   optionsOverride <- resolveOverride options ;;
   let execute := mergeOptions options optionsOverride in
   validateDocument (getProp execute "schema") document ;;
   c <- getContext ;;
   variables <- lift (readProp (request_body c) "variables") ;;
   operationName <- lift (readProp (request_body c) "operationName") ;;
   runOperation (executeArgs execute document variables operationName) next)%koa.

(** [execute(options)] *)
Definition execute (options : value) : Completion (M unit -> M unit) :=
  (setup options ;; Normal (middleware options))%completion.

End WithEnv.
End Index.

(* ================================================================== *)
(** ** [src/execute.mjs] *)

Module Execute.
Import JS HttpErrors GraphQL Koa.

(** [src/execute.mjs] imports [checkOptions], [checkSchema] and
    [isEnumerableObject] from sibling files that are not in [src/]. They
    are taken to be the functions [src/index.mjs] defines at its end:
    [checkOptions] (line 259), [checkSchema] (line 277) and [isPlainObject]
    (line 247), which the changelog (2.2.0) says was renamed to
    [isEnumerableObject]. *)

(** Modelled from the spec: [checkOptions] of [./checkOptions], which is not
    in [src/], fails with the unexposed configuration error when the options
    hold a key outside the allowed ones, and names every such key; this is
    [checkOptions] of [src/index.mjs]. The changelog (2.2.0) says an
    [isEnumerableObject] check of the options was moved into the helper;
    the specification gives [checkOptions] no such check and it is not
    modelled: a theorem that depends on the options, or on the result of an
    override, being an object says so. *)
Definition checkOptions := Index.checkOptions.

(** Modelled from the spec: [checkSchema] of [./checkSchema], which is not
    in [src/]; taken to be [checkSchema] of [src/index.mjs]. *)
Definition checkSchema := Index.checkSchema.

(** Modelled from the spec: [isEnumerableObject] of [./isEnumerableObject],
    which is not in [src/]: true of what is an object, not [null] and not
    an array; this is [isPlainObject] of [src/index.mjs]. *)
Definition isEnumerableObject := Index.isPlainObject.

(** Modelled from the spec: [createHttpError] of [./createHttpError], which
    is not in [src/], makes the structured error of a status, a message and
    further properties, a configuration error (500, not exposed) when no
    status is given. By the changelog (1.1.1) it is [createError] of
    [http-errors] called with the deprecation warning for the status 200
    silenced. *)
Definition createHttpError := createError.

Definition ALLOWED_EXECUTE_OPTIONS : list string :=
  ["schema"; "rootValue"; "contextValue"; "fieldResolver"; "override"].

(** What the middleware keeps of its options:
    [const { override, ...staticOptions } = options]. *)
Record Static : Type := mkStatic {
  override : value;
  staticOptions : value
}.

Section WithEnv.
Variable env : Env.

(** The part of [execute(options)] that runs once, when the middleware is
    created (lines 45-57). *)
Definition setup (options : value) : Completion Static :=
  if isUndefined options then
    Throw (createHttpError [VString "GraphQL execute middleware options missing."])
  else
    (checkOptions options ALLOWED_EXECUTE_OPTIONS "GraphQL execute middleware" ;;
     schema <- readProp options "schema" ;;
     (if negb (isUndefined schema) then checkSchema env schema else Normal tt) ;;
     override <- readProp options "override" ;;
     let staticOptions := VObject KPlain (restWithout "override" options) in
     if negb (isUndefined override)
        && negb (jstype_eqb (typeof override) TFunction)
     then
       Throw (createHttpError
         [VString "GraphQL execute middleware `override` option must be a function."])
     else Normal (mkStatic override staticOptions))%completion.

(** Lines 60-75 of the middleware: the checks of the request body and the
    parse of the query; gives the document. *)
Definition parseRequest : M value :=
  (c <- getContext ;;
   let body := request_body c in
   if isUndefined body then
     throw (createHttpError [VString "Request body missing."])
   else if negb (isEnumerableObject body) then
     throw (createHttpError
       [VNumber 400; VString "Request body must be a JSON object."])
   else if negb (hasProperty body "query") then
     throw (createHttpError
       [VNumber 400; VString "GraphQL operation field `query` missing."])
   else
     query <- lift (readProp body "query") ;;
     record (CallParse query) ;;
     match parse env query with
     | inl message =>
         throw (createHttpError
           [VNumber 400; VString ("GraphQL query syntax error: " ++ message)])
     | inr document => ret document
     end)%koa.

(** Lines 77-90: the options the [override] function gives for the
    request. *)
Definition resolveOverride (st : Static) : M value :=
  (if truthy (override st) then
     record (CallOverride (override st)) ;;
     c <- getContext ;;
     overrideOptions <- lift (call env (override st) c) ;;
     lift (checkOptions overrideOptions
             (Index.withoutOverride ALLOWED_EXECUTE_OPTIONS)
             "GraphQL execute middleware `override` option resolved") ;;
     schema <- lift (readProp overrideOptions "schema") ;;
     (if negb (isUndefined schema)
      then lift (checkSchema env schema) else ret tt) ;;
     ret overrideOptions
   else ret VUndefined)%koa.

(** [{ ...staticOptions, ...overrideOptions }] *)
Definition mergeOptions (staticOptions overrideOptions : value) : value :=
  VObject KPlain (spreadInto (spreadInto [] staticOptions) overrideOptions).

(** Lines 97-101: the validation of the document. *)
Definition validateDocument (schema document : value) : M unit :=
  (record (CallValidate schema document) ;;
   queryValidationErrors <- lift (validate env schema document) ;;
   if negb (Nat.eqb (List.length queryValidationErrors) 0) then
     throw (createHttpError
       [VNumber 400; VString "GraphQL query validation errors.";
        VObject KPlain
          [("graphqlErrors", jsArray (map errorObject queryValidationErrors))]])
   else ret tt)%koa.

(** The object literal passed to [executeGraphQL] (lines 106-114). *)
Definition executeArgs (requestOptions document variables operationName : value) : value :=
  VObject KPlain
    [("schema", getProp requestOptions "schema");
     ("rootValue", getProp requestOptions "rootValue");
     ("contextValue", getProp requestOptions "contextValue");
     ("fieldResolver", getProp requestOptions "fieldResolver");
     ("document", document);
     ("variableValues", variables);
     ("operationName", operationName)].

(** Lines 103-131: [executeGraphQL(args)] inside its [try] and the
    statements after it. *)
Definition runOperation (args : value) (next : M unit) : M unit :=
  (record (CallExecute args) ;;
   match executeGraphQL env args with
   | inl message =>
       throw (createHttpError
         [VNumber 400; VString ("GraphQL operation field invalid: " ++ message)])
   | inr result =>
       (if truthy (data result)
        then setResponseBody (VObject KPlain [("data", data result)])
        else ret tt) ;;
       match errors result with
       | Some errs =>
           throw (createHttpError
             [VNumber 200; VString "GraphQL errors.";
              VObject KPlain [("graphqlErrors", jsArray (map errorObject errs))]])
       | None =>
           setResponseStatus (VNumber 200) ;;
           next
       end
   end)%koa.

(** The middleware [execute(options)] returns (lines 59-132). *)
Definition middleware (st : Static) (next : M unit) : M unit :=
  (document <- parseRequest ;;
   overrideOptions <- resolveOverride st ;;
   let requestOptions := mergeOptions (staticOptions st) overrideOptions in
   if isUndefined (getProp requestOptions "schema") then
     throw (createHttpError [VString "GraphQL schema is required."])
   else
     validateDocument (getProp requestOptions "schema") document ;;
     c <- getContext ;;
     variables <- lift (readProp (request_body c) "variables") ;;
     operationName <- lift (readProp (request_body c) "operationName") ;;
     runOperation
       (executeArgs requestOptions document variables operationName) next)%koa.

(** [execute(options)] *)
Definition execute (options : value) : Completion (M unit -> M unit) :=
  (st <- setup options ;; Normal (middleware st))%completion.

End WithEnv.
End Execute.

(* ================================================================== *)
(** ** Derived notions used in the statements *)

Module Notions.
Import JS HttpErrors GraphQL Koa.

(** What [formatError] makes of a [GraphQLError]. *)
Definition formattedError (e : GraphQLError) : value :=
  let m := if truthy (message e) then message e
           else VString "An unknown error occurred." in
  if truthy (extensions e)
  then VObject KPlain [("message", m); ("locations", locations e);
                       ("path", path e); ("extensions", extensions e)]
  else VObject KPlain [("message", m); ("locations", locations e);
                       ("path", path e)].

(** The one formatted error of a response that hides its cause. *)
Definition genericError : value :=
  VObject KPlain [("message", VString "Internal Server Error");
                  ("locations", VUndefined); ("path", VUndefined)].

(** A formatted error that carries only a message. *)
Definition messageOnly (m : string) : value :=
  VObject KPlain [("message", VString m);
                  ("locations", VUndefined); ("path", VUndefined)].

(** The response body is unset or is an object: [errorHandler] can put its
    [errors] there. *)
Definition bodyReady (body : value) : bool :=
  negb (truthy body) || isObjectValue body.

(** The body [errorHandler] leaves: the one it found, or a new object, with
    [errors] set. *)
Definition withErrors (body : value) (formatted : list value) : value :=
  setProp (if truthy body then body else VObject KPlain [])
    "errors" (jsArray formatted).

Definition respond (s : State) (status body : value) (events : list Event) : State :=
  mkState (mkContext (request_body (ctx s)) status body) (log s ++ events)%list.

(** The events the [override] step of [src/execute.mjs] adds to the log: the
    call of the function, if there is one. *)
Definition overrideEvents (st : Execute.Static) : list Event :=
  if truthy (Execute.override st) then [CallOverride (Execute.override st)]
  else [].

(** The same for the [override] step of [src/index.mjs]. *)
Definition indexOverrideEvents (options : value) : list Event :=
  if truthy (getProp options "override")
  then [CallOverride (getProp options "override")]
  else [].

(** The response body once the result of the execution was looked at: the
    data, or what was there. *)
Definition written (result : ExecutionResult) (prior : value) : value :=
  if truthy (data result) then VObject KPlain [("data", data result)]
  else prior.

(** The calls that attempt validation or execution. *)
Definition attempts (ev : Event) : bool :=
  match ev with
  | CallValidate _ _ | CallExecute _ => true
  | _ => false
  end.

(** A status [createError] lets stand: a code the [statuses] table knows,
    or any number from 400 to 599. *)
Definition validStatus (n : Z) : bool :=
  known n || ((400 <=? n) && (n <? 600)).

(** The error [errorHandler] answers with: the caught one once coerced, or
    the generic one when that is not exposed (lines 92-95 of
    [src/index.mjs]). *)
Definition answerOf (error : value) : value :=
  if negb (truthy (getProp (createError [error]) "expose"))
  then createError [] else createError [error].

(** The [errors] [errorHandler] makes of it (lines 105-109). *)
Definition formatErrors (httpError : value) : Completion (list value) :=
  if isArray (getProp httpError "graphqlErrors")
  then mapFormatError
         (match getProp httpError "graphqlErrors" with
          | VArray elems _ => elems
          | _ => []
          end)
  else andThen (formatError httpError) (fun f => Normal [f]).

(** An error [errorHandler] answers with the status given and formatted
    errors. *)
Definition answered (error : value) (status : Z) (formatted : list value) : Prop :=
  getProp (answerOf error) "status" = VNumber status /\
  formatErrors (answerOf error) = Normal formatted.

(** The statuses of the answers to what the middleware throws. *)
Definition ownStatus (status : Z) : Prop :=
  status = 200 \/ status = 400 \/ status = 500.

(** [statuses.empty]: the codes of a response that has no body. *)
Definition emptyStatus (status : value) : bool :=
  match status with
  | VNumber 204 | VNumber 205 | VNumber 304 => true
  | _ => false
  end.

(** The value of the option [key] for one request: the one of the result of
    the override when that has the key, otherwise the one of the options of
    the middleware, otherwise [undefined]. *)
Definition effectiveOption (options overrideOptions : value) (key : string) : value :=
  match lookup key (ownEnumerable overrideOptions) with
  | Some v => v
  | None =>
      match lookup key (ownEnumerable options) with
      | Some v => v
      | None => VUndefined
      end
  end.

(** The allow-list as the specification gives it. *)
Definition SPEC_ALLOWED_OPTIONS : list string :=
  ["schema"; "rootValue"; "contextValue"; "fieldResolver"; "executeFn";
   "validationRules"; "override"].

(** The executor the specification describes: the [executeFn] of the merged
    options, or the default primitive ([None]) when it is unset. *)
Definition effectiveExecuteFn (requestOptions : value) : option value :=
  if isUndefined (getProp requestOptions "executeFn") then None
  else Some (getProp requestOptions "executeFn").

End Notions.

(* ================================================================== *)
(** ** A concrete application, for the examples *)

Module Demo.
Import JS HttpErrors GraphQL Koa.

Definition schema : value := VObject KSchema [("_queryType", VString "Query")].
Definition badSchema : value := VObject KSchema [].
Definition document : value := VObject KPlain [("kind", VString "Document")].
Definition overrideFn : value := VObject (KFunction 0) [].

Definition fieldError (m : string) : GraphQLError :=
  mkGraphQLError (VString m) VUndefined VUndefined VUndefined.

(** The queries [{ hello }], [{ missingField }] (invalid for the schema),
    [{ fails }] (its resolver throws) and anything else (a syntax error);
    the [override] gives the option bag found in the request body under
    [overrideResult]. *)
Definition env : Env :=
  mkEnv
    (fun source =>
       match source with
       | VString "{ hello }" | VString "{ missingField }" | VString "{ fails }" =>
           inr (VObject KPlain [("kind", VString "Document"); ("source", source)])
       | _ => inl "Syntax Error: Unexpected <EOF>"
       end)
    (fun schema =>
       match schema with
       | VObject KSchema [] => [fieldError "Query root type must be provided."]
       | _ => []
       end)
    (fun schema document =>
       match getProp document "source" with
       | VString "{ missingField }" =>
           Normal [fieldError "Cannot query field missingField on type Query."]
       | _ => Normal []
       end)
    (fun args =>
       match getProp (getProp args "document") "source" with
       | VString "{ fails }" =>
           inr (mkResult (VObject KPlain [("fails", VNull)])
                  (Some [fieldError "Resolver failed."]))
       | _ => inr (mkResult (VObject KPlain [("hello", VString "world")]) None)
       end)
    (fun fn c => Normal (getProp (request_body c) "overrideResult")).

Definition request (query : string) : State :=
  mkState
    (mkContext (VObject KPlain [("query", VString query)]) (VNumber 404) VUndefined)
    [].

Definition requestWithOverride (query : string) (result : value) : State :=
  mkState
    (mkContext
       (VObject KPlain [("query", VString query); ("overrideResult", result)])
       (VNumber 404) VUndefined)
    [].

Definition options : value := VObject KPlain [("schema", schema)].
Definition optionsWithOverride : value :=
  VObject KPlain [("schema", schema); ("override", overrideFn)].

Definition static : Execute.Static :=
  Execute.mkStatic VUndefined (VObject KPlain [("schema", schema)]).
Definition noSchema : Execute.Static :=
  Execute.mkStatic VUndefined (VObject KPlain []).
Definition staticWithOverride : Execute.Static :=
  Execute.mkStatic overrideFn (VObject KPlain [("schema", schema)]).

(** [{ executeFn: function }] *)
Definition executeFnOptions : value :=
  VObject KPlain [("executeFn", VObject (KFunction 1) [])].

(** Options with more than a schema, and a request that names an operation,
    gives variables and has the override replace [rootValue] and add a
    [fieldResolver]. *)
Definition fullOptions : value :=
  VObject KPlain
    [("schema", schema); ("rootValue", VNumber 1);
     ("contextValue", VString "static"); ("override", overrideFn)].

Definition fullStatic : Execute.Static :=
  Execute.mkStatic overrideFn
    (VObject KPlain
       [("schema", schema); ("rootValue", VNumber 1);
        ("contextValue", VString "static")]).

Definition fullOverride : value :=
  VObject KPlain
    [("rootValue", VNumber 2); ("fieldResolver", VObject (KFunction 2) [])].

Definition fullRequest : State :=
  mkState
    (mkContext
       (VObject KPlain
          [("query", VString "{ hello }");
           ("variables", VObject KPlain [("id", VNumber 7)]);
           ("operationName", VString "Hello");
           ("overrideResult", fullOverride)])
       (VNumber 404) VUndefined)
    [].

(** The application with a resolver that fails on a field that cannot be
    null: GraphQL.js gives [{ data: null, errors }]. *)
Definition nullDataEnv : Env :=
  mkEnv (parse env) (validateSchema env) (validate env)
    (fun args =>
       inr (mkResult VNull
              (Some [fieldError "Cannot return null for non-nullable field Query.hello."])))
    (call env).

(** [Object.assign(new Error('secret'), { status: 404 })] *)
Definition statusError : value :=
  VObject (KError NativeError)
    [("message", VString "secret"); ("status", VNumber 404)].

(** [Object.assign(new Error('secret'), { status: 404, expose: false })] *)
Definition hiddenStatusError : value :=
  VObject (KError NativeError)
    [("message", VString "secret"); ("status", VNumber 404);
     ("expose", VBool false)].

End Demo.

Import JS HttpErrors GraphQL Koa Notions.

(* ================================================================== *)
(** ** Properties *)

Unset Implicit Arguments.

Ltac unfold_monad :=
  unfold Koa.bind, Koa.ret, Koa.throw, Koa.lift, Koa.getContext,
    Koa.record, Koa.setResponseBody, Koa.setResponseStatus, Koa.tryCatch in *.

(** *** Property tables *)

Section PropsLemmas.

Lemma lookup_assign_same key v ps : lookup key (assign key v ps) = Some v.
Proof.
  induction ps as [|[k w] rest IH]; cbn.
  - now rewrite String.eqb_refl.
  - destruct (String.eqb k key) eqn:E; cbn; rewrite E; auto.
Qed.

Lemma lookup_assign_other key k v ps :
  k <> key -> lookup key (assign k v ps) = lookup key ps.
Proof.
  intros Hne. induction ps as [|[k' w] rest IH]; cbn.
  - destruct (String.eqb k key) eqn:E; auto.
    apply String.eqb_eq in E. contradiction.
  - destruct (String.eqb k' k) eqn:E; cbn.
    + apply String.eqb_eq in E. subst k'.
      destruct (String.eqb k key) eqn:E2; auto.
      apply String.eqb_eq in E2. contradiction.
    + destruct (String.eqb k' key); auto.
Qed.

Lemma lookup_None_notin key ps : ~ In key (keysOf ps) -> lookup key ps = None.
Proof.
  induction ps as [|[k w] rest IH]; cbn; auto.
  intros Hn. destruct (String.eqb k key) eqn:E.
  - apply String.eqb_eq in E. tauto.
  - apply IH. tauto.
Qed.

Lemma lookup_In key v ps : lookup key ps = Some v -> In key (keysOf ps).
Proof.
  induction ps as [|[k w] rest IH]; cbn; [discriminate|].
  destruct (String.eqb k key) eqn:E; auto.
  apply String.eqb_eq in E. auto.
Qed.

(** Assigning a list of properties leaves the keys it does not name. *)
Lemma lookup_fold_assign_notin key (src : Props) : forall target,
  ~ In key (keysOf src) ->
  lookup key (fold_left (fun acc p => assign (fst p) (snd p) acc) src target)
  = lookup key target.
Proof.
  induction src as [|[k w] rest IH]; cbn; intros target Hn; auto.
  rewrite IH by tauto. apply lookup_assign_other. tauto.
Qed.

(** Assigning a list of properties with distinct keys gives each its
    value. *)
Lemma lookup_fold_assign_in key v (src : Props) : forall target,
  NoDup (keysOf src) -> lookup key src = Some v ->
  lookup key (fold_left (fun acc p => assign (fst p) (snd p) acc) src target)
  = Some v.
Proof.
  induction src as [|[k w] rest IH]; cbn; intros target Hnd Hl; [discriminate|].
  inversion Hnd as [|? ? Hnotin Hnd']; subst.
  destruct (String.eqb k key) eqn:E.
  - apply String.eqb_eq in E. subst k. inversion Hl; subst.
    rewrite lookup_fold_assign_notin by assumption.
    apply lookup_assign_same.
  - now apply IH.
Qed.

Lemma lookup_fold_assign (src : Props) key : forall target,
  NoDup (keysOf src) ->
  lookup key (fold_left (fun acc p => assign (fst p) (snd p) acc) src target)
  = match lookup key src with
    | Some v => Some v
    | None => lookup key target
    end.
Proof.
  intros target Hnodup. destruct (lookup key src) as [v|] eqn:E.
  - now apply lookup_fold_assign_in.
  - apply lookup_fold_assign_notin. intros Hin.
    clear Hnodup. induction src as [|[k w] rest IH]; [destruct Hin|].
    cbn in E. destruct (String.eqb k key) eqn:Ek; [discriminate|].
    destruct Hin as [Hin|Hin]; [|now apply IH].
    cbn in Hin. subst k. rewrite String.eqb_refl in Ek. discriminate.
Qed.

(** A filter keeps the keys distinct and the value of a key it keeps. *)
Lemma NoDup_keysOf_filter (f : string * value -> bool) (ps : Props) :
  NoDup (keysOf ps) -> NoDup (keysOf (filter f ps)).
Proof.
  induction ps as [|[k v] rest IH]; cbn; intros Hnd; [constructor|].
  inversion Hnd as [|? ? Hnotin Hnd']; subst.
  destruct (f (k, v)); cbn; [|now apply IH].
  constructor; [|now apply IH].
  intros Hin. apply Hnotin. unfold keysOf in *. rewrite in_map_iff in *.
  destruct Hin as [p [Hk Hin]]. apply filter_In in Hin. exists p. tauto.
Qed.

Lemma lookup_filter_other key other (ps : Props) :
  key <> other ->
  lookup key (filter (fun p => negb (String.eqb (fst p) other)) ps)
  = lookup key ps.
Proof.
  intros Hne. induction ps as [|[k v] rest IH]; [reflexivity|]. cbn.
  destruct (String.eqb k other) eqn:Eo; cbn.
  - apply String.eqb_eq in Eo. subst k.
    destruct (String.eqb other key) eqn:Ek; [|exact IH].
    apply String.eqb_eq in Ek. congruence.
  - destruct (String.eqb k key); [reflexivity|exact IH].
Qed.

Lemma filter_all (ps : Props) :
  filter (fun p => enumerable KPlain (fst p)) ps = ps.
Proof.
  induction ps as [|p rest IH]; [reflexivity|].
  cbn. f_equal. exact IH.
Qed.

Lemma includes_In allowed k : includes allowed k = true <-> In k allowed.
Proof.
  unfold includes. rewrite existsb_exists. split.
  - intros [x [Hin Heq]]. apply String.eqb_eq in Heq. now subst.
  - intros Hin. exists k. split; auto. apply String.eqb_refl.
Qed.

Lemma invalidKeys_In keys allowed k :
  In k (Index.invalidKeys keys allowed) <-> In k keys /\ ~ In k allowed.
Proof.
  unfold Index.invalidKeys. rewrite filter_In.
  rewrite <- (includes_In allowed k).
  destruct (includes allowed k); cbn; intuition congruence.
Qed.

Lemma invalidKeys_nil keys allowed :
  Index.invalidKeys keys allowed = [] ->
  forall k, In k keys -> In k allowed.
Proof.
  intros Hnil k Hin.
  destruct (includes allowed k) eqn:E; [now apply includes_In|].
  assert (In k (Index.invalidKeys keys allowed)) as Hk.
  { apply invalidKeys_In. split; auto. rewrite <- includes_In. congruence. }
  rewrite Hnil in Hk. destruct Hk.
Qed.

End PropsLemmas.

(** *** [formatError] *)

Lemma formatError_errorObject e :
  formatError (errorObject e) = Normal (formattedError e).
Proof.
  destruct e as [m l p x]. unfold formatError, formattedError, errorObject.
  cbn. destruct (truthy m), (truthy x); reflexivity.
Qed.

Lemma mapFormatError_errorObject errs :
  mapFormatError (map errorObject errs) = Normal (map formattedError errs).
Proof.
  induction errs as [|e rest IH]; cbn [map mapFormatError]; auto.
  rewrite formatError_errorObject, IH. reflexivity.
Qed.

(** *** [createError] on the calls the middleware makes *)

Lemma createError_message m :
  createError [VString m]
  = VObject (KError (HttpErrorClass 500)) [("message", VString m)].
Proof. reflexivity. Qed.

Lemma createError_400 m :
  createError [VNumber 400; VString m]
  = VObject (KError (HttpErrorClass 400)) [("message", VString m)].
Proof. reflexivity. Qed.

Lemma createError_400_errors m g :
  createError [VNumber 400; VString m; VObject KPlain [("graphqlErrors", g)]]
  = VObject (KError (HttpErrorClass 400))
      [("message", VString m); ("graphqlErrors", g)].
Proof. reflexivity. Qed.

Lemma createError_200_errors g :
  createError
    [VNumber 200; VString "GraphQL errors.";
     VObject KPlain [("graphqlErrors", g)]]
  = VObject (KError NativeError)
      [("message", VString "GraphQL errors."); ("expose", VBool true);
       ("statusCode", VNumber 200); ("status", VNumber 200);
       ("graphqlErrors", g)].
Proof. reflexivity. Qed.

(** *** The steps of the [execute] middleware of [src/execute.mjs] *)

Lemma isPlainObject_readProp v key :
  Index.isPlainObject v = true -> readProp v key = Normal (getProp v key).
Proof. destruct v; cbn; try discriminate; reflexivity. Qed.

Lemma isPlainObject_defined v :
  Index.isPlainObject v = true -> isUndefined v = false.
Proof.
  destruct v as [| | | | | |k props]; cbn; try discriminate; try reflexivity.
  destruct k; cbn; try discriminate; reflexivity.
Qed.

Lemma parseRequest_inv env s document s1 :
  Execute.parseRequest env s = (Normal document, s1) ->
  Execute.isEnumerableObject (request_body (ctx s)) = true /\
  hasProperty (request_body (ctx s)) "query" = true /\
  parse env (getProp (request_body (ctx s)) "query") = inr document /\
  s1 = mkState (ctx s)
         (log s ++ [CallParse (getProp (request_body (ctx s)) "query")]).
Proof.
  unfold Execute.parseRequest, Execute.isEnumerableObject. unfold_monad.
  destruct (isUndefined (request_body (ctx s))) eqn:E1; [discriminate|].
  destruct (Index.isPlainObject (request_body (ctx s))) eqn:E2;
    cbn [negb]; [|discriminate].
  destruct (hasProperty (request_body (ctx s)) "query") eqn:E3;
    cbn [negb]; [|discriminate].
  rewrite (isPlainObject_readProp _ _ E2).
  destruct (parse env _) eqn:E4; [discriminate|].
  intros H. inversion H; subst. auto.
Qed.

Lemma parseRequest_ok env s document :
  Execute.isEnumerableObject (request_body (ctx s)) = true ->
  hasProperty (request_body (ctx s)) "query" = true ->
  parse env (getProp (request_body (ctx s)) "query") = inr document ->
  Execute.parseRequest env s
  = (Normal document,
     mkState (ctx s)
       (log s ++ [CallParse (getProp (request_body (ctx s)) "query")])).
Proof.
  unfold Execute.parseRequest, Execute.isEnumerableObject. unfold_monad.
  intros E2 E3 E4.
  rewrite (isPlainObject_defined _ E2), E2, E3. cbn [negb].
  rewrite (isPlainObject_readProp _ _ E2), E4. reflexivity.
Qed.

Lemma resolveOverride_inv env st s1 overrideOptions s2 :
  Execute.resolveOverride env st s1 = (Normal overrideOptions, s2) ->
  s2 = mkState (ctx s1) (log s1 ++ overrideEvents st) /\
  (truthy (Execute.override st) = false /\ overrideOptions = VUndefined \/
   truthy (Execute.override st) = true /\
   call env (Execute.override st) (ctx s1) = Normal overrideOptions /\
   Execute.checkOptions overrideOptions
     (Index.withoutOverride Execute.ALLOWED_EXECUTE_OPTIONS)
     "GraphQL execute middleware `override` option resolved" = Normal tt).
Proof.
  unfold Execute.resolveOverride, overrideEvents. unfold_monad.
  destruct (truthy (Execute.override st)) eqn:E.
  - cbn [ctx log].
    destruct (call env (Execute.override st) (ctx s1)) as [r|e] eqn:Ec;
      [|discriminate].
    destruct (Execute.checkOptions r _ _) as [[]|e] eqn:Ek; [|discriminate].
    destruct (readProp r "schema") as [sch|e] eqn:Er; [|discriminate].
    destruct (isUndefined sch); cbn [negb].
    + intros H. inversion H; subst. split; auto.
    + destruct (Execute.checkSchema env sch) as [[]|e]; [|discriminate].
      intros H. inversion H; subst. split; auto.
  - intros H. inversion H; subst. split; [|auto].
    destruct s2; cbn. now rewrite app_nil_r.
Qed.

(** *** [errorHandler] *)

Lemma writeProp_withErrors body formatted :
  bodyReady body = true ->
  writeProp (if negb (truthy body) then VObject KPlain [] else body)
    "errors" (jsArray formatted)
  = Normal (withErrors body formatted).
Proof.
  unfold bodyReady, withErrors.
  destruct (truthy body) eqn:Et; cbn [negb orb]; [|reflexivity].
  destruct body; cbn; try discriminate; reflexivity.
Qed.

(** The state [errorHandler] leaves once the errors are formatted. *)
Lemma errorHandler_caught next s error s1 :
  next s = (Throw error, s1) ->
  bodyReady (response_body (ctx s1)) = true ->
  forall httpError formatted,
  httpError = (if negb (truthy (getProp (createError [error]) "expose"))
               then createError [] else createError [error]) ->
  (if isArray (getProp httpError "graphqlErrors")
   then mapFormatError
          (match getProp httpError "graphqlErrors" with
           | VArray elems _ => elems
           | _ => []
           end)
   else andThen (formatError httpError) (fun f => Normal [f]))
  = Normal formatted ->
  Index.errorHandler next s
  = (Normal tt,
     respond s1 (getProp httpError "status")
       (withErrors (response_body (ctx s1)) formatted)
       [Emit "error"
          (if instanceofError error then createError [error] else error)]).
Proof.
  intros Hnext Hbody httpError formatted HhttpError Hformat.
  unfold Index.errorHandler. unfold_monad. rewrite Hnext.
  rewrite <- HhttpError. cbn [ctx response_body log request_body response_status].
  rewrite Hformat.
  unfold bodyReady in Hbody. unfold withErrors, respond.
  destruct (truthy (response_body (ctx s1))) eqn:Et; cbn [negb orb] in *.
  - cbn [ctx response_body log request_body response_status].
    destruct (response_body (ctx s1)); try discriminate; reflexivity.
  - reflexivity.
Qed.

(** An error that is not exposed once coerced is answered with the generic
    500 error, whatever it was. *)
Lemma errorHandler_hides_unexposed next s error s1 :
  next s = (Throw error, s1) ->
  truthy (getProp (createError [error]) "expose") = false ->
  bodyReady (response_body (ctx s1)) = true ->
  Index.errorHandler next s
  = (Normal tt,
     respond s1 (VNumber 500)
       (withErrors (response_body (ctx s1)) [genericError])
       [Emit "error"
          (if instanceofError error then createError [error] else error)]).
Proof.
  intros Hnext Hexpose Hbody.
  rewrite (errorHandler_caught next s error s1 Hnext Hbody
             (createError []) [genericError]).
  - reflexivity.
  - rewrite Hexpose. reflexivity.
  - reflexivity.
Qed.

(** C1. The exposure law fails on an error that was not made by
    [http-errors] and carries a 4xx [status]: [createError(error)] sets its
    [expose] to [status < 500], also over an [expose] of [false], and
    [errorHandler] answers with the status and the message of the error.
    Thrown with no [expose] property, and thrown with [expose: false],
    [Object.assign(new Error('secret'), { status: 404 })] gives the response
    404 with [errors] holding the message "secret". *)
Theorem C1_errorHandler_exposes_status_error :
  getProp Demo.statusError "expose" = VUndefined /\
  Index.errorHandler (throw Demo.statusError) (Demo.request "{ hello }")
  = (Normal tt,
     respond (Demo.request "{ hello }") (VNumber 404)
       (VObject KPlain [("errors", jsArray [messageOnly "secret"])])
       [Emit "error" (createError [Demo.statusError])]) /\
  getProp Demo.hiddenStatusError "expose" = VBool false /\
  Index.errorHandler (throw Demo.hiddenStatusError) (Demo.request "{ hello }")
  = (Normal tt,
     respond (Demo.request "{ hello }") (VNumber 404)
       (VObject KPlain [("errors", jsArray [messageOnly "secret"])])
       [Emit "error" (createError [Demo.hiddenStatusError])]).
Proof. repeat split; reflexivity. Qed.

(** *** The checks of the options *)

Lemma checkOptions_inv options allowed description :
  Index.checkOptions options allowed description = Normal tt ->
  Index.invalidKeys (keysOf (ownEnumerable options)) allowed = [].
Proof.
  unfold Index.checkOptions, objectKeys.
  destruct options; cbn [andThen]; try discriminate;
    match goal with
    | |- context [Index.invalidKeys ?k ?a] =>
        destruct (Index.invalidKeys k a); cbn; [reflexivity|discriminate]
    end.
Qed.

Lemma checkOptions_invalid options allowed description :
  objectKeys options = Normal (keysOf (ownEnumerable options)) ->
  Index.invalidKeys (keysOf (ownEnumerable options)) allowed <> [] ->
  Index.checkOptions options allowed description
  = Throw (createError
             [VString (Index.optionsInvalidMessage description
                         (Index.invalidKeys (keysOf (ownEnumerable options))
                            allowed))]).
Proof.
  intros Hkeys Hne. unfold Index.checkOptions. rewrite Hkeys. cbn [andThen].
  destruct (Index.invalidKeys _ _); [congruence|reflexivity].
Qed.

Lemma keysOf_filter_In (f : string * value -> bool) ps k :
  In k (keysOf (filter f ps)) -> In k (keysOf ps).
Proof.
  unfold keysOf. rewrite !in_map_iff.
  intros [p [Hk Hin]]. apply filter_In in Hin. exists p. tauto.
Qed.

Lemma setup_inv env options st :
  Execute.setup env options = Normal st ->
  Index.invalidKeys (keysOf (ownEnumerable options))
    Execute.ALLOWED_EXECUTE_OPTIONS = [] /\
  Execute.staticOptions st = VObject KPlain (restWithout "override" options).
Proof.
  unfold Execute.setup.
  destruct (isUndefined options); [discriminate|].
  destruct (Execute.checkOptions options _ _) as [[]|e] eqn:Ek;
    cbn [andThen]; [|discriminate].
  apply checkOptions_inv in Ek.
  destruct (readProp options "schema") as [sch|e]; cbn [andThen]; [|discriminate].
  destruct (if negb (isUndefined sch) then Execute.checkSchema env sch
            else Normal tt) as [[]|e]; cbn [andThen]; [|discriminate].
  destruct (readProp options "override") as [ov|e]; cbn [andThen]; [|discriminate].
  destruct (negb (isUndefined ov) && negb (jstype_eqb (typeof ov) TFunction));
    [discriminate|].
  intros H. inversion H; subst. cbn. auto.
Qed.

(** *** The [execute] middleware of [src/execute.mjs], step by step *)

Section ExecuteRequest.

Variable env : Env.
Variable st : Execute.Static.
Variables s s1 s2 : State.
Variables document overrideOptions : value.

(** The request has a body with a query that parses, and the [override]
    step went through. *)
Hypothesis parsed : Execute.parseRequest env s = (Normal document, s1).
Hypothesis resolved :
  Execute.resolveOverride env st s1 = (Normal overrideOptions, s2).

Let body := request_body (ctx s).
Let requestOptions := Execute.mergeOptions (Execute.staticOptions st) overrideOptions.
Let schema := getProp requestOptions "schema".
Let args :=
  Execute.executeArgs requestOptions document
    (getProp body "variables") (getProp body "operationName").

(** The state when the options are merged: the context is as the request
    found it, the log has the parse and, with an [override], its call. *)
Lemma resolved_state :
  s2 = mkState (ctx s)
         (log s ++ CallParse (getProp body "query") :: overrideEvents st).
Proof.
  destruct (parseRequest_inv _ _ _ _ parsed) as (_ & _ & _ & Hs1).
  destruct (resolveOverride_inv _ _ _ _ _ resolved) as (Hs2 & _).
  rewrite Hs2, Hs1. cbn [ctx log]. now rewrite <- app_assoc.
Qed.

Lemma body_readProp key : readProp (request_body (ctx s2)) key = Normal (getProp body key).
Proof.
  rewrite resolved_state. cbn [ctx].
  destruct (parseRequest_inv _ _ _ _ parsed) as (Hobj & _).
  now apply isPlainObject_readProp.
Qed.

Lemma middleware_unschemed next :
  isUndefined schema = true ->
  Execute.middleware env st next s
  = (Throw (Execute.createHttpError [VString "GraphQL schema is required."]), s2).
Proof.
  intros Hschema. unfold Execute.middleware.
  unfold bind at 1. rewrite parsed. unfold bind at 1. rewrite resolved.
  fold requestOptions. fold schema. rewrite Hschema. reflexivity.
Qed.

Lemma middleware_invalid next errs :
  isUndefined schema = false ->
  validate env schema document = Normal errs ->
  errs <> [] ->
  Execute.middleware env st next s
  = (Throw (Execute.createHttpError
              [VNumber 400; VString "GraphQL query validation errors.";
               VObject KPlain [("graphqlErrors", jsArray (map errorObject errs))]]),
     mkState (ctx s2) (log s2 ++ [CallValidate schema document])).
Proof.
  intros Hschema Hvalidate Hne. unfold Execute.middleware.
  unfold bind at 1. rewrite parsed. unfold bind at 1. rewrite resolved.
  fold requestOptions. fold schema. rewrite Hschema.
  unfold Execute.validateDocument. unfold_monad. cbn [ctx log].
  rewrite Hvalidate. destruct errs; [congruence|]. reflexivity.
Qed.

Lemma middleware_valid next :
  isUndefined schema = false ->
  validate env schema document = Normal [] ->
  Execute.middleware env st next s
  = Execute.runOperation env args next
      (mkState (ctx s2) (log s2 ++ [CallValidate schema document])).
Proof.
  intros Hschema Hvalidate. unfold Execute.middleware.
  unfold bind at 1. rewrite parsed. unfold bind at 1. rewrite resolved.
  fold requestOptions. fold schema. rewrite Hschema.
  unfold Execute.validateDocument. unfold_monad. cbn [ctx log].
  rewrite Hvalidate. cbn [List.length Nat.eqb negb ctx log].
  rewrite !body_readProp. reflexivity.
Qed.


(** What the merged options hold under a key that neither the static
    options nor the override have. *)
Lemma mergeOptions_absent (static over : value) key :
  ~ In key (keysOf (ownEnumerable static)) ->
  ~ In key (keysOf (ownEnumerable over)) ->
  lookup key (ownProps (Execute.mergeOptions static over)) = None.
Proof.
  intros Hs Ho. unfold Execute.mergeOptions, spreadInto. cbn [ownProps].
  rewrite lookup_fold_assign_notin by assumption.
  rewrite lookup_fold_assign_notin by assumption.
  reflexivity.
Qed.

(** C7. With no [schema] in the merged options the request fails with the
    configuration error "GraphQL schema is required.", status 500 and not
    exposed; the log of the request then holds the parse and the call of the
    override, and no validation or execution; [errorHandler] answers with the
    generic 500 error. *)
Theorem C7_schema_required next :
  isUndefined schema = true ->
  let error := Execute.createHttpError [VString "GraphQL schema is required."] in
  Execute.middleware env st next s = (Throw error, s2) /\
  getProp error "status" = VNumber 500 /\
  getProp error "expose" = VBool false /\
  log s2 = (log s ++ CallParse (getProp body "query") :: overrideEvents st)%list /\
  existsb attempts (CallParse (getProp body "query") :: overrideEvents st) = false /\
  (bodyReady (response_body (ctx s)) = true ->
   Index.errorHandler (Execute.middleware env st next) s
   = (Normal tt,
      respond s2 (VNumber 500)
        (withErrors (response_body (ctx s)) [genericError])
        [Emit "error" error])).
Proof.
  intros Hschema error. pose proof resolved_state as Hs2.
  repeat split.
  - now apply middleware_unschemed.
  - rewrite Hs2. reflexivity.
  - unfold overrideEvents. destruct (truthy (Execute.override st)); reflexivity.
  - intros Hbody.
    rewrite (errorHandler_hides_unexposed _ s error s2).
    + rewrite Hs2. reflexivity.
    + now apply middleware_unschemed.
    + reflexivity.
    + rewrite Hs2. exact Hbody.
Qed.

(** C4. A document with N >= 1 validation errors fails the request with the
    error of status 400, exposed, whose [graphqlErrors] is the whole list in
    order; through [errorHandler] the response has status 400 and [errors]
    holds the N errors formatted one by one, in the same order. *)
Theorem C4_validation_errors next errs :
  isUndefined schema = false ->
  validate env schema document = Normal errs ->
  (1 <= List.length errs)%nat ->
  let error :=
    Execute.createHttpError
      [VNumber 400; VString "GraphQL query validation errors.";
       VObject KPlain [("graphqlErrors", jsArray (map errorObject errs))]] in
  let failed := mkState (ctx s2) (log s2 ++ [CallValidate schema document]) in
  Execute.middleware env st next s = (Throw error, failed) /\
  getProp error "status" = VNumber 400 /\
  getProp error "expose" = VBool true /\
  getProp error "graphqlErrors" = jsArray (map errorObject errs) /\
  (bodyReady (response_body (ctx s)) = true ->
   Index.errorHandler (Execute.middleware env st next) s
   = (Normal tt,
      respond failed (VNumber 400)
        (withErrors (response_body (ctx s)) (map formattedError errs))
        [Emit "error" error]) /\
   List.length (map formattedError errs) = List.length errs).
Proof.
  intros Hschema Hvalidate Hn error failed. pose proof resolved_state as Hs2.
  assert (errs <> []) as Hne by (destruct errs; cbn in Hn; [lia|discriminate]).
  assert (Execute.middleware env st next s = (Throw error, failed)) as Hrun
    by (now apply middleware_invalid).
  split; [exact Hrun|]. do 3 (split; [reflexivity|]).
  intros Hbody. split; [|now rewrite length_map].
  rewrite (errorHandler_caught _ s error failed Hrun) with
    (httpError := error) (formatted := map formattedError errs).
  - unfold failed. rewrite Hs2. reflexivity.
  - unfold failed. rewrite Hs2. exact Hbody.
  - reflexivity.
  - apply mapFormatError_errorObject.
Qed.

Lemma runOperation_errors next a result errs s' :
  executeGraphQL env a = inr result ->
  errors result = Some errs ->
  Execute.runOperation env a next s'
  = (Throw (Execute.createHttpError
              [VNumber 200; VString "GraphQL errors.";
               VObject KPlain [("graphqlErrors", jsArray (map errorObject errs))]]),
     respond s' (response_status (ctx s'))
       (written result (response_body (ctx s'))) [CallExecute a]).
Proof.
  intros Hexec Herrors. unfold Execute.runOperation, written, respond.
  unfold_monad. rewrite Hexec, Herrors. destruct s' as [[rb rs rbody] lg].
  cbn [ctx log]. destruct (truthy (data result)); reflexivity.
Qed.

Lemma runOperation_success next a result s' :
  executeGraphQL env a = inr result ->
  errors result = None ->
  Execute.runOperation env a next s'
  = next (respond s' (VNumber 200)
            (written result (response_body (ctx s'))) [CallExecute a]).
Proof.
  intros Hexec Herrors. unfold Execute.runOperation, written, respond.
  unfold_monad. rewrite Hexec, Herrors. destruct s' as [[rb rs rbody] lg].
  cbn [ctx log]. destruct (truthy (data result)); reflexivity.
Qed.

(** The events of a request that reaches the execution. *)
Let executed : list Event :=
  (CallParse (getProp body "query") :: overrideEvents st
   ++ [CallValidate schema document; CallExecute args])%list.

Lemma executed_state status b :
  respond (mkState (ctx s2) (log s2 ++ [CallValidate schema document]))
    status b [CallExecute args]
  = respond s status b executed.
Proof.
  rewrite resolved_state. unfold respond, executed. cbn [ctx log].
  f_equal. rewrite <- !app_assoc. cbn [app]. reflexivity.
Qed.

(** C9. When the result of the execution carries data ([result.data] holds
    a value), the middleware writes [{ data }] as the response body, whether
    or not the result has errors as well; with no errors it sets the status
    200 and continues the chain, so that at the end of the chain the
    response is 200 with a body that holds the data and nothing else. *)
Theorem C9_data_written next result :
  isUndefined schema = false ->
  validate env schema document = Normal [] ->
  executeGraphQL env args = inr result ->
  truthy (data result) = true ->
  let dataBody := VObject KPlain [("data", data result)] in
  (forall errs, errors result = Some errs ->
   exists error failed,
     Execute.middleware env st next s = (Throw error, failed) /\
     response_body (ctx failed) = dataBody /\
     log failed = (log s ++ executed)%list) /\
  (errors result = None ->
   Execute.middleware env st next s
   = next (respond s (VNumber 200) dataBody executed) /\
   Index.errorHandler (Execute.middleware env st (ret tt)) s
   = (Normal tt, respond s (VNumber 200) dataBody executed)).
Proof.
  intros Hschema Hvalidate Hexec Hdata dataBody.
  assert (forall prior, written result prior = dataBody) as Hwritten
    by (intros prior; unfold written; now rewrite Hdata).
  split.
  - intros errs Herrors. eexists. eexists. split; [|split].
    + rewrite (middleware_valid next Hschema Hvalidate).
      rewrite (runOperation_errors next _ result errs _ Hexec Herrors).
      rewrite Hwritten, executed_state. reflexivity.
    + reflexivity.
    + reflexivity.
  - intros Herrors.
    assert (forall k, Execute.middleware env st k s
                      = k (respond s (VNumber 200) dataBody executed)) as Hrun.
    { intros k. rewrite (middleware_valid k Hschema Hvalidate).
      rewrite (runOperation_success k _ result _ Hexec Herrors).
      rewrite Hwritten. now rewrite executed_state. }
    split; [apply Hrun|].
    unfold Index.errorHandler, tryCatch. rewrite Hrun. reflexivity.
Qed.

(** C2. When the result of the execution carries errors, the middleware
    fails with the error of status 200, exposed, whose [graphqlErrors] is the
    whole list; through [errorHandler] the response has status 200 and
    [errors] holds every one of them, formatted, and the body keeps the data
    when the result carried data. *)
Theorem C2_execution_errors next result errs :
  isUndefined schema = false ->
  validate env schema document = Normal [] ->
  executeGraphQL env args = inr result ->
  errors result = Some errs ->
  let error :=
    Execute.createHttpError
      [VNumber 200; VString "GraphQL errors.";
       VObject KPlain [("graphqlErrors", jsArray (map errorObject errs))]] in
  let bodyThen := written result (response_body (ctx s)) in
  Execute.middleware env st next s
  = (Throw error, respond s (response_status (ctx s)) bodyThen executed) /\
  getProp error "status" = VNumber 200 /\
  getProp error "expose" = VBool true /\
  getProp error "graphqlErrors" = jsArray (map errorObject errs) /\
  (bodyReady bodyThen = true ->
   Index.errorHandler (Execute.middleware env st next) s
   = (Normal tt,
      respond s (VNumber 200)
        (withErrors bodyThen (map formattedError errs))
        (executed ++ [Emit "error" error]))) /\
  (truthy (data result) = true ->
   bodyReady bodyThen = true /\
   withErrors bodyThen (map formattedError errs)
   = VObject KPlain
       [("data", data result);
        ("errors", jsArray (map formattedError errs))]).
Proof.
  intros Hschema Hvalidate Hexec Herrors error bodyThen.
  assert (Execute.middleware env st next s
          = (Throw error, respond s (response_status (ctx s)) bodyThen executed))
    as Hrun.
  { rewrite (middleware_valid next Hschema Hvalidate).
    rewrite (runOperation_errors next _ result errs _ Hexec Herrors).
    cbn [ctx response_status response_body].
    rewrite executed_state. rewrite resolved_state. reflexivity. }
  split; [exact Hrun|]. do 3 (split; [reflexivity|]).
  split.
  - intros Hbody.
    rewrite (errorHandler_caught _ s error _ Hrun) with
      (httpError := error) (formatted := map formattedError errs).
    + unfold respond. cbn [ctx log request_body response_body].
      now rewrite <- app_assoc.
    + exact Hbody.
    + reflexivity.
    + apply mapFormatError_errorObject.
  - intros Hdata. unfold bodyThen, written. rewrite Hdata. split; reflexivity.
Qed.

(** The merged options give each option but [override] its effective
    value, when the keys of the options and of the result of the override
    are distinct. *)
Lemma mergeOptions_effective options key :
  Execute.setup env options = Normal st ->
  NoDup (keysOf (ownEnumerable options)) ->
  NoDup (keysOf (ownEnumerable overrideOptions)) ->
  key <> "override" ->
  getProp requestOptions key = effectiveOption options overrideOptions key.
Proof.
  intros Hsetup Hoptions Hover Hkey.
  destruct (setup_inv _ _ _ Hsetup) as [_ Hstatic].
  subst requestOptions. rewrite Hstatic.
  unfold getProp, effectiveOption, Execute.mergeOptions, spreadInto.
  cbn [ownProps protoProp ownEnumerable]. rewrite filter_all.
  rewrite (lookup_fold_assign _ key _ Hover).
  unfold restWithout.
  rewrite (lookup_fold_assign _ key _
             (NoDup_keysOf_filter _ _ Hoptions)).
  rewrite (lookup_filter_other key "override" _ Hkey).
  cbn [lookup].
  destruct (lookup key (ownEnumerable overrideOptions)); [reflexivity|].
  destruct (lookup key (ownEnumerable options)); reflexivity.
Qed.

(** C8. There is no [executeFn]: neither the options of a middleware nor
    the result of its override can hold one, and a request that reaches the
    execution step is executed by the one call [executeGraphQL(args)], whose
    result is the result of the request. The call is passed the effective
    [schema], [rootValue], [contextValue] and [fieldResolver] (the value of
    the result of the override where that has the key, the value of the
    options otherwise), the parsed document, and [variables] and
    [operationName] of the request body. *)
Theorem C8_execute_call next options :
  Execute.setup env options = Normal st ->
  NoDup (keysOf (ownEnumerable options)) ->
  NoDup (keysOf (ownEnumerable overrideOptions)) ->
  isUndefined (effectiveOption options overrideOptions "schema") = false ->
  validate env (effectiveOption options overrideOptions "schema") document
  = Normal [] ->
  let effective := effectiveOption options overrideOptions in
  let passed :=
    VObject KPlain
      [("schema", effective "schema");
       ("rootValue", effective "rootValue");
       ("contextValue", effective "contextValue");
       ("fieldResolver", effective "fieldResolver");
       ("document", document);
       ("variableValues", getProp body "variables");
       ("operationName", getProp body "operationName")] in
  let before :=
    (CallParse (getProp body "query") :: overrideEvents st
     ++ [CallValidate (effective "schema") document])%list in
  ~ In "executeFn" (keysOf (ownEnumerable options)) /\
  ~ In "executeFn" (keysOf (ownEnumerable overrideOptions)) /\
  Execute.middleware env st next s
  = Execute.runOperation env passed next (mkState (ctx s) (log s ++ before)) /\
  (forall result,
     executeGraphQL env passed = inr result -> errors result = None ->
     Execute.middleware env st next s
     = next (respond s (VNumber 200)
               (written result (response_body (ctx s)))
               (before ++ [CallExecute passed]))) /\
  (forall result errs,
     executeGraphQL env passed = inr result -> errors result = Some errs ->
     exists failed,
       Execute.middleware env st next s
       = (Throw (createError
                   [VNumber 200; VString "GraphQL errors.";
                    VObject KPlain
                      [("graphqlErrors", jsArray (map errorObject errs))]]),
          failed) /\
       log failed = (log s ++ before ++ [CallExecute passed])%list).
Proof.
  intros Hsetup Hoptions Hover Hschema Hvalidate effective passed before.
  unfold effective in *.
  assert (forall key, key <> "override" ->
            getProp requestOptions key
            = effectiveOption options overrideOptions key) as Heffective
    by (intros key Hkey; now apply mergeOptions_effective).
  assert (schema = effectiveOption options overrideOptions "schema") as Eschema
    by (apply Heffective; discriminate).
  assert (args = passed) as Eargs.
  { subst args passed. unfold Execute.executeArgs.
    rewrite !Heffective by discriminate. reflexivity. }
  rewrite <- Eschema in Hschema, Hvalidate.
  assert (forall k, Execute.middleware env st k s
                    = Execute.runOperation env passed k
                        (mkState (ctx s) (log s ++ before))) as Hrun.
  { intros k. rewrite (middleware_valid k Hschema Hvalidate).
    rewrite resolved_state, Eargs. cbn [ctx log]. subst before.
    rewrite <- Eschema, <- app_assoc. reflexivity. }
  split; [|split; [|split; [|split]]].
  - destruct (setup_inv _ _ _ Hsetup) as [Hkeys _]. intros Hin.
    apply (invalidKeys_nil _ _ Hkeys) in Hin.
    cbn in Hin. intuition discriminate.
  - destruct (resolveOverride_inv _ _ _ _ _ resolved)
      as [_ [[_ Hov]|(_ & _ & Hov)]].
    + rewrite Hov. cbn. tauto.
    + apply checkOptions_inv in Hov. intros Hin.
      apply (invalidKeys_nil _ _ Hov) in Hin.
      cbn in Hin. intuition discriminate.
  - apply Hrun.
  - intros result Hexec Herrors. rewrite Hrun.
    rewrite (runOperation_success next _ result _ Hexec Herrors).
    unfold respond. cbn [ctx log response_body request_body].
    now rewrite <- app_assoc.
  - intros result errs Hexec Herrors. rewrite Hrun.
    rewrite (runOperation_errors next _ result errs _ Hexec Herrors).
    eexists. split; [reflexivity|].
    unfold respond. cbn [ctx log]. now rewrite <- app_assoc.
Qed.

(** C10. A key the object returned by the override holds with the value
    [undefined] is [undefined] in the merged options, whatever the static
    options have for it; when that key is [schema] the request fails with
    the configuration error "GraphQL schema is required.", status 500 and not
    exposed. *)
Theorem C10_override_undefined next :
  NoDup (keysOf (ownEnumerable overrideOptions)) ->
  (forall key,
     lookup key (ownEnumerable overrideOptions) = Some VUndefined ->
     getProp requestOptions key = VUndefined) /\
  (lookup "schema" (ownEnumerable overrideOptions) = Some VUndefined ->
   let error := Execute.createHttpError [VString "GraphQL schema is required."] in
   Execute.middleware env st next s = (Throw error, s2) /\
   getProp error "message" = VString "GraphQL schema is required." /\
   getProp error "status" = VNumber 500 /\
   getProp error "expose" = VBool false).
Proof.
  intros Hnodup.
  assert (forall key,
            lookup key (ownEnumerable overrideOptions) = Some VUndefined ->
            getProp requestOptions key = VUndefined) as Hmerge.
  { intros key Hkey. subst requestOptions.
    unfold getProp, Execute.mergeOptions, spreadInto. cbn [ownProps].
    now rewrite (lookup_fold_assign_in key VUndefined _ _ Hnodup Hkey). }
  split; [exact Hmerge|].
  intros Hschema error. split; [|repeat split].
  apply middleware_unschemed. unfold schema. now rewrite Hmerge.
Qed.

End ExecuteRequest.

(** C5. A query that does not parse fails the request with the error of
    status 400, exposed, whose message ends with the message of the parser;
    the log of the request holds the parse and no call of the override; the
    response [errorHandler] writes is 400 with that message. *)
Theorem C5_syntax_error env st next s message :
  Execute.isEnumerableObject (request_body (ctx s)) = true ->
  hasProperty (request_body (ctx s)) "query" = true ->
  parse env (getProp (request_body (ctx s)) "query") = inl message ->
  let query := getProp (request_body (ctx s)) "query" in
  let text := "GraphQL query syntax error: " ++ message in
  let error := Execute.createHttpError [VNumber 400; VString text] in
  let failed := mkState (ctx s) (log s ++ [CallParse query]) in
  Execute.middleware env st next s = (Throw error, failed) /\
  getProp error "status" = VNumber 400 /\
  getProp error "expose" = VBool true /\
  getProp error "message" = VString text /\
  (forall fn, ~ In (CallOverride fn) [CallParse query]) /\
  (bodyReady (response_body (ctx s)) = true ->
   Index.errorHandler (Execute.middleware env st next) s
   = (Normal tt,
      respond failed (VNumber 400)
        (withErrors (response_body (ctx s)) [messageOnly text])
        [Emit "error" error])).
Proof.
  intros Hobject Hquery Hparse query text error failed.
  assert (Execute.middleware env st next s = (Throw error, failed)) as Hrun.
  { unfold Execute.middleware. unfold bind at 1.
    unfold Execute.parseRequest. unfold_monad.
    unfold Execute.isEnumerableObject in *.
    rewrite (isPlainObject_defined _ Hobject), Hobject, Hquery. cbn [negb].
    rewrite (isPlainObject_readProp _ _ Hobject), Hparse. reflexivity. }
  split; [exact Hrun|]. do 3 (split; [reflexivity|]).
  split.
  - intros fn [H|[]]. discriminate.
  - intros Hbody.
    rewrite (errorHandler_caught _ s error failed Hrun) with
      (httpError := error) (formatted := [messageOnly text]);
      try reflexivity.
    exact Hbody.
Qed.

(** C3, as the code has it. [execute(options)] fails with the "options
    invalid" configuration error, status 500 and not exposed, if and only if
    the options object has a key outside [schema], [rootValue],
    [contextValue], [fieldResolver], [override]; the keys the message names
    are the keys of the options that are outside that list, each of them and
    no other, in the order of the object. This holds of [execute] in
    [src/execute.mjs] and of [execute] in [src/index.mjs]. *)
Theorem C3_options_invalid env options :
  Index.isPlainObject options = true ->
  let keys := keysOf (ownEnumerable options) in
  let invalid := Index.invalidKeys keys Execute.ALLOWED_EXECUTE_OPTIONS in
  let error :=
    Execute.createHttpError
      [VString (Index.optionsInvalidMessage "GraphQL execute middleware" invalid)] in
  ((exists key, In key keys /\ ~ In key Execute.ALLOWED_EXECUTE_OPTIONS)
   <-> Execute.setup env options = Throw error) /\
  ((exists key, In key keys /\ ~ In key Index.ALLOWED_OPTIONS)
   <-> Index.setup env options = Throw error) /\
  (forall key,
     In key invalid <-> In key keys /\ ~ In key Execute.ALLOWED_EXECUTE_OPTIONS) /\
  getProp error "message"
  = VString ("GraphQL execute middleware options invalid: `"
             ++ join "`, `" invalid ++ "`.") /\
  getProp error "status" = VNumber 500 /\
  getProp error "expose" = VBool false.
Proof.
  intros Hplain keys invalid error.
  assert (objectKeys options = Normal keys) as Hkeys
    by (destruct options; try discriminate; reflexivity).
  assert ((exists key, In key keys /\ ~ In key Execute.ALLOWED_EXECUTE_OPTIONS)
          <-> invalid <> []) as Hinvalid.
  { split.
    - intros [key Hkey] Hnil. apply invalidKeys_In in Hkey.
      fold invalid in Hkey. rewrite Hnil in Hkey. destruct Hkey.
    - intros Hne. destruct invalid as [|key rest] eqn:E; [congruence|].
      exists key. apply invalidKeys_In. fold keys. fold invalid.
      rewrite E. now left. }
  assert (invalid = [] ->
          Index.checkOptions options Execute.ALLOWED_EXECUTE_OPTIONS
            "GraphQL execute middleware" = Normal tt) as Hpass.
  { intros Hnil. unfold Index.checkOptions. rewrite Hkeys. cbn [andThen].
    fold invalid. rewrite Hnil. reflexivity. }
  split; [|split; [|split; [intros key; apply invalidKeys_In|repeat split]]].
  - rewrite Hinvalid. split.
    + intros Hne. unfold Execute.setup.
      rewrite (isPlainObject_defined _ Hplain).
      unfold Execute.checkOptions.
      rewrite checkOptions_invalid; [reflexivity|exact Hkeys|exact Hne].
    + intros Hsetup Hnil. revert Hsetup. unfold Execute.setup.
      rewrite (isPlainObject_defined _ Hplain).
      unfold Execute.checkOptions. rewrite (Hpass Hnil). cbn [andThen].
      rewrite !(isPlainObject_readProp _ _ Hplain). cbn [andThen].
      unfold Execute.checkSchema, Index.checkSchema, error.
      repeat match goal with
             | |- context [if ?c then _ else _] => destruct c
             end; cbn; discriminate.
  - change Index.ALLOWED_OPTIONS with Execute.ALLOWED_EXECUTE_OPTIONS.
    rewrite Hinvalid. split.
    + intros Hne. unfold Index.setup.
      rewrite (isPlainObject_defined _ Hplain), Hplain. cbn [negb].
      change Index.ALLOWED_OPTIONS with Execute.ALLOWED_EXECUTE_OPTIONS.
      rewrite checkOptions_invalid; [reflexivity|exact Hkeys|exact Hne].
    + intros Hsetup Hnil. revert Hsetup. unfold Index.setup.
      rewrite (isPlainObject_defined _ Hplain), Hplain. cbn [negb].
      change Index.ALLOWED_OPTIONS with Execute.ALLOWED_EXECUTE_OPTIONS.
      rewrite (Hpass Hnil). cbn [andThen].
      rewrite !(isPlainObject_readProp _ _ Hplain). cbn [andThen].
      unfold Index.checkSchema, error.
      repeat match goal with
             | |- context [if ?c then _ else _] => destruct c
             end; cbn; discriminate.
Qed.

(** C3, as stated, fails: [{ executeFn }] has no key outside the set the
    specification allows, and [execute] rejects it with the unexposed
    configuration error that names [executeFn]. *)
Lemma C3_executeFn_rejected :
  (forall key, In key (keysOf (ownEnumerable Demo.executeFnOptions)) ->
               In key SPEC_ALLOWED_OPTIONS) /\
  exists error,
    Execute.setup Demo.env Demo.executeFnOptions = Throw error /\
    getProp error "message"
    = VString "GraphQL execute middleware options invalid: `executeFn`." /\
    getProp error "status" = VNumber 500 /\
    getProp error "expose" = VBool false.
Proof.
  split.
  - intros key [H|[]]. subst key. cbn. tauto.
  - eexists. repeat split.
Qed.

(** *** The override step of [src/index.mjs] *)

Lemma checkSchema_unexposed env schema error :
  Index.checkSchema env schema = Throw error ->
  getProp error "status" = VNumber 500 /\ getProp error "expose" = VBool false.
Proof.
  unfold Index.checkSchema.
  destruct (instanceofGraphQLSchema schema); cbn [negb].
  - destruct (validateSchema env schema); cbn [List.length Nat.eqb negb];
      [discriminate|].
    intros H. inversion H; subst. split; reflexivity.
  - intros H. inversion H; subst. split; reflexivity.
Qed.

Lemma index_setup_plain env options :
  Index.setup env options = Normal tt -> Index.isPlainObject options = true.
Proof.
  unfold Index.setup. destruct (isUndefined options); [discriminate|].
  destruct (Index.isPlainObject options); [reflexivity|discriminate].
Qed.

Section IndexOverride.

Variable env : Env.
Variable options : value.
Variable next : M unit.
Variables s s1 : State.
Variables document result : value.

(** The middleware was created from [options], which have an [override];
    the request has a query that parses, and the override returned
    [result]. *)
Hypothesis configured : Index.setup env options = Normal tt.
Hypothesis parsed : Index.parseRequest env s = (Normal document, s1).
Hypothesis overriding : truthy (getProp options "override") = true.
Hypothesis returned :
  call env (getProp options "override") (ctx s) = Normal result.

Let allowed := Index.withoutOverride Index.ALLOWED_OPTIONS.
Let description := "GraphQL execute middleware `override` option return".
Let invalid := Index.invalidKeys (keysOf (ownEnumerable result)) allowed.
Let called :=
  mkState (ctx s)
    (log s ++ [CallParse (getProp (request_body (ctx s)) "query");
               CallOverride (getProp options "override")]).

(** The override step up to the check of the keys. *)
Lemma index_override_called :
  Index.resolveOverride env options s1
  = (if negb (Index.isPlainObject result) then
       throw (createError
         [VString "GraphQL execute middleware options must be an object, or an object promise."])
     else
       (lift (Index.checkOptions result allowed description) ;;
        schema <- lift (readProp result "schema") ;;
        (if negb (isUndefined schema)
         then lift (Index.checkSchema env schema) else ret tt) ;;
        ret result)%koa) called.
Proof.
  destruct (parseRequest_inv _ _ _ _ parsed) as (_ & _ & _ & Hs1).
  unfold Index.resolveOverride. unfold bind at 1. unfold lift at 1.
  rewrite (isPlainObject_readProp _ _ (index_setup_plain _ _ configured)).
  rewrite overriding. unfold bind at 1. unfold record at 1.
  unfold bind at 1. unfold getContext at 1. unfold bind at 1. unfold lift at 1.
  cbn [ctx log]. rewrite Hs1. cbn [ctx log]. rewrite returned.
  unfold called. rewrite <- app_assoc. reflexivity.
Qed.

Lemma index_middleware_override_fails error :
  Index.resolveOverride env options s1 = (Throw error, called) ->
  Index.middleware env options next s = (Throw error, called).
Proof.
  intros H. unfold Index.middleware.
  unfold bind at 1. rewrite parsed. unfold bind at 1. now rewrite H.
Qed.

(** C6. What the override returns must pass three checks, made in this
    order before the options are merged and before any validation or
    execution. (1) It must be an object that is not an array, or the request
    fails with an unexposed configuration error. (2) Its keys must be among
    [schema], [rootValue], [contextValue], [fieldResolver]: any other key
    fails the request with the unexposed "options invalid" error naming the
    key, and [override] is such a key. (3) A [schema] it carries goes
    through [checkSchema], whose failure fails the request. In each case the
    log of the request ends with the call of the override. *)
Theorem C6_override_result :
  allowed = ["schema"; "rootValue"; "contextValue"; "fieldResolver"] /\
  (Index.isPlainObject result = false ->
   let error :=
     createError
       [VString "GraphQL execute middleware options must be an object, or an object promise."] in
   Index.middleware env options next s = (Throw error, called) /\
   getProp error "status" = VNumber 500 /\
   getProp error "expose" = VBool false) /\
  (Index.isPlainObject result = true ->
   forall key,
     In key (keysOf (ownEnumerable result)) -> ~ In key allowed ->
     let error :=
       createError [VString (Index.optionsInvalidMessage description invalid)] in
     Index.middleware env options next s = (Throw error, called) /\
     In key invalid /\
     getProp error "status" = VNumber 500 /\
     getProp error "expose" = VBool false) /\
  (Index.isPlainObject result = true ->
   In "override" (keysOf (ownEnumerable result)) ->
   Index.middleware env options next s
   = (Throw (createError
               [VString (Index.optionsInvalidMessage description invalid)]),
      called) /\
   In "override" invalid) /\
  (Index.isPlainObject result = true ->
   invalid = [] ->
   isUndefined (getProp result "schema") = false ->
   forall error,
     Index.checkSchema env (getProp result "schema") = Throw error ->
     Index.middleware env options next s = (Throw error, called) /\
     getProp error "status" = VNumber 500 /\
     getProp error "expose" = VBool false) /\
  existsb attempts
    [CallParse (getProp (request_body (ctx s)) "query");
     CallOverride (getProp options "override")] = false.
Proof.
  assert (Index.isPlainObject result = true ->
          forall key,
            In key (keysOf (ownEnumerable result)) -> ~ In key allowed ->
            Index.middleware env options next s
            = (Throw (createError
                        [VString (Index.optionsInvalidMessage description invalid)]),
               called) /\
            In key invalid) as Hkeys.
  { intros Hplain key Hkey Hnot.
    assert (In key invalid) as Hin by (apply invalidKeys_In; auto).
    split; [|exact Hin].
    apply index_middleware_override_fails.
    rewrite index_override_called, Hplain. cbn [negb].
    unfold bind at 1. unfold lift at 1.
    rewrite checkOptions_invalid.
    - reflexivity.
    - destruct result; try discriminate; reflexivity.
    - fold allowed. fold invalid. intros Hnil. rewrite Hnil in Hin.
      destruct Hin. }
  split; [reflexivity|].
  split; [|split; [|split; [|split; [|reflexivity]]]].
  - intros Hplain error. split; [|split; reflexivity].
    apply index_middleware_override_fails.
    rewrite index_override_called, Hplain. reflexivity.
  - intros Hplain key Hkey Hnot error.
    destruct (Hkeys Hplain key Hkey Hnot) as [Hrun Hin].
    split; [exact Hrun|split; [exact Hin|split; reflexivity]].
  - intros Hplain Hkey. apply (Hkeys Hplain "override" Hkey).
    cbn. intuition discriminate.
  - intros Hplain Hvalid Hschema error Hcheck.
    split; [|now apply (checkSchema_unexposed env (getProp result "schema"))].
    apply index_middleware_override_fails.
    rewrite index_override_called, Hplain. cbn [negb].
    unfold bind at 1. unfold lift at 1.
    unfold Index.checkOptions.
    replace (objectKeys result) with (Normal (keysOf (ownEnumerable result)))
      by (destruct result; try discriminate; reflexivity).
    cbn [andThen]. fold allowed. fold invalid. rewrite Hvalid.
    cbn [List.length Nat.eqb negb].
    unfold bind at 1. unfold lift at 1.
    rewrite (isPlainObject_readProp _ _ Hplain).
    unfold bind at 1. rewrite Hschema. cbn [negb]. unfold lift at 1.
    rewrite Hcheck. reflexivity.
Qed.

End IndexOverride.

(** *** The override step of [src/execute.mjs] *)

Section ExecuteOverride.

Variable env : Env.
Variable st : Execute.Static.
Variable next : M unit.
Variables s s1 : State.
Variables document result : value.

Hypothesis parsed : Execute.parseRequest env s = (Normal document, s1).
Hypothesis overriding : truthy (Execute.override st) = true.
Hypothesis returned : call env (Execute.override st) (ctx s) = Normal result.

Let allowed := Index.withoutOverride Execute.ALLOWED_EXECUTE_OPTIONS.
Let description := "GraphQL execute middleware `override` option resolved".
Let called :=
  mkState (ctx s)
    (log s ++ [CallParse (getProp (request_body (ctx s)) "query");
               CallOverride (Execute.override st)]).

Lemma execute_override_called :
  Execute.resolveOverride env st s1
  = ((lift (Execute.checkOptions result allowed description) ;;
      schema <- lift (readProp result "schema") ;;
      (if negb (isUndefined schema)
       then lift (Execute.checkSchema env schema) else ret tt) ;;
      ret result)%koa) called.
Proof.
  destruct (parseRequest_inv _ _ _ _ parsed) as (_ & _ & _ & Hs1).
  unfold Execute.resolveOverride. rewrite overriding.
  unfold bind at 1. unfold record at 1.
  unfold bind at 1. unfold getContext at 1. unfold bind at 1. unfold lift at 1.
  cbn [ctx log]. rewrite Hs1. cbn [ctx log]. rewrite returned.
  unfold called. rewrite <- app_assoc. reflexivity.
Qed.

(** The override step of [src/execute.mjs], for the two checks the file
    makes itself: a result that is an object with a key outside [schema],
    [rootValue], [contextValue], [fieldResolver] fails the request, and so
    does a schema that [checkSchema] rejects. *)
Lemma execute_override_result :
  (Execute.isEnumerableObject result = true ->
   forall key,
     In key (keysOf (ownEnumerable result)) -> ~ In key allowed ->
     Execute.middleware env st next s
     = (Throw (Execute.createHttpError
                 [VString (Index.optionsInvalidMessage description
                             (Index.invalidKeys (keysOf (ownEnumerable result))
                                allowed))]),
        called)) /\
  (Execute.isEnumerableObject result = true ->
   Index.invalidKeys (keysOf (ownEnumerable result)) allowed = [] ->
   isUndefined (getProp result "schema") = false ->
   forall error,
     Execute.checkSchema env (getProp result "schema") = Throw error ->
     Execute.middleware env st next s = (Throw error, called)).
Proof.
  assert (forall error,
            Execute.resolveOverride env st s1 = (Throw error, called) ->
            Execute.middleware env st next s = (Throw error, called)) as Hfails.
  { intros error H. unfold Execute.middleware.
    unfold bind at 1. rewrite parsed. unfold bind at 1. now rewrite H. }
  split.
  - intros Hobject key Hkey Hnot. apply Hfails.
    rewrite execute_override_called.
    unfold bind at 1. unfold lift at 1. unfold Execute.checkOptions.
    rewrite checkOptions_invalid.
    + reflexivity.
    + destruct result; try discriminate; reflexivity.
    + intros Hnil.
      assert (In key (Index.invalidKeys (keysOf (ownEnumerable result)) allowed))
        as Hin by (apply invalidKeys_In; auto).
      rewrite Hnil in Hin. destruct Hin.
  - intros Hobject Hvalid Hschema error Hcheck. apply Hfails.
    rewrite execute_override_called.
    unfold bind at 1. unfold lift at 1.
    unfold Execute.checkOptions, Index.checkOptions.
    replace (objectKeys result) with (Normal (keysOf (ownEnumerable result)))
      by (destruct result; try discriminate; reflexivity).
    cbn [andThen]. fold allowed. rewrite Hvalid.
    cbn [List.length Nat.eqb negb].
    unfold bind at 1. unfold lift at 1.
    rewrite (isPlainObject_readProp _ _ Hobject).
    unfold bind at 1. rewrite Hschema. cbn [negb]. unfold lift at 1.
    rewrite Hcheck. reflexivity.
Qed.

End ExecuteOverride.

(** *** The [execute] middleware of [src/index.mjs], step by step *)

Lemma keysOf_assign key v ps k :
  In k (keysOf (assign key v ps)) <-> k = key \/ In k (keysOf ps).
Proof.
  induction ps as [|[k' w] rest IH]; cbn.
  - intuition.
  - destruct (String.eqb k' key) eqn:E; cbn.
    + apply String.eqb_eq in E. subst k'. intuition.
    + rewrite IH. intuition.
Qed.

Lemma assign_NoDup key v ps :
  NoDup (keysOf ps) -> NoDup (keysOf (assign key v ps)).
Proof.
  induction ps as [|[k' w] rest IH]; cbn; intros Hnd.
  - constructor; [intros []|constructor].
  - inversion Hnd as [|? ? Hnotin Hnd']; subst.
    destruct (String.eqb k' key) eqn:E; cbn.
    + constructor; assumption.
    + constructor; [|now apply IH].
      rewrite keysOf_assign. intros [Heq|Hin]; [|contradiction].
      subst k'. rewrite String.eqb_refl in E. discriminate.
Qed.

Lemma fold_assign_NoDup (src : Props) : forall target,
  NoDup (keysOf target) ->
  NoDup (keysOf (fold_left (fun acc p => assign (fst p) (snd p) acc) src target)).
Proof.
  induction src as [|[k w] rest IH]; cbn; intros target Hnd; auto.
  apply IH. now apply assign_NoDup.
Qed.

Lemma assign_fresh key v ps :
  ~ In key (keysOf ps) -> assign key v ps = (ps ++ [(key, v)])%list.
Proof.
  induction ps as [|[k' w] rest IH]; cbn; intros Hn; auto.
  destruct (String.eqb k' key) eqn:E.
  - apply String.eqb_eq in E. tauto.
  - rewrite IH by tauto. reflexivity.
Qed.

(** Spreading an object whose keys are distinct into an empty one copies
    it. *)
Lemma fold_assign_copy (ps : Props) : forall acc,
  NoDup (keysOf (acc ++ ps)%list) ->
  fold_left (fun a p => assign (fst p) (snd p) a) ps acc = (acc ++ ps)%list.
Proof.
  induction ps as [|[k w] rest IH]; cbn; intros acc Hnd.
  - now rewrite app_nil_r.
  - assert (~ In k (keysOf acc)) as Hfresh.
    { unfold keysOf in *. rewrite map_app in Hnd. cbn in Hnd.
      apply NoDup_remove_2 in Hnd. intros Hin. apply Hnd.
      apply in_or_app. now left. }
    rewrite assign_fresh by assumption.
    rewrite IH; rewrite <- app_assoc; [reflexivity|exact Hnd].
Qed.

Lemma spread_copy (ps : Props) :
  NoDup (keysOf ps) -> spreadInto [] (VObject KPlain ps) = ps.
Proof.
  intros Hnd. unfold spreadInto. cbn [ownEnumerable]. rewrite filter_all.
  now rewrite fold_assign_copy.
Qed.

Lemma index_setup_inv env options :
  Index.setup env options = Normal tt ->
  Index.isPlainObject options = true /\
  Index.invalidKeys (keysOf (ownEnumerable options)) Index.ALLOWED_OPTIONS = [].
Proof.
  intros Hsetup. split; [now apply (index_setup_plain env)|].
  revert Hsetup. unfold Index.setup.
  destruct (isUndefined options); [discriminate|].
  destruct (Index.isPlainObject options); cbn [negb]; [|discriminate].
  destruct (Index.checkOptions options _ _) as [[]|e] eqn:Ek;
    cbn [andThen]; [|discriminate].
  intros _. now apply checkOptions_inv in Ek.
Qed.

Section IndexRequest.

Variable env : Env.
Variable options : value.
Variables s s1 s2 : State.
Variables document optionsOverride : value.

(** The middleware was created from [options]; the request has a body with
    a query that parses, and the [override] step went through. *)
Hypothesis configured : Index.setup env options = Normal tt.
Hypothesis parsed : Index.parseRequest env s = (Normal document, s1).
Hypothesis resolved :
  Index.resolveOverride env options s1 = (Normal optionsOverride, s2).

Let body := request_body (ctx s).
Let execute := Index.mergeOptions options optionsOverride.
Let schema := getProp execute "schema".
Let args :=
  Index.executeArgs execute document
    (getProp body "variables") (getProp body "operationName").
Let validated : list Event :=
  (CallParse (getProp body "query") :: indexOverrideEvents options
   ++ [CallValidate schema document])%list.

Lemma index_resolved :
  s2 = mkState (ctx s)
         (log s ++ CallParse (getProp body "query") :: indexOverrideEvents options) /\
  Index.invalidKeys (keysOf (ownEnumerable optionsOverride))
    (Index.withoutOverride Index.ALLOWED_OPTIONS) = [].
Proof.
  destruct (parseRequest_inv _ _ _ _ parsed) as (_ & _ & _ & Hs1).
  pose proof (index_setup_plain _ _ configured) as Hplain.
  revert resolved. unfold Index.resolveOverride, indexOverrideEvents.
  unfold bind at 1. unfold lift at 1.
  rewrite (isPlainObject_readProp _ _ Hplain).
  destruct (truthy (getProp options "override")) eqn:E.
  - unfold_monad. cbn [ctx log].
    destruct (call env (getProp options "override") (ctx s1)) as [r|e];
      [|discriminate].
    destruct (Index.isPlainObject r) eqn:Hr; cbn [negb]; [|discriminate].
    destruct (Index.checkOptions r _ _) as [[]|e] eqn:Ek; [|discriminate].
    apply checkOptions_inv in Ek.
    rewrite (isPlainObject_readProp _ _ Hr).
    destruct (isUndefined (getProp r "schema")); cbn [negb].
    + intros H. inversion H; subst. cbn [ctx log].
      rewrite <- app_assoc. split; [reflexivity|exact Ek].
    + destruct (Index.checkSchema env (getProp r "schema")) as [[]|e];
        [|discriminate].
      intros H. inversion H; subst. cbn [ctx log].
      rewrite <- app_assoc. split; [reflexivity|exact Ek].
  - unfold ret. intros H. inversion H; subst. cbn [ctx log].
    split; reflexivity.
Qed.

Lemma index_validating k :
  Index.middleware env options k s
  = ((Index.validateDocument env schema document ;;
      c <- getContext ;;
      variables <- lift (readProp (request_body c) "variables") ;;
      operationName <- lift (readProp (request_body c) "operationName") ;;
      Index.runOperation env
        (Index.executeArgs execute document variables operationName) k)%koa) s2.
Proof.
  unfold Index.middleware.
  unfold bind at 1. rewrite parsed. unfold bind at 1. rewrite resolved.
  reflexivity.
Qed.

(** Validation errors, for the [execute] of [src/index.mjs]: status 400 and
    every error formatted, in order. *)
Lemma index_validation_errors next errs :
  validate env schema document = Normal errs ->
  (1 <= List.length errs)%nat ->
  let error :=
    createError
      [VNumber 400; VString "GraphQL query validation errors.";
       VObject KPlain [("graphqlErrors", jsArray (map errorObject errs))]] in
  Index.middleware env options next s
  = (Throw error, respond s (response_status (ctx s)) (response_body (ctx s)) validated) /\
  (bodyReady (response_body (ctx s)) = true ->
   Index.errorHandler (Index.middleware env options next) s
   = (Normal tt,
      respond s (VNumber 400)
        (withErrors (response_body (ctx s)) (map formattedError errs))
        (validated ++ [Emit "error" error]))).
Proof.
  intros Hvalidate Hn error. destruct index_resolved as [Hs2 _].
  assert (Index.middleware env options next s
          = (Throw error,
             respond s (response_status (ctx s)) (response_body (ctx s)) validated))
    as Hrun.
  { rewrite index_validating. unfold Index.validateDocument. unfold_monad.
    rewrite Hvalidate. destruct errs; [cbn in Hn; lia|].
    cbn [List.length Nat.eqb negb]. rewrite Hs2. unfold respond, validated.
    cbn [ctx log]. rewrite <- app_assoc. destruct s as [[rb rs rbody] lg].
    reflexivity. }
  split; [exact Hrun|]. intros Hbody.
  rewrite (errorHandler_caught _ s error _ Hrun) with
    (httpError := error) (formatted := map formattedError errs).
  - unfold respond. cbn [ctx log request_body response_body].
    now rewrite <- app_assoc.
  - exact Hbody.
  - reflexivity.
  - apply mapFormatError_errorObject.
Qed.

Lemma index_middleware_valid k :
  validate env schema document = Normal [] ->
  Index.middleware env options k s
  = Index.runOperation env args k
      (respond s (response_status (ctx s)) (response_body (ctx s)) validated).
Proof.
  intros Hvalidate. destruct index_resolved as [Hs2 _].
  destruct (parseRequest_inv _ _ _ _ parsed) as (Hobject & _).
  rewrite index_validating. unfold Index.validateDocument. unfold_monad.
  rewrite Hvalidate. cbn [List.length Nat.eqb negb ctx log].
  rewrite Hs2. cbn [ctx log].
  rewrite !(isPlainObject_readProp _ _ Hobject).
  unfold respond, validated. rewrite <- app_assoc.
  destruct s as [[rb rs rbody] lg]. reflexivity.
Qed.

(** The call of the executor, for the [execute] of [src/index.mjs]: the
    call is given the merged
    options, which never hold an [executeFn], with the document, the
    variables and the operation name added. *)
Lemma index_execute_call next :
  validate env schema document = Normal [] ->
  effectiveExecuteFn execute = None /\
  Index.middleware env options next s
  = Index.runOperation env args next
      (respond s (response_status (ctx s)) (response_body (ctx s)) validated) /\
  getProp args "schema" = getProp execute "schema" /\
  getProp args "rootValue" = getProp execute "rootValue" /\
  getProp args "contextValue" = getProp execute "contextValue" /\
  getProp args "fieldResolver" = getProp execute "fieldResolver" /\
  getProp args "document" = document /\
  getProp args "variableValues" = getProp body "variables" /\
  getProp args "operationName" = getProp body "operationName".
Proof.
  intros Hvalidate.
  destruct (index_setup_inv _ _ configured) as [_ Hkeys].
  destruct index_resolved as [_ Hoverride].
  split.
  { unfold effectiveExecuteFn, getProp. subst execute.
    change (Index.mergeOptions options optionsOverride)
      with (Execute.mergeOptions options optionsOverride).
    rewrite mergeOptions_absent; [reflexivity| |].
    - intros Hin. apply (invalidKeys_nil _ _ Hkeys) in Hin.
      cbn in Hin. intuition discriminate.
    - intros Hin. apply (invalidKeys_nil _ _ Hoverride) in Hin.
      cbn in Hin. intuition discriminate. }
  split; [now apply index_middleware_valid|].
  assert (spreadInto [] execute = ownProps execute) as Hcopy.
  { subst execute. unfold Index.mergeOptions. cbn [ownProps].
    apply spread_copy. unfold spreadInto.
    apply fold_assign_NoDup. apply fold_assign_NoDup. constructor. }
  subst args. unfold Index.executeArgs, getProp. cbn [ownProps protoProp].
  rewrite Hcopy.
  repeat split;
    repeat first
      [ rewrite lookup_assign_same
      | rewrite lookup_assign_other by discriminate ];
    try reflexivity;
    subst execute; unfold Index.mergeOptions; cbn [ownProps protoProp];
    reflexivity.
Qed.

(** The result of the execution, for the [execute] of [src/index.mjs]: with
    no errors the chain goes on with status 200 and the data; with errors
    the response is 200 with the errors formatted and the data kept. *)
Lemma index_execution_result next result :
  validate env schema document = Normal [] ->
  executeGraphQL env args = inr result ->
  let bodyThen := written result (response_body (ctx s)) in
  let events := (validated ++ [CallExecute args])%list in
  (errors result = None ->
   Index.middleware env options next s
   = next (respond s (VNumber 200) bodyThen events)) /\
  (forall errs,
     errors result = Some errs ->
     bodyReady bodyThen = true ->
     let error :=
       createError
         [VNumber 200; VString "GraphQL errors.";
          VObject KPlain [("graphqlErrors", jsArray (map errorObject errs))]] in
     Index.errorHandler (Index.middleware env options next) s
     = (Normal tt,
        respond s (VNumber 200)
          (withErrors bodyThen (map formattedError errs))
          (events ++ [Emit "error" error]))).
Proof.
  intros Hvalidate Hexec bodyThen events. split.
  - intros Herrors. rewrite (index_middleware_valid next Hvalidate).
    change (Index.runOperation env args next)
      with (Execute.runOperation env args next).
    rewrite (runOperation_success env next _ result _ Hexec Herrors).
    unfold respond, events. cbn [ctx log request_body response_body].
    now rewrite <- app_assoc.
  - intros errs Herrors Hbody error.
    assert (Index.middleware env options next s
            = (Throw error,
               respond s (response_status (ctx s)) bodyThen events)) as Hrun.
    { rewrite (index_middleware_valid next Hvalidate).
      change (Index.runOperation env args next)
        with (Execute.runOperation env args next).
      rewrite (runOperation_errors env next _ result errs _ Hexec Herrors).
      unfold respond, events.
      cbn [ctx log request_body response_body response_status].
      now rewrite <- app_assoc. }
    rewrite (errorHandler_caught _ s error _ Hrun) with
      (httpError := error) (formatted := map formattedError errs).
    + unfold respond. cbn [ctx log request_body response_body].
      now rewrite <- app_assoc.
    + exact Hbody.
    + reflexivity.
    + apply mapFormatError_errorObject.
Qed.

End IndexRequest.

(** A query that does not parse, for the [execute] of [src/index.mjs]. *)
Lemma index_syntax_error env options next s message :
  Index.isPlainObject (request_body (ctx s)) = true ->
  hasProperty (request_body (ctx s)) "query" = true ->
  parse env (getProp (request_body (ctx s)) "query") = inl message ->
  Index.middleware env options next s
  = (Throw (createError
              [VNumber 400; VString ("GraphQL query syntax error: " ++ message)]),
     mkState (ctx s)
       (log s ++ [CallParse (getProp (request_body (ctx s)) "query")])).
Proof.
  intros Hobject Hquery Hparse.
  unfold Index.middleware. unfold bind at 1.
  unfold Index.parseRequest. unfold_monad.
  rewrite (isPlainObject_defined _ Hobject), Hobject, Hquery. cbn [negb].
  rewrite (isPlainObject_readProp _ _ Hobject), Hparse. reflexivity.
Qed.

(** *** The properties on the demo application *)

(** C7 on a middleware created without a schema and without an override. *)
Lemma C7_schema_required_witness :
  Execute.middleware Demo.env Demo.noSchema (ret tt) (Demo.request "{ hello }")
  = (Throw (createError [VString "GraphQL schema is required."]),
     respond (Demo.request "{ hello }") (VNumber 404) VUndefined
       [CallParse (VString "{ hello }")]).
Proof.
  destruct (C7_schema_required Demo.env Demo.noSchema
              (Demo.request "{ hello }") _ _ _ _ eq_refl eq_refl
              (ret tt) eq_refl) as (Hrun & _).
  exact Hrun.
Defined.

(** C4 on [{ missingField }]: one validation error, one formatted error. *)
Lemma C4_validation_errors_witness :
  Index.errorHandler (Execute.middleware Demo.env Demo.static (ret tt))
    (Demo.request "{ missingField }")
  = (Normal tt,
     respond (Demo.request "{ missingField }") (VNumber 400)
       (VObject KPlain
          [("errors",
            jsArray [messageOnly "Cannot query field missingField on type Query."])])
       [CallParse (VString "{ missingField }");
        CallValidate Demo.schema
          (VObject KPlain [("kind", VString "Document");
                           ("source", VString "{ missingField }")]);
        Emit "error"
          (createError
             [VNumber 400; VString "GraphQL query validation errors.";
              VObject KPlain
                [("graphqlErrors",
                  jsArray
                    [errorObject
                       (Demo.fieldError
                          "Cannot query field missingField on type Query.")])]])]).
Proof.
  destruct (C4_validation_errors Demo.env Demo.static
              (Demo.request "{ missingField }") _ _ _ _ eq_refl eq_refl
              (ret tt)
              [Demo.fieldError "Cannot query field missingField on type Query."]
              eq_refl eq_refl (le_n 1)) as (_ & _ & _ & _ & Hresponse).
  destruct (Hresponse eq_refl) as [Hrun _]. exact Hrun.
Defined.

(** C8 on a request whose override replaces [rootValue] and adds a
    [fieldResolver]: the arguments of the call. *)
Lemma C8_execute_call_witness :
  Execute.middleware Demo.env Demo.fullStatic (ret tt) Demo.fullRequest
  = Execute.runOperation Demo.env
      (VObject KPlain
         [("schema", Demo.schema); ("rootValue", VNumber 2);
          ("contextValue", VString "static");
          ("fieldResolver", VObject (KFunction 2) []);
          ("document",
           VObject KPlain [("kind", VString "Document");
                           ("source", VString "{ hello }")]);
          ("variableValues", VObject KPlain [("id", VNumber 7)]);
          ("operationName", VString "Hello")])
      (ret tt)
      (respond Demo.fullRequest (VNumber 404) VUndefined
         [CallParse (VString "{ hello }"); CallOverride Demo.overrideFn;
          CallValidate Demo.schema
            (VObject KPlain [("kind", VString "Document");
                             ("source", VString "{ hello }")])]).
Proof.
  assert (NoDup (keysOf (ownEnumerable Demo.fullOptions))) as Hoptions
    by (cbn; repeat constructor; cbn; intuition discriminate).
  assert (NoDup (keysOf (ownEnumerable Demo.fullOverride))) as Hover
    by (cbn; repeat constructor; cbn; intuition discriminate).
  destruct (C8_execute_call Demo.env Demo.fullStatic
              Demo.fullRequest _ _ _ Demo.fullOverride eq_refl eq_refl
              (ret tt) Demo.fullOptions eq_refl Hoptions Hover
              eq_refl eq_refl)
    as (_ & _ & Hrun & _).
  exact Hrun.
Defined.

(** C9 on [{ hello }]: status 200 and a body with the data only. *)
Lemma C9_data_written_witness :
  Index.errorHandler (Execute.middleware Demo.env Demo.static (ret tt))
    (Demo.request "{ hello }")
  = (Normal tt,
     respond (Demo.request "{ hello }") (VNumber 200)
       (VObject KPlain [("data", VObject KPlain [("hello", VString "world")])])
       [CallParse (VString "{ hello }");
        CallValidate Demo.schema
          (VObject KPlain [("kind", VString "Document");
                           ("source", VString "{ hello }")]);
        CallExecute
          (VObject KPlain
             [("schema", Demo.schema); ("rootValue", VUndefined);
              ("contextValue", VUndefined); ("fieldResolver", VUndefined);
              ("document",
               VObject KPlain [("kind", VString "Document");
                               ("source", VString "{ hello }")]);
              ("variableValues", VUndefined); ("operationName", VUndefined)])]).
Proof.
  destruct (C9_data_written Demo.env Demo.static
              (Demo.request "{ hello }") _ _ _ _ eq_refl eq_refl
              (ret tt)
              (mkResult (VObject KPlain [("hello", VString "world")]) None)
              eq_refl eq_refl eq_refl eq_refl) as (_ & Hsuccess).
  destruct (Hsuccess eq_refl) as [_ Hresponse]. exact Hresponse.
Defined.

(** C2 on [{ fails }]: status 200, the data and the error of the resolver. *)
Lemma C2_execution_errors_witness :
  let response :=
    ctx (snd (Index.errorHandler
                (Execute.middleware Demo.env Demo.static (ret tt))
                (Demo.request "{ fails }"))) in
  response_status response = VNumber 200 /\
  response_body response
  = VObject KPlain
      [("data", VObject KPlain [("fails", VNull)]);
       ("errors", jsArray [messageOnly "Resolver failed."])].
Proof.
  destruct (C2_execution_errors Demo.env Demo.static
              (Demo.request "{ fails }") _ _ _ _ eq_refl eq_refl
              (ret tt)
              (mkResult (VObject KPlain [("fails", VNull)])
                 (Some [Demo.fieldError "Resolver failed."]))
              [Demo.fieldError "Resolver failed."]
              eq_refl eq_refl eq_refl eq_refl)
    as (_ & _ & _ & _ & Hresponse & _).
  cbv zeta. rewrite (Hresponse eq_refl). split; reflexivity.
Defined.

(** C10 on an override that returns [{ schema: undefined }] over static
    options with a valid schema. *)
Lemma C10_override_undefined_witness :
  getProp (Execute.staticOptions Demo.staticWithOverride) "schema" = Demo.schema /\
  Execute.middleware Demo.env Demo.staticWithOverride (ret tt)
    (Demo.requestWithOverride "{ hello }"
       (VObject KPlain [("schema", VUndefined)]))
  = (Throw (createError [VString "GraphQL schema is required."]),
     respond
       (Demo.requestWithOverride "{ hello }"
          (VObject KPlain [("schema", VUndefined)]))
       (VNumber 404) VUndefined
       [CallParse (VString "{ hello }"); CallOverride Demo.overrideFn]).
Proof.
  split; [reflexivity|].
  assert (NoDup (keysOf (ownEnumerable (VObject KPlain [("schema", VUndefined)]))))
    as Hnodup by (repeat constructor; cbn; tauto).
  destruct (C10_override_undefined Demo.env Demo.staticWithOverride
              (Demo.requestWithOverride "{ hello }"
                 (VObject KPlain [("schema", VUndefined)]))
              _ _ _ _ eq_refl eq_refl (ret tt) Hnodup) as (_ & Hschema).
  destruct (Hschema eq_refl) as (Hrun & _). exact Hrun.
Defined.

(** C5 on a query that does not parse. *)
Lemma C5_syntax_error_witness :
  Index.errorHandler (Execute.middleware Demo.env Demo.staticWithOverride (ret tt))
    (Demo.request "{")
  = (Normal tt,
     respond (Demo.request "{") (VNumber 400)
       (VObject KPlain
          [("errors",
            jsArray
              [messageOnly
                 "GraphQL query syntax error: Syntax Error: Unexpected <EOF>"])])
       [CallParse (VString "{");
        Emit "error"
          (createError
             [VNumber 400;
              VString "GraphQL query syntax error: Syntax Error: Unexpected <EOF>"])]).
Proof.
  destruct (C5_syntax_error Demo.env Demo.staticWithOverride (ret tt)
              (Demo.request "{") "Syntax Error: Unexpected <EOF>"
              eq_refl eq_refl eq_refl) as (_ & _ & _ & _ & _ & Hresponse).
  exact (Hresponse eq_refl).
Defined.

(** C6 on an override that returns [{ override }]. *)
Lemma C6_override_result_witness :
  Index.middleware Demo.env Demo.optionsWithOverride (ret tt)
    (Demo.requestWithOverride "{ hello }"
       (VObject KPlain [("override", Demo.overrideFn)]))
  = (Throw
       (createError
          [VString
             "GraphQL execute middleware `override` option return options invalid: `override`."]),
     respond
       (Demo.requestWithOverride "{ hello }"
          (VObject KPlain [("override", Demo.overrideFn)]))
       (VNumber 404) VUndefined
       [CallParse (VString "{ hello }"); CallOverride Demo.overrideFn]).
Proof.
  destruct (C6_override_result Demo.env Demo.optionsWithOverride (ret tt)
              (Demo.requestWithOverride "{ hello }"
                 (VObject KPlain [("override", Demo.overrideFn)]))
              _ _ (VObject KPlain [("override", Demo.overrideFn)])
              eq_refl eq_refl eq_refl eq_refl)
    as (_ & _ & _ & Hoverride & _).
  destruct (Hoverride eq_refl (or_introl eq_refl)) as (Hrun & _).
  exact Hrun.
Defined.

(** C3 on [{ schema, validationRules, override, executeFn }]: the message
    names [validationRules] and [executeFn], in that order. *)
Lemma C3_options_invalid_witness :
  Execute.setup Demo.env
    (VObject KPlain
       [("schema", Demo.schema); ("validationRules", jsArray []);
        ("override", Demo.overrideFn); ("executeFn", VObject (KFunction 1) [])])
  = Throw
      (createError
         [VString
            "GraphQL execute middleware options invalid: `validationRules`, `executeFn`."]).
Proof.
  destruct (C3_options_invalid Demo.env
              (VObject KPlain
                 [("schema", Demo.schema); ("validationRules", jsArray []);
                  ("override", Demo.overrideFn);
                  ("executeFn", VObject (KFunction 1) [])])
              eq_refl) as ([Hfails _] & _).
  apply Hfails. exists "executeFn". split.
  - cbn. tauto.
  - cbn. intuition discriminate.
Defined.

(** C8, as stated, fails: an [executeFn] given for one request, by the
    result of the override, is not the executor of the request. The request
    fails with the unexposed configuration error that names [executeFn], and
    nothing is executed, by that function or by the default primitive;
    options that hold one make no middleware at all. *)
Lemma C8_executeFn_not_used :
  let s :=
    Demo.requestWithOverride "{ hello }"
      (VObject KPlain [("executeFn", VObject (KFunction 1) [])]) in
  Execute.middleware Demo.env Demo.staticWithOverride (ret tt) s
  = (Throw
       (createError
          [VString
             "GraphQL execute middleware `override` option resolved options invalid: `executeFn`."]),
     respond s (VNumber 404) VUndefined
       [CallParse (VString "{ hello }"); CallOverride Demo.overrideFn]) /\
  Execute.setup Demo.env
    (VObject KPlain
       [("schema", Demo.schema); ("executeFn", VObject (KFunction 1) [])])
  = Throw
      (createError
         [VString "GraphQL execute middleware options invalid: `executeFn`."]).
Proof. split; reflexivity. Qed.

(** C9, as stated, fails: a result that carries a [data] field of [null],
    as GraphQL.js gives when a field that cannot be null fails, passes the
    test [if (result.data)] of line 122 as false. No body is written when
    the middleware throws, and the response [errorHandler] makes has the
    [errors] and no [data]. *)
Lemma C9_null_data_not_written :
  let s := Demo.request "{ hello }" in
  let run := Execute.middleware Demo.nullDataEnv Demo.static (ret tt) in
  executeGraphQL Demo.nullDataEnv VUndefined
  = inr (mkResult VNull
           (Some [Demo.fieldError
                    "Cannot return null for non-nullable field Query.hello."])) /\
  response_body (ctx (snd (run s))) = VUndefined /\
  response_body (ctx (snd (run s))) <> VObject KPlain [("data", VNull)] /\
  response_status (ctx (snd (Index.errorHandler run s))) = VNumber 200 /\
  response_body (ctx (snd (Index.errorHandler run s)))
  = VObject KPlain
      [("errors",
        jsArray
          [messageOnly
             "Cannot return null for non-nullable field Query.hello."])] /\
  hasProperty (response_body (ctx (snd (Index.errorHandler run s)))) "data"
  = false.
Proof. repeat split; try reflexivity. discriminate. Qed.

(** *** The chain [errorHandler], body parser, [execute] on sample requests *)

Example missing_query_400 :
  Index.errorHandler (Execute.middleware Demo.env Demo.static (ret tt))
    (mkState (mkContext (VObject KPlain []) (VNumber 404) VUndefined) [])
  = (Normal tt,
     mkState
       (mkContext (VObject KPlain []) (VNumber 400)
          (VObject KPlain
             [("errors",
               jsArray [messageOnly "GraphQL operation field `query` missing."])]))
       [Emit "error"
          (createError
             [VNumber 400; VString "GraphQL operation field `query` missing."])]).
Proof. reflexivity. Qed.

Example missing_body_500 :
  Index.errorHandler (Execute.middleware Demo.env Demo.static (ret tt))
    (mkState (mkContext VUndefined (VNumber 404) VUndefined) [])
  = (Normal tt,
     mkState
       (mkContext VUndefined (VNumber 500)
          (VObject KPlain [("errors", jsArray [genericError])]))
       [Emit "error" (createError [VString "Request body missing."])]).
Proof. reflexivity. Qed.

Example array_body_400 :
  response_status
    (ctx (snd (Index.errorHandler
                 (Execute.middleware Demo.env Demo.static (ret tt))
                 (mkState (mkContext (jsArray []) (VNumber 404) VUndefined) []))))
  = VNumber 400.
Proof. reflexivity. Qed.

(** An override that returns a schema with structural errors: the request
    stops at [checkSchema] and the response hides the cause. *)
Example override_bad_schema_500 :
  Index.errorHandler
    (Execute.middleware Demo.env Demo.staticWithOverride (ret tt))
    (Demo.requestWithOverride "{ hello }"
       (VObject KPlain [("schema", Demo.badSchema)]))
  = (Normal tt,
     respond
       (Demo.requestWithOverride "{ hello }"
          (VObject KPlain [("schema", Demo.badSchema)]))
       (VNumber 500)
       (VObject KPlain [("errors", jsArray [genericError])])
       [CallParse (VString "{ hello }"); CallOverride Demo.overrideFn;
        Emit "error"
          (createError
             [VString "GraphQL schema validation errors.";
              VObject KPlain
                [("graphqlErrors",
                  jsArray
                    [errorObject
                       (Demo.fieldError "Query root type must be provided.")])]])]).
Proof. reflexivity. Qed.

(** [createError(503, 'No work on the sabbath.', { expose: true })], the
    example of the documentation: its status and its message reach the
    client. *)
Example sabbath_503 :
  Index.errorHandler
    (throw (createError
              [VNumber 503; VString "No work on the sabbath.";
               VObject KPlain [("expose", VBool true)]]))
    (Demo.request "{ hello }")
  = (Normal tt,
     respond (Demo.request "{ hello }") (VNumber 503)
       (VObject KPlain
          [("errors", jsArray [messageOnly "No work on the sabbath."])])
       [Emit "error"
          (createError
             [VNumber 503; VString "No work on the sabbath.";
              VObject KPlain [("expose", VBool true)]])]).
Proof. reflexivity. Qed.

(** A plain [Error] with no status is answered with the generic error. *)
Example plain_error_500 :
  Index.errorHandler (throw (newError (VString "secret")))
    (Demo.request "{ hello }")
  = (Normal tt,
     respond (Demo.request "{ hello }") (VNumber 500)
       (VObject KPlain [("errors", jsArray [genericError])])
       [Emit "error" (createError [newError (VString "secret")])]).
Proof. reflexivity. Qed.

(* ================================================================== *)
(** ** Further properties of the two files *)

(** *** [checkOptions] and [checkSchema] *)

(** X1. [checkOptions] on any allow-list: [Object.keys] throws a
    [TypeError] on [null] and [undefined]; any other value passes exactly
    when each of its enumerable keys is allowed, and is otherwise rejected
    with the unexposed error whose message is the description followed by
    the rejected keys, which are the keys that are not allowed, in the order
    of the object. *)
Theorem checkOptions_spec options allowed description :
  let keys := keysOf (ownEnumerable options) in
  let invalid := Index.invalidKeys keys allowed in
  let error :=
    createError
      [VString (description ++ " options invalid: `"
                ++ join "`, `" invalid ++ "`.")] in
  (options = VUndefined \/ options = VNull ->
   Index.checkOptions options allowed description
   = Throw (typeError "Cannot convert undefined or null to object")) /\
  (options <> VUndefined -> options <> VNull ->
   (Index.checkOptions options allowed description = Normal tt
    <-> forall key, In key keys -> In key allowed) /\
   ((exists key, In key keys /\ ~ In key allowed) ->
    Index.checkOptions options allowed description = Throw error /\
    getProp error "status" = VNumber 500 /\
    getProp error "expose" = VBool false) /\
   invalid = filter (fun key => negb (includes allowed key)) keys).
Proof.
  intros keys invalid error. split.
  - intros [H|H]; subst options; reflexivity.
  - intros Hdefined Hnotnull.
    assert (objectKeys options = Normal keys) as Hkeys
      by (destruct options; try congruence; reflexivity).
    split; [|split; [|reflexivity]].
    + split.
      * intros Hpass. apply checkOptions_inv in Hpass.
        now apply invalidKeys_nil.
      * intros Hall. unfold Index.checkOptions. rewrite Hkeys. cbn [andThen].
        fold invalid. destruct invalid as [|key rest] eqn:E; [reflexivity|].
        assert (In key invalid) as Hin by (rewrite E; now left).
        apply invalidKeys_In in Hin. destruct Hin as [Hin Hnot].
        destruct (Hnot (Hall key Hin)).
    + intros [key Hkey].
      assert (invalid <> []) as Hne.
      { apply invalidKeys_In in Hkey. fold invalid in Hkey.
        intros Hnil. rewrite Hnil in Hkey. destruct Hkey. }
      split; [|split; reflexivity].
      now apply checkOptions_invalid.
Qed.

(** X2. [checkSchema] passes exactly when the value is an instance of
    [GraphQLSchema] for which [validateSchema] reports nothing. What it
    throws is a configuration error of status 500 that is not exposed; for
    an instance with structural errors it carries every one of them as
    [graphqlErrors], and [errorHandler] answers it with the generic error
    alone, so none of them reaches the response. *)
Theorem checkSchema_spec env schema :
  (Index.checkSchema env schema = Normal tt
   <-> instanceofGraphQLSchema schema = true /\ validateSchema env schema = []) /\
  (forall error,
     Index.checkSchema env schema = Throw error ->
     getProp error "status" = VNumber 500 /\
     getProp error "expose" = VBool false /\
     (instanceofGraphQLSchema schema = true ->
      getProp error "graphqlErrors"
      = jsArray (map errorObject (validateSchema env schema))) /\
     forall s,
       bodyReady (response_body (ctx s)) = true ->
       Index.errorHandler (throw error) s
       = (Normal tt,
          respond s (VNumber 500)
            (withErrors (response_body (ctx s)) [genericError])
            [Emit "error" error])).
Proof.
  unfold Index.checkSchema. split.
  - destruct (instanceofGraphQLSchema schema); cbn [negb].
    + destruct (validateSchema env schema) eqn:E;
        cbn [List.length Nat.eqb negb]; split;
        try (intros [_ H]); try discriminate; auto.
    + split; [discriminate|intros [H _]; discriminate].
  - intros error Hthrow.
    assert (getProp error "status" = VNumber 500 /\
            getProp error "expose" = VBool false /\
            createError [error] = error) as (Hstatus & Hexpose & Hsame).
    { revert Hthrow. destruct (instanceofGraphQLSchema schema); cbn [negb].
      - destruct (validateSchema env schema); cbn [List.length Nat.eqb negb];
          [discriminate|].
        intros H. inversion H; subst. repeat split.
      - intros H. inversion H; subst. repeat split. }
    split; [exact Hstatus|]. split; [exact Hexpose|]. split.
    + intros Hinstance. revert Hthrow. rewrite Hinstance. cbn [negb].
      destruct (validateSchema env schema); cbn [List.length Nat.eqb negb];
        [discriminate|].
      intros H. inversion H; subst. reflexivity.
    + intros s Hbody.
      rewrite (errorHandler_hides_unexposed (throw error) s error s eq_refl).
      * replace (instanceofError error) with true; [now rewrite Hsame|].
        revert Hthrow. destruct (instanceofGraphQLSchema schema); cbn [negb].
        -- destruct (validateSchema env schema);
             cbn [List.length Nat.eqb negb]; [discriminate|].
           intros H. inversion H; subst. reflexivity.
        -- intros H. inversion H; subst. reflexivity.
      * rewrite Hsame, Hexpose. reflexivity.
      * exact Hbody.
Qed.

(** *** The creation of the middleware *)

Lemma plain_objectKeys options :
  Index.isPlainObject options = true ->
  objectKeys options = Normal (keysOf (ownEnumerable options)).
Proof. destruct options; try discriminate; reflexivity. Qed.

(** X3. [execute(options)] of [src/execute.mjs], at creation. With no
    options it fails with "options missing". With an options object it
    succeeds exactly when every key is allowed, the [schema], if there is
    one, passes [checkSchema], and the [override], if there is one, is a
    function; it then keeps the [override] and, apart from it, the options.
    Whatever it throws is a configuration error of status 500 that is not
    exposed. *)
Theorem execute_setup_spec env options :
  let keys := keysOf (ownEnumerable options) in
  let schema := getProp options "schema" in
  let override := getProp options "override" in
  Execute.setup env VUndefined
  = Throw (createError [VString "GraphQL execute middleware options missing."]) /\
  (Index.isPlainObject options = true ->
   (Execute.setup env options
    = Normal (Execute.mkStatic override
                (VObject KPlain (restWithout "override" options)))
    <-> (forall key, In key keys -> In key Execute.ALLOWED_EXECUTE_OPTIONS) /\
        (isUndefined schema = true \/ Index.checkSchema env schema = Normal tt) /\
        (isUndefined override = true \/ typeof override = TFunction)) /\
   (forall st,
      Execute.setup env options = Normal st ->
      st = Execute.mkStatic override
             (VObject KPlain (restWithout "override" options))) /\
   (forall error,
      Execute.setup env options = Throw error ->
      getProp error "status" = VNumber 500 /\
      getProp error "expose" = VBool false)).
Proof.
  intros keys schema override. split; [reflexivity|].
  intros Hplain. unfold Execute.setup.
  rewrite (isPlainObject_defined _ Hplain).
  unfold Execute.checkOptions, Index.checkOptions.
  rewrite (plain_objectKeys _ Hplain). cbn [andThen]. fold keys.
  rewrite !(isPlainObject_readProp _ _ Hplain). fold schema. fold override.
  destruct (Index.invalidKeys keys Execute.ALLOWED_EXECUTE_OPTIONS)
    as [|bad rest] eqn:Einvalid; cbn [List.length Nat.eqb negb andThen].
  - pose proof (invalidKeys_nil _ _ Einvalid) as Hkeys.
    destruct (isUndefined schema) eqn:Eschema; cbn [negb andThen].
    + destruct (isUndefined override) eqn:Eoverride; cbn [negb andb].
      * repeat split; auto; try discriminate.
        intros st H. now inversion H.
      * destruct (typeof override) eqn:Etype; cbn [jstype_eqb negb andb];
          (split; [split; [try discriminate; auto
                          |intros (_ & _ & [H|H]); try discriminate; auto]
                  |split; [intros st H; try discriminate; now inversion H
                          |intros error H; try discriminate;
                           inversion H; subst; split; reflexivity]]).
    + unfold Execute.checkSchema.
      destruct (Index.checkSchema env schema) as [[]|e] eqn:Echeck;
        cbn [andThen].
      * destruct (isUndefined override) eqn:Eoverride; cbn [negb andb].
        -- repeat split; auto; try discriminate.
           intros st H. now inversion H.
        -- destruct (typeof override) eqn:Etype; cbn [jstype_eqb negb andb];
             (split; [split; [try discriminate; auto
                             |intros (_ & _ & [H|H]); try discriminate; auto]
                     |split; [intros st H; try discriminate; now inversion H
                             |intros error H; try discriminate;
                              inversion H; subst; split; reflexivity]]).
      * split; [split; [discriminate
                       |intros (_ & [H|H] & _); discriminate]|].
        split; [discriminate|].
        intros error H. inversion H; subst.
        now apply (checkSchema_unexposed env schema).
  - split; [split; [discriminate|]|split; [discriminate|]].
    + intros (Hkeys & _).
      assert (In bad (Index.invalidKeys keys Execute.ALLOWED_EXECUTE_OPTIONS))
        as Hin by (rewrite Einvalid; now left).
      apply invalidKeys_In in Hin. destruct Hin as [Hin Hnot].
      destruct (Hnot (Hkeys bad Hin)).
    + intros error H. inversion H; subst. split; reflexivity.
Qed.

Lemma setup_override_inv env options st :
  Execute.setup env options = Normal st ->
  Execute.override st = getProp options "override" /\
  (isUndefined (Execute.override st) = true
   \/ typeof (Execute.override st) = TFunction).
Proof.
  unfold Execute.setup.
  destruct (isUndefined options) eqn:Edefined; [discriminate|].
  destruct (Execute.checkOptions options _ _) as [[]|e] eqn:Ek;
    cbn [andThen]; [|discriminate].
  assert (forall key, readProp options key = Normal (getProp options key))
    as Hread.
  { intros key. destruct options; try reflexivity; discriminate. }
  rewrite !Hread. cbn [andThen].
  destruct (if negb (isUndefined (getProp options "schema"))
            then Execute.checkSchema env (getProp options "schema")
            else Normal tt) as [[]|e]; cbn [andThen]; [|discriminate].
  destruct (isUndefined (getProp options "override")) eqn:Eoverride;
    cbn [negb andb].
  - intros H. inversion H; subst. cbn. auto.
  - destruct (typeof (getProp options "override")) eqn:Etype;
      cbn [jstype_eqb negb]; try discriminate.
    intros H. inversion H; subst. cbn. auto.
Qed.

Lemma restWithout_notin key options :
  ~ In key (keysOf (restWithout key options)).
Proof.
  unfold restWithout, keysOf.
  rewrite in_map_iff. intros [p [Hkey Hin]].
  apply filter_In in Hin. destruct Hin as [_ Hne].
  rewrite Hkey, String.eqb_refl in Hne. discriminate.
Qed.

(** X4. What a middleware of [src/execute.mjs] holds once created: its
    static options have no [override] key and only allowed keys, and its
    [override] is [undefined] or a function, so that the request-time test
    [if (override)] lets through nothing but a function. *)
Theorem execute_setup_invariant env options st :
  Execute.setup env options = Normal st ->
  getProp (Execute.staticOptions st) "override" = VUndefined /\
  (forall key,
     In key (keysOf (ownEnumerable (Execute.staticOptions st))) ->
     In key ["schema"; "rootValue"; "contextValue"; "fieldResolver"]) /\
  (truthy (Execute.override st) = true -> typeof (Execute.override st) = TFunction) /\
  (truthy (Execute.override st) = false -> Execute.override st = VUndefined).
Proof.
  intros Hsetup.
  destruct (setup_inv _ _ _ Hsetup) as [Hkeys Hstatic].
  destruct (setup_override_inv _ _ _ Hsetup) as [_ Hoverride].
  rewrite Hstatic. split; [|split; [|split]].
  - unfold getProp. cbn [ownProps].
    rewrite lookup_None_notin; [reflexivity|apply restWithout_notin].
  - intros key Hin. cbn [ownEnumerable] in Hin.
    apply keysOf_filter_In in Hin.
    assert (key <> "override") as Hne.
    { intros ->. now apply (restWithout_notin "override" options). }
    unfold restWithout in Hin. apply keysOf_filter_In in Hin.
    apply (invalidKeys_nil _ _ Hkeys) in Hin.
    cbn in Hin. cbn. intuition congruence.
  - destruct Hoverride as [H|H]; [|auto].
    destruct (Execute.override st) as [| | | | | |k props];
      cbn in *; try discriminate.
    destruct k; discriminate.
  - destruct Hoverride as [H|H].
    + destruct (Execute.override st) as [| | | | | |k props];
        cbn in *; try discriminate; auto; destruct k; discriminate.
    + destruct (Execute.override st) as [| | | | | |k props];
        cbn in *; try discriminate; destruct k; discriminate.
Qed.

Lemma execute_setup_invariant_witness :
  getProp (Execute.staticOptions Demo.staticWithOverride) "override" = VUndefined /\
  typeof (Execute.override Demo.staticWithOverride) = TFunction.
Proof.
  destruct (execute_setup_invariant Demo.env Demo.optionsWithOverride
              Demo.staticWithOverride eq_refl) as (Hstatic & _ & Hfunction & _).
  split; [exact Hstatic|exact (Hfunction eq_refl)].
Defined.

(** *** The request body *)

(** X5. The checks of the request body in [src/execute.mjs], before
    anything is parsed. With no body the request fails with "Request body
    missing.", status 500 and not exposed, which [errorHandler] answers with
    the generic error. A body that is not an object ([null], an array, a
    string, a number, a boolean, a function) fails with status 400, exposed,
    and so does an object with no [query]; [errorHandler] answers each with
    its message. In the three cases the middleware leaves the context and
    the log as they were. *)
Theorem execute_body_checks env st next s :
  let body := request_body (ctx s) in
  let answer status message error :=
    Index.errorHandler (Execute.middleware env st next) s
    = (Normal tt,
       respond s (VNumber status)
         (withErrors (response_body (ctx s)) [messageOnly message])
         [Emit "error" error]) in
  (isUndefined body = true ->
   let error := createError [VString "Request body missing."] in
   Execute.middleware env st next s = (Throw error, s) /\
   (bodyReady (response_body (ctx s)) = true ->
    answer 500 "Internal Server Error" error)) /\
  (isUndefined body = false -> Execute.isEnumerableObject body = false ->
   let error :=
     createError [VNumber 400; VString "Request body must be a JSON object."] in
   Execute.middleware env st next s = (Throw error, s) /\
   (bodyReady (response_body (ctx s)) = true ->
    answer 400 "Request body must be a JSON object." error)) /\
  (Execute.isEnumerableObject body = true -> hasProperty body "query" = false ->
   let error :=
     createError
       [VNumber 400; VString "GraphQL operation field `query` missing."] in
   Execute.middleware env st next s = (Throw error, s) /\
   (bodyReady (response_body (ctx s)) = true ->
    answer 400 "GraphQL operation field `query` missing." error)).
Proof.
  intros body answer.
  assert (forall error status message,
            Execute.middleware env st next s = (Throw error, s) ->
            createError [error] = error ->
            instanceofError error = true ->
            getProp (if negb (truthy (getProp error "expose"))
                     then createError [] else error) "status" = VNumber status ->
            (if isArray
                  (getProp (if negb (truthy (getProp error "expose"))
                            then createError [] else error) "graphqlErrors")
             then mapFormatError
                    (match getProp (if negb (truthy (getProp error "expose"))
                                    then createError [] else error)
                             "graphqlErrors" with
                     | VArray elems _ => elems
                     | _ => []
                     end)
             else andThen
                    (formatError (if negb (truthy (getProp error "expose"))
                                  then createError [] else error))
                    (fun f => Normal [f]))
            = Normal [messageOnly message] ->
            bodyReady (response_body (ctx s)) = true ->
            answer status message error) as Hanswer.
  { intros error status message Hrun Hsame Hinstance Hstatus Hformat Hbody.
    unfold answer.
    rewrite (errorHandler_caught _ s error s Hrun Hbody
               (if negb (truthy (getProp error "expose"))
                then createError [] else error) [messageOnly message]).
    - rewrite Hstatus, Hinstance, Hsame. reflexivity.
    - now rewrite Hsame.
    - exact Hformat. }
  assert (forall r, Execute.parseRequest env s = (Throw r, s) ->
                    Execute.middleware env st next s = (Throw r, s)) as Hfails.
  { intros r H. unfold Execute.middleware. unfold bind at 1. now rewrite H. }
  split; [|split].
  - intros Hmissing error.
    assert (Execute.middleware env st next s = (Throw error, s)) as Hrun.
    { apply Hfails. unfold Execute.parseRequest. unfold_monad.
      fold body. rewrite Hmissing. reflexivity. }
    split; [exact Hrun|]. now apply Hanswer.
  - intros Hdefined Hobject error.
    assert (Execute.middleware env st next s = (Throw error, s)) as Hrun.
    { apply Hfails. unfold Execute.parseRequest. unfold_monad.
      fold body. rewrite Hdefined, Hobject. reflexivity. }
    split; [exact Hrun|]. now apply Hanswer.
  - intros Hobject Hquery error.
    assert (Execute.middleware env st next s = (Throw error, s)) as Hrun.
    { apply Hfails. unfold Execute.parseRequest. unfold_monad.
      fold body. unfold Execute.isEnumerableObject in *.
      rewrite (isPlainObject_defined _ Hobject), Hobject, Hquery. reflexivity. }
    split; [exact Hrun|]. now apply Hanswer.
Qed.

(** *** What the steps of [src/execute.mjs] do to the context *)

Lemma parseRequest_ctx env s r s' :
  Execute.parseRequest env s = (r, s') -> ctx s' = ctx s.
Proof.
  unfold Execute.parseRequest. unfold_monad.
  repeat match goal with
         | |- context [if ?c then _ else _] => destruct c
         end; try (intros H; inversion H; subst; reflexivity).
  destruct (readProp (request_body (ctx s)) "query") as [q|e];
    [|intros H; inversion H; subst; reflexivity].
  destruct (parse env q); intros H; inversion H; subst; reflexivity.
Qed.

Lemma resolveOverride_ctx env st s r s' :
  Execute.resolveOverride env st s = (r, s') -> ctx s' = ctx s.
Proof.
  unfold Execute.resolveOverride. unfold_monad.
  destruct (truthy (Execute.override st));
    [|intros H; inversion H; subst; reflexivity].
  cbn [ctx log].
  destruct (call env (Execute.override st) (ctx s)) as [ov|e];
    [|intros H; inversion H; subst; reflexivity].
  destruct (Execute.checkOptions ov _ _) as [[]|e];
    [|intros H; inversion H; subst; reflexivity].
  destruct (readProp ov "schema") as [sch|e];
    [|intros H; inversion H; subst; reflexivity].
  destruct (isUndefined sch); cbn [negb];
    [intros H; inversion H; subst; reflexivity|].
  destruct (Execute.checkSchema env sch) as [[]|e];
    intros H; inversion H; subst; reflexivity.
Qed.

Lemma validateDocument_ctx env schema document s r s' :
  Execute.validateDocument env schema document s = (r, s') -> ctx s' = ctx s.
Proof.
  unfold Execute.validateDocument. unfold_monad. cbn [ctx log].
  destruct (validate env schema document) as [errs|e];
    [|intros H; inversion H; subst; reflexivity].
  destruct errs; cbn [List.length Nat.eqb negb];
    intros H; inversion H; subst; reflexivity.
Qed.

(** The three ways [runOperation] ends. *)
Lemma runOperation_cases env args next s :
  (exists message,
     executeGraphQL env args = inl message /\
     Execute.runOperation env args next s
     = (Throw (createError
                 [VNumber 400;
                  VString ("GraphQL operation field invalid: " ++ message)]),
        mkState (ctx s) (log s ++ [CallExecute args]))) \/
  (exists result errs,
     executeGraphQL env args = inr result /\ errors result = Some errs /\
     Execute.runOperation env args next s
     = (Throw (createError
                 [VNumber 200; VString "GraphQL errors.";
                  VObject KPlain
                    [("graphqlErrors", jsArray (map errorObject errs))]]),
        respond s (response_status (ctx s))
          (written result (response_body (ctx s))) [CallExecute args])) \/
  (exists result,
     executeGraphQL env args = inr result /\ errors result = None /\
     Execute.runOperation env args next s
     = next (respond s (VNumber 200)
               (written result (response_body (ctx s))) [CallExecute args])).
Proof.
  destruct (executeGraphQL env args) as [message|result] eqn:Eexec.
  - left. exists message. split; [reflexivity|].
    unfold Execute.runOperation. unfold_monad. now rewrite Eexec.
  - destruct (errors result) as [errs|] eqn:Eerrors.
    + right. left. exists result, errs. repeat split; auto.
      now apply runOperation_errors.
    + right. right. exists result. repeat split; auto.
      now apply runOperation_success.
Qed.

(** X6. What the [execute] middleware of [src/execute.mjs] leaves of the
    context, in every case. Either it throws, and then the request body is
    as it found it and either the response is untouched, status and body,
    or the response body is the [{ data }] it wrote for a result with data;
    or it hands over to the rest of the chain with the status 200 and the
    response body untouched or the data. It never writes [errors], and the
    one status it assigns is 200. *)
Theorem execute_writes env st next s :
  let dataOnly body' :=
    exists d, truthy d = true /\ body' = VObject KPlain [("data", d)] in
  (exists error s',
     Execute.middleware env st next s = (Throw error, s') /\
     request_body (ctx s') = request_body (ctx s) /\
     (response_status (ctx s') = response_status (ctx s) /\
      response_body (ctx s') = response_body (ctx s) \/
      dataOnly (response_body (ctx s')))) \/
  (exists s',
     Execute.middleware env st next s = next s' /\
     request_body (ctx s') = request_body (ctx s) /\
     response_status (ctx s') = VNumber 200 /\
     (response_body (ctx s') = response_body (ctx s) \/
      dataOnly (response_body (ctx s')))).
Proof.
  intros dataOnly.
  assert (forall result body', body' = response_body (ctx s) ->
            written result body' = response_body (ctx s) \/
            dataOnly (written result body')) as Hwritten.
  { intros result body' ->. unfold dataOnly, written.
    destruct (truthy (data result)) eqn:E; [right|left; reflexivity].
    exists (data result). auto. }
  remember (Execute.middleware env st next s) as run eqn:Hrun.
  unfold Execute.middleware in Hrun. unfold bind at 1 in Hrun.
  destruct (Execute.parseRequest env s) as [[document|e] s1] eqn:Eparse.
  2:{ left. exists e, s1. apply parseRequest_ctx in Eparse. rewrite Eparse.
      repeat split; auto. }
  pose proof (parseRequest_ctx _ _ _ _ Eparse) as Hs1.
  destruct (parseRequest_inv _ _ _ _ Eparse) as (Hobject & _).
  unfold bind at 1 in Hrun.
  destruct (Execute.resolveOverride env st s1) as [[ov|e] s2] eqn:Eresolve.
  2:{ left. exists e, s2. apply resolveOverride_ctx in Eresolve.
      rewrite Eresolve, Hs1. repeat split; auto. }
  pose proof (resolveOverride_ctx _ _ _ _ _ Eresolve) as Hs2.
  destruct (isUndefined _) eqn:Eschema.
  { left. eexists. exists s2. rewrite Hs2, Hs1. repeat split; eauto. }
  unfold bind at 1 in Hrun.
  destruct (Execute.validateDocument env _ document s2) as [[[]|e] s3] eqn:Evalidate.
  2:{ left. exists e, s3. apply validateDocument_ctx in Evalidate.
      rewrite Evalidate, Hs2, Hs1. repeat split; auto. }
  pose proof (validateDocument_ctx _ _ _ _ _ _ Evalidate) as Hs3.
  unfold bind at 1 in Hrun. unfold getContext at 1 in Hrun.
  unfold bind at 1 in Hrun. unfold lift at 1 in Hrun.
  assert (ctx s3 = ctx s) as Hctx by (now rewrite Hs3, Hs2, Hs1).
  rewrite Hctx in Hrun.
  rewrite (isPlainObject_readProp _ "variables" Hobject) in Hrun.
  unfold bind at 1 in Hrun. unfold lift at 1 in Hrun.
  rewrite (isPlainObject_readProp _ "operationName" Hobject) in Hrun.
  match type of Hrun with
  | context [Execute.runOperation env ?a next s3] =>
      destruct (runOperation_cases env a next s3)
        as [(message & _ & Hop)|[(result & errs & _ & _ & Hop)
                                |(result & _ & _ & Hop)]];
        rewrite Hop in Hrun
  end.
  - left. eexists. eexists. split; [exact Hrun|]. cbn [ctx].
    rewrite Hctx. repeat split; auto.
  - left. eexists. eexists. split; [exact Hrun|].
    unfold respond. cbn [ctx request_body response_status response_body].
    rewrite Hctx. split; [reflexivity|].
    destruct (Hwritten result _ eq_refl) as [Hkept|Hdata];
      [left; split; [reflexivity|exact Hkept]|right; exact Hdata].
  - right. eexists. split; [exact Hrun|].
    unfold respond. cbn [ctx request_body response_status response_body].
    rewrite Hctx. repeat split. now apply Hwritten.
Qed.

(** *** The rest of the outcomes of a request, [src/execute.mjs] *)

Section ExecuteOutcomes.

Variable env : Env.
Variable st : Execute.Static.
Variables s s1 s2 : State.
Variables document overrideOptions : value.

Hypothesis parsed : Execute.parseRequest env s = (Normal document, s1).
Hypothesis resolved :
  Execute.resolveOverride env st s1 = (Normal overrideOptions, s2).

Let body := request_body (ctx s).
Let requestOptions := Execute.mergeOptions (Execute.staticOptions st) overrideOptions.
Let schema := getProp requestOptions "schema".
Let args :=
  Execute.executeArgs requestOptions document
    (getProp body "variables") (getProp body "operationName").
Let executed : list Event :=
  (CallParse (getProp body "query") :: overrideEvents st
   ++ [CallValidate schema document; CallExecute args])%list.

(** X7. When the call of [executeGraphQL] itself throws, the request fails
    with status 400, exposed, and a message that ends with the message of
    what was thrown; the response body is not written, and [errorHandler]
    answers 400 with that message. *)
Theorem execute_invocation_error next message :
  isUndefined schema = false ->
  validate env schema document = Normal [] ->
  executeGraphQL env args = inl message ->
  let text := "GraphQL operation field invalid: " ++ message in
  let error := createError [VNumber 400; VString text] in
  Execute.middleware env st next s
  = (Throw error,
     respond s (response_status (ctx s)) (response_body (ctx s)) executed) /\
  getProp error "status" = VNumber 400 /\
  getProp error "expose" = VBool true /\
  getProp error "message" = VString text /\
  (bodyReady (response_body (ctx s)) = true ->
   Index.errorHandler (Execute.middleware env st next) s
   = (Normal tt,
      respond s (VNumber 400)
        (withErrors (response_body (ctx s)) [messageOnly text])
        (executed ++ [Emit "error" error]))).
Proof.
  intros Hschema Hvalidate Hexec text error.
  assert (Execute.middleware env st next s
          = (Throw error,
             respond s (response_status (ctx s)) (response_body (ctx s)) executed))
    as Hrun.
  { rewrite (middleware_valid env st s s1 s2 document overrideOptions
               parsed resolved next Hschema Hvalidate).
    unfold Execute.runOperation. unfold_monad. fold body. fold requestOptions.
    fold args. rewrite Hexec. cbn [ctx log].
    rewrite (resolved_state env st s s1 s2 document overrideOptions
               parsed resolved).
    unfold respond, executed. cbn [ctx log]. rewrite <- !app_assoc.
    destruct s as [[rb rs rbody] lg]. reflexivity. }
  split; [exact Hrun|]. do 3 (split; [reflexivity|]).
  intros Hbody.
  rewrite (errorHandler_caught _ s error _ Hrun) with
    (httpError := error) (formatted := [messageOnly text]);
    try reflexivity.
  - unfold respond. cbn [ctx log request_body response_body].
    now rewrite <- app_assoc.
  - exact Hbody.
Qed.

(** X8. A result with no data and no errors: the middleware sets the
    status 200, leaves the response body as it was and goes on with the
    chain. *)
Theorem execute_empty_result next result :
  isUndefined schema = false ->
  validate env schema document = Normal [] ->
  executeGraphQL env args = inr result ->
  truthy (data result) = false ->
  errors result = None ->
  Execute.middleware env st next s
  = next (respond s (VNumber 200) (response_body (ctx s)) executed).
Proof.
  intros Hschema Hvalidate Hexec Hdata Herrors.
  rewrite (middleware_valid env st s s1 s2 document overrideOptions
             parsed resolved next Hschema Hvalidate).
  fold body. fold requestOptions. fold schema. fold args.
  rewrite (runOperation_success env next _ result _ Hexec Herrors).
  unfold written. rewrite Hdata. cbn [ctx response_body].
  rewrite (executed_state env st s s1 s2 document overrideOptions
             parsed resolved).
  rewrite (resolved_state env st s s1 s2 document overrideOptions
             parsed resolved).
  reflexivity.
Qed.

Lemma execute_validate_throws next error :
  isUndefined schema = false ->
  validate env schema document = Throw error ->
  Execute.middleware env st next s
  = (Throw error,
     respond s (response_status (ctx s)) (response_body (ctx s))
       (CallParse (getProp body "query") :: overrideEvents st
        ++ [CallValidate schema document])).
Proof.
  intros Hschema Hvalidate. unfold Execute.middleware.
  unfold bind at 1. rewrite parsed. unfold bind at 1. rewrite resolved.
  fold requestOptions. fold schema. rewrite Hschema.
  unfold Execute.validateDocument. unfold_monad. rewrite Hvalidate.
  cbn [ctx log].
  rewrite (resolved_state env st s s1 s2 document overrideOptions
             parsed resolved).
  unfold respond. cbn [ctx log]. rewrite <- app_assoc.
  destruct s as [[rb rs rbody] lg]. reflexivity.
Qed.

End ExecuteOutcomes.

(** X9. What the application's [override] or GraphQL.js's [validate]
    throws is what the request fails with, unchanged: after a throwing
    [override] nothing is validated or executed, and after a throwing
    [validate] nothing is executed. *)
Theorem execute_collaborator_throws env st next s document s1 error :
  Execute.parseRequest env s = (Normal document, s1) ->
  let parsedEvent := CallParse (getProp (request_body (ctx s)) "query") in
  (truthy (Execute.override st) = true ->
   call env (Execute.override st) (ctx s) = Throw error ->
   Execute.middleware env st next s
   = (Throw error,
      respond s (response_status (ctx s)) (response_body (ctx s))
        [parsedEvent; CallOverride (Execute.override st)])) /\
  (forall overrideOptions s2,
     Execute.resolveOverride env st s1 = (Normal overrideOptions, s2) ->
     let schema :=
       getProp (Execute.mergeOptions (Execute.staticOptions st) overrideOptions)
         "schema" in
     isUndefined schema = false ->
     validate env schema document = Throw error ->
     Execute.middleware env st next s
     = (Throw error,
        respond s (response_status (ctx s)) (response_body (ctx s))
          (parsedEvent :: overrideEvents st ++ [CallValidate schema document])) /\
     existsb (fun ev => match ev with CallExecute _ => true | _ => false end)
       (parsedEvent :: overrideEvents st ++ [CallValidate schema document])
     = false).
Proof.
  intros Hparsed parsedEvent. split.
  - intros Hoverride Hcall.
    destruct (parseRequest_inv _ _ _ _ Hparsed) as (_ & _ & _ & Hs1).
    unfold Execute.middleware. unfold bind at 1. rewrite Hparsed.
    unfold bind at 1. unfold Execute.resolveOverride. rewrite Hoverride.
    unfold_monad. cbn [ctx log]. rewrite Hs1. cbn [ctx log]. rewrite Hcall.
    unfold respond. rewrite <- app_assoc.
    destruct s as [[rb rs rbody] lg]. reflexivity.
  - intros overrideOptions s2 Hresolved schema Hschema Hvalidate. split.
    + now apply (execute_validate_throws env st s s1 s2 document overrideOptions).
    + unfold overrideEvents.
      destruct (truthy (Execute.override st)); reflexivity.
Qed.

Lemma execute_collaborator_throws_witness :
  Execute.middleware
    (mkEnv (parse Demo.env) (validateSchema Demo.env) (validate Demo.env)
       (executeGraphQL Demo.env) (fun _ _ => Throw (VString "no user")))
    Demo.staticWithOverride (ret tt) (Demo.request "{ hello }")
  = (Throw (VString "no user"),
     respond (Demo.request "{ hello }") (VNumber 404) VUndefined
       [CallParse (VString "{ hello }"); CallOverride Demo.overrideFn]).
Proof.
  destruct (execute_collaborator_throws
              (mkEnv (parse Demo.env) (validateSchema Demo.env)
                 (validate Demo.env) (executeGraphQL Demo.env)
                 (fun _ _ => Throw (VString "no user")))
              Demo.staticWithOverride (ret tt) (Demo.request "{ hello }")
              _ _ (VString "no user") eq_refl) as [Hoverride _].
  exact (Hoverride eq_refl eq_refl).
Defined.

(** X7 on an execution that rejects its variables. *)
Lemma execute_invocation_error_witness :
  Index.errorHandler
    (Execute.middleware
       (mkEnv (parse Demo.env) (validateSchema Demo.env) (validate Demo.env)
          (fun _ => inl "Variable $id got invalid value.") (call Demo.env))
       Demo.static (ret tt))
    (Demo.request "{ hello }")
  = (Normal tt,
     respond (Demo.request "{ hello }") (VNumber 400)
       (VObject KPlain
          [("errors",
            jsArray
              [messageOnly
                 "GraphQL operation field invalid: Variable $id got invalid value."])])
       [CallParse (VString "{ hello }");
        CallValidate Demo.schema
          (VObject KPlain [("kind", VString "Document");
                           ("source", VString "{ hello }")]);
        CallExecute
          (VObject KPlain
             [("schema", Demo.schema); ("rootValue", VUndefined);
              ("contextValue", VUndefined); ("fieldResolver", VUndefined);
              ("document",
               VObject KPlain [("kind", VString "Document");
                               ("source", VString "{ hello }")]);
              ("variableValues", VUndefined); ("operationName", VUndefined)]);
        Emit "error"
          (createError
             [VNumber 400;
              VString "GraphQL operation field invalid: Variable $id got invalid value."])]).
Proof.
  destruct (execute_invocation_error
              (mkEnv (parse Demo.env) (validateSchema Demo.env)
                 (validate Demo.env)
                 (fun _ => inl "Variable $id got invalid value.")
                 (call Demo.env))
              Demo.static (Demo.request "{ hello }") _ _ _ _ eq_refl eq_refl
              (ret tt) "Variable $id got invalid value."
              eq_refl eq_refl eq_refl) as (_ & _ & _ & _ & Hresponse).
  exact (Hresponse eq_refl).
Defined.

(** X8 on an execution that returns an empty result. *)
Lemma execute_empty_result_witness :
  Execute.middleware
    (mkEnv (parse Demo.env) (validateSchema Demo.env) (validate Demo.env)
       (fun _ => inr (mkResult VUndefined None)) (call Demo.env))
    Demo.static (ret tt) (Demo.request "{ hello }")
  = (Normal tt,
     respond (Demo.request "{ hello }") (VNumber 200) VUndefined
       [CallParse (VString "{ hello }");
        CallValidate Demo.schema
          (VObject KPlain [("kind", VString "Document");
                           ("source", VString "{ hello }")]);
        CallExecute
          (VObject KPlain
             [("schema", Demo.schema); ("rootValue", VUndefined);
              ("contextValue", VUndefined); ("fieldResolver", VUndefined);
              ("document",
               VObject KPlain [("kind", VString "Document");
                               ("source", VString "{ hello }")]);
              ("variableValues", VUndefined); ("operationName", VUndefined)])]).
Proof.
  exact (execute_empty_result
           (mkEnv (parse Demo.env) (validateSchema Demo.env)
              (validate Demo.env)
              (fun _ => inr (mkResult VUndefined None)) (call Demo.env))
           Demo.static (Demo.request "{ hello }") _ _ _ _ eq_refl eq_refl
           (ret tt) (mkResult VUndefined None)
           eq_refl eq_refl eq_refl eq_refl eq_refl).
Defined.

(** *** The merge of the options *)

(** X10. [{ ...staticOptions, ...overrideOptions }], own property by own
    property, for objects whose keys are distinct: a key the override has
    takes the override's value, whatever it is; any other key keeps the
    static value; a key neither has is no property of the merge. So each of
    the four options the middleware reads has the value of the override
    where that has the key, the static value otherwise, and is [undefined]
    when neither has it. With no override ([undefined]) the merged options
    are the static ones. *)
Theorem mergeOptions_precedence (static over : value) key :
  NoDup (keysOf (ownEnumerable static)) ->
  NoDup (keysOf (ownEnumerable over)) ->
  lookup key (ownProps (Execute.mergeOptions static over))
  = match lookup key (ownEnumerable over) with
    | Some v => Some v
    | None => lookup key (ownEnumerable static)
    end /\
  (In key ["schema"; "rootValue"; "contextValue"; "fieldResolver"] ->
   getProp (Execute.mergeOptions static over) key
   = effectiveOption static over key) /\
  Execute.mergeOptions static VUndefined = VObject KPlain (ownEnumerable static).
Proof.
  intros Hstatic Hover.
  assert (lookup key (ownProps (Execute.mergeOptions static over))
          = match lookup key (ownEnumerable over) with
            | Some v => Some v
            | None => lookup key (ownEnumerable static)
            end) as Hown.
  { unfold Execute.mergeOptions, spreadInto. cbn [ownProps].
    rewrite (lookup_fold_assign _ key _ Hover).
    rewrite (lookup_fold_assign _ key _ Hstatic). cbn [lookup].
    destruct (lookup key (ownEnumerable static)); reflexivity. }
  split; [exact Hown|split].
  - intros _. unfold getProp, effectiveOption. rewrite Hown.
    cbn [Execute.mergeOptions protoProp].
    destruct (lookup key (ownEnumerable over)); [reflexivity|].
    destruct (lookup key (ownEnumerable static)); reflexivity.
  - unfold Execute.mergeOptions, spreadInto. cbn [ownEnumerable ownProps fold_left].
    now rewrite fold_assign_copy.
Qed.

Lemma mergeOptions_precedence_witness :
  getProp
    (Execute.mergeOptions
       (VObject KPlain [("schema", Demo.schema); ("rootValue", VNumber 1)])
       (VObject KPlain [("rootValue", VNull); ("contextValue", VNumber 2)]))
    "rootValue"
  = VNull.
Proof.
  refine (proj1 (proj2 (mergeOptions_precedence
                   (VObject KPlain [("schema", Demo.schema); ("rootValue", VNumber 1)])
                   (VObject KPlain [("rootValue", VNull); ("contextValue", VNumber 2)])
                   "rootValue" _ _)) _);
    [repeat constructor; cbn; intuition discriminate
    |repeat constructor; cbn; intuition discriminate
    |cbn; tauto].
Defined.

(** *** What [createError] returns *)

Lemma scan_err_error args : forall a,
  (forall e, scan_err a = Some e -> instanceofError e = true) ->
  forall e, scan_err (fold_left scanArg args a) = Some e ->
            instanceofError e = true.
Proof.
  induction args as [|arg rest IH]; cbn [fold_left]; intros a Ha; [exact Ha|].
  apply IH. intros e. unfold scanArg.
  destruct (instanceofError arg) eqn:Earg.
  - cbn. intros H. inversion H; subst. exact Earg.
  - destruct (typeof arg); cbn; apply Ha.
Qed.

Lemma normalStatus_valid status : validStatus (normalStatus status) = true.
Proof.
  unfold normalStatus, validStatus. destruct status; try reflexivity.
  destruct (known n) eqn:Eknown; cbn [negb andb orb].
  - now rewrite Eknown.
  - destruct (n <? 400) eqn:Elow; cbn [orb]; [reflexivity|].
    destruct (600 <=? n) eqn:Ehigh; [reflexivity|].
    rewrite Eknown. cbn [orb].
    apply Z.ltb_ge in Elow. apply Z.leb_gt in Ehigh.
    apply andb_true_iff. split; [now apply Z.leb_le|now apply Z.ltb_lt].
Qed.

Lemma getProp_setProp_other k props key other v :
  other <> key ->
  getProp (setProp (VObject k props) other v) key = getProp (VObject k props) key.
Proof.
  intros Hne. unfold getProp. cbn [setProp ownProps].
  rewrite lookup_assign_other by assumption. reflexivity.
Qed.

Lemma getProp_setProp_same k props key v :
  getProp (setProp (VObject k props) key v) key = v.
Proof.
  unfold getProp. cbn [setProp ownProps]. now rewrite lookup_assign_same.
Qed.

Lemma copyProps_status err props :
  instanceofError err = true ->
  instanceofError (copyProps err props) = true /\
  getProp (copyProps err props) "status" = getProp err "status".
Proof.
  unfold copyProps. generalize (ownEnumerable props) as ps.
  intros ps. revert err. induction ps as [|[k v] rest IH]; cbn [fold_left];
    intros err Herr; [auto|].
  cbn [fst snd].
  destruct (String.eqb k "status" || String.eqb k "statusCode") eqn:Ek.
  - now apply IH.
  - destruct err as [| | | | | |kind ps]; try discriminate.
    destruct (IH (setProp (VObject kind ps) k v)) as [Hinst Hstatus].
    + destruct kind; try discriminate; reflexivity.
    + split; [exact Hinst|]. rewrite Hstatus.
      apply getProp_setProp_other. intros ->. cbn in Ek. discriminate.
Qed.

(** The status of the error [createError] returns is a number, a known code
    or one from 400 to 599, and the error is an [Error]. *)
Lemma createError_status args :
  instanceofError (createError args) = true /\
  exists n, getProp (createError args) "status" = VNumber n /\
            validStatus n = true.
Proof.
  unfold createError.
  set (a := fold_left scanArg args
              (mkScan None VUndefined (VNumber 500) (VObject KPlain []))).
  set (status := normalStatus (scan_status a)).
  set (err0 := match scan_err a with
               | Some e => e
               | None =>
                   match constructorFor status with
                   | Some code => newHttpError code (scan_msg a)
                   | None =>
                       newError (if truthy (scan_msg a) then scan_msg a
                                 else statusMessage status)
                   end
               end).
  assert (instanceofError err0 = true) as Herr0.
  { unfold err0. destruct (scan_err a) as [e|] eqn:E.
    - apply (scan_err_error args
               (mkScan None VUndefined (VNumber 500) (VObject KPlain [])));
        [intros e' H; discriminate|exact E].
    - destruct (constructorFor status); reflexivity. }
  set (err1 := if match constructorFor status with
                  | None => true
                  | Some code =>
                      negb (instanceOfClass err0 code) || statusDiffers err0 status
                  end
               then setProp
                      (setProp (setProp err0 "expose" (VBool (status <? 500)))
                         "statusCode" (VNumber status))
                      "status" (VNumber status)
               else err0).
  assert (instanceofError err1 = true /\ getProp err1 "status" = VNumber status)
    as [Herr1 Hstatus].
  { unfold err1.
    destruct err0 as [| | | | | |kind ps] eqn:E0; try discriminate.
    destruct kind as [| | |c]; try discriminate.
    match goal with
    | |- context [if ?c then _ else _] => destruct c eqn:Econd
    end.
    - split; [reflexivity|]. cbn [setProp]. apply getProp_setProp_same.
    - split; [reflexivity|].
      destruct (constructorFor status) as [code|]; [|discriminate].
      apply orb_false_iff in Econd. destruct Econd as [_ Hdiff].
      unfold statusDiffers in Hdiff.
      destruct (getProp (VObject (KError c) ps) "status") as [| | |n| | |];
        try discriminate.
      apply negb_false_iff in Hdiff. apply Z.eqb_eq in Hdiff. now subst. }
  destruct (copyProps_status err1 (scan_props a) Herr1) as [Hinst Hcopy].
  split; [exact Hinst|].
  exists status. rewrite Hcopy. split; [exact Hstatus|apply normalStatus_valid].
Qed.

(** *** [errorHandler], whatever is thrown *)

(** The codes of the [statuses] table are three-digit codes. *)
Lemma known_range n : known n = true -> 100 <= n <= 599.
Proof.
  unfold known, statuses.
  destruct n as [|p|p]; try discriminate.
  do 10 (try (destruct p as [p|p|]; try discriminate)); intros _; lia.
Qed.

(** X11. The status [errorHandler] assigns when it catches an error whose
    own status, if it has one, is a whole number (the numbers here are the
    integers) is a status [createError] lets stand: a code the [statuses]
    table knows or a number from 400 to 599. It is an integer from 100 to
    999, which the response takes as a status, and it is assigned before
    anything else the handler does can fail. *)
Theorem errorHandler_status next s error s1 :
  next s = (Throw error, s1) ->
  exists n,
    response_status (ctx (snd (Index.errorHandler next s))) = VNumber n /\
    validStatus n = true /\
    100 <= n <= 999.
Proof.
  intros Hnext. unfold Index.errorHandler. unfold_monad. rewrite Hnext.
  set (httpError := if negb (truthy (getProp (createError [error]) "expose"))
                    then createError [] else createError [error]).
  assert (exists n, getProp httpError "status" = VNumber n /\
                    validStatus n = true) as (n & Hstatus & Hvalid).
  { unfold httpError. destruct (negb _); apply createError_status. }
  exists n. split; [|split; [exact Hvalid|]].
  2:{ unfold validStatus in Hvalid. apply orb_prop in Hvalid.
      destruct Hvalid as [Hknown|Hrange];
        [apply known_range in Hknown|]; lia. }
  rewrite Hstatus.
  cbn [ctx response_body log request_body response_status].
  destruct (negb (truthy (response_body (ctx s1))));
    cbn [ctx response_body log request_body response_status];
    match goal with
    | |- context [if ?c then _ else _] => destruct c
    end;
    match goal with
    | |- context [match ?c with Normal _ => _ | Throw _ => _ end] =>
        destruct c
    end;
    cbn [ctx response_body log request_body response_status];
    try reflexivity;
    match goal with
    | |- context [writeProp ?b ?k ?v] => destruct (writeProp b k v)
    end; reflexivity.
Qed.

Lemma errorHandler_status_witness :
  response_status
    (ctx (snd (Index.errorHandler (throw (VNumber 7)) (Demo.request "{ hello }"))))
  = VNumber 500.
Proof.
  destruct (errorHandler_status (throw (VNumber 7)) (Demo.request "{ hello }")
              (VNumber 7) (Demo.request "{ hello }") eq_refl) as (n & Hn & _).
  rewrite Hn. cbv in Hn. symmetry. exact Hn.
Defined.

(** X12. What [errorHandler] does to a response body that is an object,
    for anything it catches and answers with a status that is not one of a
    response without a body (204, 205, 304): every property other than
    [errors] keeps its value (the data the [execute] middleware wrote
    stays), the request body is not touched, and when the handler completes
    [errors] is an array and one ["error"] event was emitted to the app. *)
Theorem errorHandler_keeps_body next s error s1 k props :
  next s = (Throw error, s1) ->
  response_body (ctx s1) = VObject k props ->
  emptyStatus (getProp (answerOf error) "status") = false ->
  exists r s',
    Index.errorHandler next s = (r, s') /\
    request_body (ctx s') = request_body (ctx s1) /\
    (forall key, key <> "errors" ->
       getProp (response_body (ctx s')) key = getProp (VObject k props) key) /\
    (r = Normal tt ->
     isArray (getProp (response_body (ctx s')) "errors") = true /\
     log s'
     = (log s1
        ++ [Emit "error"
              (if instanceofError error then createError [error] else error)])%list).
Proof.
  intros Hnext Hbody _. unfold Index.errorHandler. unfold_monad. rewrite Hnext.
  cbn [ctx response_body log request_body response_status].
  rewrite Hbody. cbn [truthy negb ctx response_body log request_body response_status].
  rewrite ?Hbody.
  match goal with
  | |- context [match ?c with Normal _ => _ | Throw _ => _ end] =>
      destruct c as [formatted|e]
  end.
  - cbn [writeProp setProp ctx response_body log request_body response_status].
    eexists. eexists. split; [reflexivity|].
    cbn [ctx response_body log request_body response_status].
    split; [reflexivity|]. split.
    + intros key Hkey. unfold getProp. cbn [ownProps].
      rewrite lookup_assign_other by congruence. reflexivity.
    + intros _. split; [|reflexivity].
      unfold getProp. cbn [ownProps]. now rewrite lookup_assign_same.
  - eexists. eexists. split; [reflexivity|].
    cbn [ctx response_body log request_body response_status].
    split; [reflexivity|]. split; [reflexivity|discriminate].
Qed.

Lemma errorHandler_keeps_body_witness :
  getProp
    (response_body
       (ctx (snd (Index.errorHandler
                    (setResponseBody (VObject KPlain [("data", VNumber 1)]) ;;
                     throw (VString "late"))%koa
                    (Demo.request "{ hello }")))))
    "data"
  = VNumber 1.
Proof.
  destruct (errorHandler_keeps_body
              (setResponseBody (VObject KPlain [("data", VNumber 1)]) ;;
               throw (VString "late"))%koa
              (Demo.request "{ hello }") (VString "late") _ KPlain
              [("data", VNumber 1)] eq_refl eq_refl eq_refl)
    as (r & s' & Hrun & _ & Hkept & _).
  rewrite Hrun. cbn [snd]. apply Hkept. discriminate.
Defined.

(** X13. Two failures that [createError] leaves unexposed get the same
    response: the status and the body [errorHandler] writes do not depend on
    which of the two was thrown. *)
Theorem errorHandler_unexposed_alike next1 next2 s error1 error2 s1 :
  next1 s = (Throw error1, s1) ->
  next2 s = (Throw error2, s1) ->
  truthy (getProp (createError [error1]) "expose") = false ->
  truthy (getProp (createError [error2]) "expose") = false ->
  bodyReady (response_body (ctx s1)) = true ->
  ctx (snd (Index.errorHandler next1 s)) = ctx (snd (Index.errorHandler next2 s)) /\
  response_status (ctx (snd (Index.errorHandler next1 s))) = VNumber 500 /\
  response_body (ctx (snd (Index.errorHandler next1 s)))
  = withErrors (response_body (ctx s1)) [genericError].
Proof.
  intros Hnext1 Hnext2 Hexpose1 Hexpose2 Hbody.
  rewrite (errorHandler_hides_unexposed next1 s error1 s1 Hnext1 Hexpose1 Hbody).
  rewrite (errorHandler_hides_unexposed next2 s error2 s1 Hnext2 Hexpose2 Hbody).
  repeat split.
Qed.

Lemma errorHandler_unexposed_alike_witness :
  ctx (snd (Index.errorHandler (throw (newError (VString "secret")))
              (Demo.request "{ hello }")))
  = ctx (snd (Index.errorHandler
                (throw (createError [VString "Request body missing."]))
                (Demo.request "{ hello }"))).
Proof.
  exact (proj1 (errorHandler_unexposed_alike
                  (throw (newError (VString "secret")))
                  (throw (createError [VString "Request body missing."]))
                  (Demo.request "{ hello }") _ _ _
                  eq_refl eq_refl eq_refl eq_refl eq_refl)).
Defined.

(** X14. When the response body is a primitive that is not falsy (a string
    that is not empty, a number other than 0, [true]) and the status of the
    answer is not one of a response without a body (204, 205, 304), the
    assignment of [errors] throws in strict mode and [errorHandler] itself
    fails: the body is left as it was and no ["error"] event is emitted. *)
Theorem errorHandler_primitive_body next s error s1 :
  next s = (Throw error, s1) ->
  truthy (response_body (ctx s1)) = true ->
  isObjectValue (response_body (ctx s1)) = false ->
  emptyStatus (getProp (answerOf error) "status") = false ->
  exists thrown s',
    Index.errorHandler next s = (Throw thrown, s') /\
    response_body (ctx s') = response_body (ctx s1) /\
    log s' = log s1.
Proof.
  intros Hnext Htruthy Hprimitive _. unfold Index.errorHandler. unfold_monad.
  rewrite Hnext.
  cbn [ctx response_body log request_body response_status].
  rewrite Htruthy. cbn [negb ctx response_body log request_body response_status].
  match goal with
  | |- context [match ?c with Normal _ => _ | Throw _ => _ end] =>
      destruct c as [formatted|e]
  end.
  - destruct (response_body (ctx s1)) eqn:Ebody; try discriminate;
      cbn [writeProp]; eexists; eexists;
      (split; [reflexivity|split; reflexivity]).
  - eexists. eexists. split; [reflexivity|]. split; reflexivity.
Qed.

Lemma errorHandler_primitive_body_witness :
  exists thrown s',
    Index.errorHandler
      (setResponseBody (VString "<html>") ;; throw (VString "late"))%koa
      (Demo.request "{ hello }")
    = (Throw thrown, s') /\
    response_body (ctx s') = VString "<html>" /\
    log s' = [].
Proof.
  exact (errorHandler_primitive_body
           (setResponseBody (VString "<html>") ;; throw (VString "late"))%koa
           (Demo.request "{ hello }") (VString "late") _
           eq_refl eq_refl eq_refl eq_refl).
Defined.

(** X15. A failure that [createError] leaves exposed, that has no array of
    [graphqlErrors] and whose status is a whole number (the numbers here are
    the integers) other than those of a response without a body (204, 205,
    304) is answered with its own status and one formatted
    error that carries its own message (or "An unknown error occurred." when
    it has none). *)
Theorem errorHandler_exposed next s error s1 :
  next s = (Throw error, s1) ->
  let httpError := createError [error] in
  truthy (getProp httpError "expose") = true ->
  isArray (getProp httpError "graphqlErrors") = false ->
  emptyStatus (getProp httpError "status") = false ->
  bodyReady (response_body (ctx s1)) = true ->
  exists formatted,
    Index.errorHandler next s
    = (Normal tt,
       respond s1 (getProp httpError "status")
         (withErrors (response_body (ctx s1)) [formatted])
         [Emit "error" (if instanceofError error then httpError else error)]) /\
    getProp formatted "message"
    = (if truthy (getProp httpError "message") then getProp httpError "message"
       else VString "An unknown error occurred.") /\
    getProp formatted "locations" = getProp httpError "locations" /\
    getProp formatted "path" = getProp httpError "path".
Proof.
  intros Hnext httpError Hexpose Harray _ Hbody.
  assert (truthy httpError = true) as Htruthy.
  { destruct (createError_status [error]) as [Hinstance _].
    fold httpError in Hinstance.
    destruct httpError as [| | | | | |k props]; try discriminate. reflexivity. }
  assert (exists formatted,
            formatError httpError = Normal formatted /\
            getProp formatted "message"
            = (if truthy (getProp httpError "message")
               then getProp httpError "message"
               else VString "An unknown error occurred.") /\
            getProp formatted "locations" = getProp httpError "locations" /\
            getProp formatted "path" = getProp httpError "path")
    as (formatted & Hformat & Hfields).
  { unfold formatError. rewrite Htruthy. cbn [negb].
    destruct (truthy (getProp httpError "extensions"));
      eexists; (split; [reflexivity|repeat split]). }
  exists formatted. split; [|exact Hfields].
  rewrite (errorHandler_caught next s error s1 Hnext Hbody httpError [formatted]).
  - reflexivity.
  - fold httpError. now rewrite Hexpose.
  - rewrite Harray, Hformat. reflexivity.
Qed.

Lemma errorHandler_exposed_witness :
  response_status
    (ctx (snd (Index.errorHandler
                 (throw (createError
                           [VNumber 503; VString "No work on the sabbath.";
                            VObject KPlain [("expose", VBool true)]]))
                 (Demo.request "{ hello }"))))
  = VNumber 503.
Proof.
  destruct (errorHandler_exposed
              (throw (createError
                        [VNumber 503; VString "No work on the sabbath.";
                         VObject KPlain [("expose", VBool true)]]))
              (Demo.request "{ hello }") _ _ eq_refl eq_refl eq_refl eq_refl
              eq_refl)
    as (formatted & Hrun & _).
  rewrite Hrun. reflexivity.
Defined.

(** *** The creation of the middleware, [src/index.mjs] *)

Lemma setups_agree env options :
  Index.isPlainObject options = true ->
  Execute.setup env options
  = andThen (Index.setup env options)
      (fun _ =>
         Normal (Execute.mkStatic (getProp options "override")
                   (VObject KPlain (restWithout "override" options)))).
Proof.
  intros Hplain. unfold Execute.setup, Index.setup.
  rewrite (isPlainObject_defined _ Hplain), Hplain. cbn [negb].
  change Index.ALLOWED_OPTIONS with Execute.ALLOWED_EXECUTE_OPTIONS.
  unfold Execute.checkOptions, Execute.checkSchema, Execute.createHttpError.
  destruct (Index.checkOptions options _ _) as [[]|e]; cbn [andThen];
    [|reflexivity].
  rewrite !(isPlainObject_readProp _ _ Hplain). cbn [andThen].
  destruct (if negb (isUndefined (getProp options "schema"))
            then Index.checkSchema env (getProp options "schema")
            else Normal tt) as [[]|e]; cbn [andThen]; [|reflexivity].
  destruct (negb (isUndefined (getProp options "override"))
            && negb (jstype_eqb (typeof (getProp options "override")) TFunction));
    reflexivity.
Qed.

(** X16. [execute(options)] of [src/index.mjs], at creation. Options that
    are given but are not an object ([null], an array, a primitive, a
    function) are rejected with "options must be an object", status 500 and
    not exposed. An options object is accepted by [src/index.mjs] exactly
    when [src/execute.mjs] accepts it, and is rejected with the same
    error. *)
Theorem index_setup_spec env options :
  (isUndefined options = false -> Index.isPlainObject options = false ->
   let error :=
     createError [VString "GraphQL execute middleware options must be an object."] in
   Index.setup env options = Throw error /\
   getProp error "status" = VNumber 500 /\
   getProp error "expose" = VBool false) /\
  (Index.isPlainObject options = true ->
   (Index.setup env options = Normal tt
    <-> exists st, Execute.setup env options = Normal st) /\
   (forall error,
      Index.setup env options = Throw error
      <-> Execute.setup env options = Throw error)).
Proof.
  split.
  - intros Hdefined Hplain error. split; [|split; reflexivity].
    unfold Index.setup. now rewrite Hdefined, Hplain.
  - intros Hplain. rewrite (setups_agree env options Hplain).
    destruct (Index.setup env options) as [[]|e]; cbn [andThen].
    + split.
      * split; [|reflexivity]. intros _.
        exists (Execute.mkStatic (getProp options "override")
                  (VObject KPlain (restWithout "override" options))).
        reflexivity.
      * intros error. split; discriminate.
    + split.
      * split; [discriminate|intros [st H]; discriminate].
      * intros error. split; intros H; inversion H; reflexivity.
Qed.

(** *** What [src/index.mjs] hands to [executeGraphQL] *)

Lemma keysOf_fold_assign (src : Props) k : forall target,
  In k (keysOf (fold_left (fun acc p => assign (fst p) (snd p) acc) src target)) ->
  In k (keysOf src) \/ In k (keysOf target).
Proof.
  induction src as [|[key v] rest IH]; cbn [fold_left]; intros target Hin;
    [now right|].
  apply IH in Hin. destruct Hin as [Hin|Hin]; [left; now right|].
  cbn [fst snd] in Hin. apply keysOf_assign in Hin.
  destruct Hin as [->|Hin]; [left; now left|now right].
Qed.

Section IndexArguments.

Variable env : Env.
Variable options : value.
Variables s s1 s2 : State.
Variables document optionsOverride : value.

Hypothesis configured : Index.setup env options = Normal tt.
Hypothesis parsed : Index.parseRequest env s = (Normal document, s1).
Hypothesis resolved :
  Index.resolveOverride env options s1 = (Normal optionsOverride, s2).

Let body := request_body (ctx s).
Let execute := Index.mergeOptions options optionsOverride.
Let args :=
  Index.executeArgs execute document
    (getProp body "variables") (getProp body "operationName").

(** X17. The object [src/index.mjs] passes to [executeGraphQL] is the
    merged options with three properties added, so it has no key other than
    the allowed options and [document], [variableValues], [operationName];
    unlike the object of [src/execute.mjs] it carries [override], the
    function of the options, when they have one. *)
Theorem index_args_carry_override next :
  NoDup (keysOf (ownEnumerable options)) ->
  validate env (getProp execute "schema") document = Normal [] ->
  Index.middleware env options next s
  = Index.runOperation env args next
      (respond s (response_status (ctx s)) (response_body (ctx s))
         (CallParse (getProp body "query") :: indexOverrideEvents options
          ++ [CallValidate (getProp execute "schema") document])) /\
  getProp args "override" = getProp options "override" /\
  (forall key,
     In key (keysOf (ownProps args)) ->
     In key ["schema"; "rootValue"; "contextValue"; "fieldResolver"; "override";
             "document"; "variableValues"; "operationName"]).
Proof.
  intros Hnodup Hvalidate.
  destruct (index_setup_inv _ _ configured) as [Hplain Hkeys].
  destruct (index_resolved env options s s1 s2 document optionsOverride
              configured parsed resolved) as [_ Hoverride].
  assert (spreadInto [] execute = ownProps execute) as Hcopy.
  { subst execute. unfold Index.mergeOptions. cbn [ownProps].
    apply spread_copy. unfold spreadInto.
    apply fold_assign_NoDup. apply fold_assign_NoDup. constructor. }
  split; [|split].
  - now apply (index_middleware_valid env options s s1 s2 document
                 optionsOverride configured parsed resolved).
  - subst args. unfold Index.executeArgs, getProp at 1.
    cbn [ownProps protoProp]. rewrite Hcopy.
    rewrite !lookup_assign_other by discriminate.
    subst execute. unfold Index.mergeOptions, spreadInto. cbn [ownProps].
    rewrite lookup_fold_assign_notin.
    + rewrite (lookup_fold_assign _ "override" _ Hnodup). cbn [lookup].
      unfold getProp.
      destruct options as [| | | | | |k props]; try discriminate.
      cbn [ownProps ownEnumerable protoProp] in *.
      destruct k; try discriminate; cbn [enumerable];
        try (rewrite filter_all; destruct (lookup "override" props); reflexivity).
      destruct c; cbn [enumerable].
      * assert (forall ps : Props,
                  lookup "override"
                    (filter (fun p => negb (String.eqb (fst p) "message")) ps)
                  = lookup "override" ps) as Hfilter.
        { induction ps as [|[k v] rest IH]; [reflexivity|]. cbn.
          destruct (String.eqb k "message") eqn:Em; cbn.
          - apply String.eqb_eq in Em. subst k. cbn. exact IH.
          - destruct (String.eqb k "override"); [reflexivity|exact IH]. }
        rewrite Hfilter. destruct (lookup "override" props); reflexivity.
      * rewrite filter_all. destruct (lookup "override" props); reflexivity.
      * rewrite filter_all. destruct (lookup "override" props); reflexivity.
    + intros Hin. apply (invalidKeys_nil _ _ Hoverride) in Hin.
      cbn in Hin. intuition discriminate.
  - intros key Hin. subst args. unfold Index.executeArgs in Hin.
    cbn [ownProps] in Hin. rewrite Hcopy in Hin.
    apply keysOf_assign in Hin. destruct Hin as [->|Hin]; [cbn; tauto|].
    apply keysOf_assign in Hin. destruct Hin as [->|Hin]; [cbn; tauto|].
    apply keysOf_assign in Hin. destruct Hin as [->|Hin]; [cbn; tauto|].
    subst execute. unfold Index.mergeOptions, spreadInto in Hin.
    cbn [ownProps] in Hin.
    apply keysOf_fold_assign in Hin. destruct Hin as [Hin|Hin].
    + apply (invalidKeys_nil _ _ Hoverride) in Hin. cbn in Hin. cbn. tauto.
    + apply keysOf_fold_assign in Hin. destruct Hin as [Hin|[]].
      apply (invalidKeys_nil _ _ Hkeys) in Hin. cbn in Hin. cbn. tauto.
Qed.

End IndexArguments.

Lemma index_args_carry_override_witness :
  let s := Demo.requestWithOverride "{ hello }"
             (VObject KPlain [("rootValue", VNumber 1)]) in
  let execute :=
    Index.mergeOptions Demo.optionsWithOverride
      (VObject KPlain [("rootValue", VNumber 1)]) in
  getProp
    (Index.executeArgs execute
       (VObject KPlain [("kind", VString "Document"); ("source", VString "{ hello }")])
       VUndefined VUndefined)
    "override"
  = Demo.overrideFn.
Proof.
  intros s execute.
  destruct (index_args_carry_override Demo.env Demo.optionsWithOverride s _ _
              _ (VObject KPlain [("rootValue", VNumber 1)])
              eq_refl eq_refl eq_refl (ret tt))
    as (_ & Hoverride & _).
  - cbn. repeat constructor; cbn; intuition discriminate.
  - reflexivity.
  - exact Hoverride.
Defined.

(** *** [errorHandler] around the [execute] of [src/execute.mjs] *)

Lemma unexposed_answered error :
  truthy (getProp (createError [error]) "expose") = false ->
  answered error 500 [genericError].
Proof.
  intros H. unfold answered, answerOf. rewrite H. split; reflexivity.
Qed.

Lemma message_answered m :
  answered (createError [VString m]) 500 [genericError].
Proof. apply unexposed_answered. reflexivity. Qed.

Lemma typeError_answered m :
  answered (typeError m) 500 [genericError].
Proof. apply unexposed_answered. reflexivity. Qed.

Lemma badRequest_answered m :
  exists formatted, answered (createError [VNumber 400; VString m]) 400 formatted.
Proof. eexists. split; reflexivity. Qed.

Lemma validation_answered m errs :
  answered
    (createError
       [VNumber 400; VString m;
        VObject KPlain [("graphqlErrors", jsArray (map errorObject errs))]])
    400 (map formattedError errs).
Proof.
  split; [reflexivity|]. unfold formatErrors, answerOf.
  cbn.
  apply mapFormatError_errorObject.
Qed.

Lemma execution_answered errs :
  answered
    (createError
       [VNumber 200; VString "GraphQL errors.";
        VObject KPlain [("graphqlErrors", jsArray (map errorObject errs))]])
    200 (map formattedError errs).
Proof.
  split; [reflexivity|]. unfold formatErrors, answerOf.
  cbn.
  apply mapFormatError_errorObject.
Qed.

Lemma checkOptions_answered options allowed description error :
  Index.checkOptions options allowed description = Throw error ->
  answered error 500 [genericError].
Proof.
  unfold Index.checkOptions, objectKeys.
  destruct options; cbn [andThen];
    try (intros H; inversion H; subst; apply typeError_answered);
    match goal with
    | |- context [Index.invalidKeys ?k ?a] =>
        destruct (Index.invalidKeys k a); cbn [List.length Nat.eqb negb];
          [discriminate|intros H; inversion H; subst; apply message_answered]
    end.
Qed.

Lemma checkSchema_answered env schema error :
  Index.checkSchema env schema = Throw error ->
  answered error 500 [genericError].
Proof.
  intros H. apply unexposed_answered. revert H. unfold Index.checkSchema.
  destruct (instanceofGraphQLSchema schema); cbn [negb].
  - destruct (validateSchema env schema); cbn [List.length Nat.eqb negb];
      [discriminate|].
    intros H. inversion H; subst. reflexivity.
  - intros H. inversion H; subst. reflexivity.
Qed.

Lemma readProp_answered v key error :
  readProp v key = Throw error -> answered error 500 [genericError].
Proof.
  destruct v; cbn; try discriminate;
    intros H; inversion H; subst; apply typeError_answered.
Qed.

Lemma parseRequest_answered env s error s' :
  Execute.parseRequest env s = (Throw error, s') ->
  exists status formatted, ownStatus status /\ answered error status formatted.
Proof.
  unfold Execute.parseRequest. unfold_monad.
  destruct (isUndefined (request_body (ctx s))).
  { intros H. inversion H; subst. exists 500, [genericError].
    split; [unfold ownStatus; tauto|apply message_answered]. }
  destruct (Execute.isEnumerableObject (request_body (ctx s))); cbn [negb].
  2:{ intros H. inversion H; subst.
      destruct (badRequest_answered "Request body must be a JSON object.")
        as [formatted Hf].
      exists 400, formatted. split; [unfold ownStatus; tauto|exact Hf]. }
  destruct (hasProperty (request_body (ctx s)) "query"); cbn [negb].
  2:{ intros H. inversion H; subst.
      destruct (badRequest_answered "GraphQL operation field `query` missing.")
        as [formatted Hf].
      exists 400, formatted. split; [unfold ownStatus; tauto|exact Hf]. }
  destruct (readProp (request_body (ctx s)) "query") as [q|e] eqn:Eread.
  2:{ intros H. inversion H; subst. exists 500, [genericError].
      split; [unfold ownStatus; tauto|exact (readProp_answered _ _ _ Eread)]. }
  destruct (parse env q) as [message|document]; [|discriminate].
  intros H. inversion H; subst.
  destruct (badRequest_answered ("GraphQL query syntax error: " ++ message))
    as [formatted Hf].
  exists 400, formatted. split; [unfold ownStatus; tauto|exact Hf].
Qed.

Lemma resolveOverride_answered env st s error s' :
  (forall fn c e, call env fn c <> Throw e) ->
  Execute.resolveOverride env st s = (Throw error, s') ->
  answered error 500 [genericError].
Proof.
  intros Hcall. unfold Execute.resolveOverride. unfold_monad.
  destruct (truthy (Execute.override st)); [|discriminate].
  cbn [ctx log].
  destruct (call env (Execute.override st) (ctx s)) as [ov|e] eqn:Ecall;
    [|now apply Hcall in Ecall].
  destruct (Execute.checkOptions ov _ _) as [[]|e] eqn:Echeck.
  2:{ intros H. inversion H; subst. exact (checkOptions_answered _ _ _ _ Echeck). }
  destruct (readProp ov "schema") as [sch|e] eqn:Eread.
  2:{ intros H. inversion H; subst. exact (readProp_answered _ _ _ Eread). }
  destruct (isUndefined sch); cbn [negb]; [discriminate|].
  destruct (Execute.checkSchema env sch) as [[]|e] eqn:Eschema; [discriminate|].
  intros H. inversion H; subst. exact (checkSchema_answered _ _ _ Eschema).
Qed.

Lemma validateDocument_answered env schema document s error s' :
  (forall sch doc e, validate env sch doc <> Throw e) ->
  Execute.validateDocument env schema document s = (Throw error, s') ->
  exists formatted, answered error 400 formatted.
Proof.
  intros Hvalidate. unfold Execute.validateDocument. unfold_monad.
  cbn [ctx log].
  destruct (validate env schema document) as [errs|e] eqn:E;
    [|now apply Hvalidate in E].
  destruct errs as [|e0 rest]; cbn [List.length Nat.eqb negb]; [discriminate|].
  intros H. injection H as <- _.
  exists (map formattedError (e0 :: rest)).
  exact (validation_answered "GraphQL query validation errors." (e0 :: rest)).
Qed.

Ltac outcome :=
  repeat match goal with |- _ /\ _ => split end;
  first [assumption | reflexivity | unfold ownStatus; tauto].

(** The ways the middleware ends when neither the [override] function nor
    [validate] throws: with an error [errorHandler] answers with 200, 400 or
    500, or by handing over with the status 200. *)
Lemma middleware_outcomes env st next s :
  (forall fn c e, call env fn c <> Throw e) ->
  (forall sch doc e, validate env sch doc <> Throw e) ->
  bodyReady (response_body (ctx s)) = true ->
  (exists error s' status formatted,
     Execute.middleware env st next s = (Throw error, s') /\
     request_body (ctx s') = request_body (ctx s) /\
     bodyReady (response_body (ctx s')) = true /\
     ownStatus status /\ answered error status formatted) \/
  (exists s',
     Execute.middleware env st next s = next s' /\
     response_status (ctx s') = VNumber 200).
Proof.
  intros Hcall Hvalidate Hready.
  remember (Execute.middleware env st next s) as run eqn:Hrun.
  unfold Execute.middleware in Hrun. unfold bind at 1 in Hrun.
  destruct (Execute.parseRequest env s) as [[document|e] s1] eqn:Eparse.
  2:{ left. destruct (parseRequest_answered _ _ _ _ Eparse)
        as (status & formatted & Hstatus & Hanswered).
      exists e, s1, status, formatted. apply parseRequest_ctx in Eparse.
      rewrite Eparse. outcome. }
  pose proof (parseRequest_ctx _ _ _ _ Eparse) as Hs1.
  destruct (parseRequest_inv _ _ _ _ Eparse) as (Hobject & _).
  unfold bind at 1 in Hrun.
  destruct (Execute.resolveOverride env st s1) as [[ov|e] s2] eqn:Eresolve.
  2:{ left. exists e, s2, 500, [genericError].
      pose proof (resolveOverride_answered _ _ _ _ _ Hcall Eresolve).
      apply resolveOverride_ctx in Eresolve. rewrite Eresolve, Hs1.
      outcome. }
  pose proof (resolveOverride_ctx _ _ _ _ _ Eresolve) as Hs2.
  destruct (isUndefined _) eqn:Eschema.
  { left. eexists. exists s2, 500, [genericError]. rewrite Hs2, Hs1.
    pose proof (message_answered "GraphQL schema is required.").
    split; [exact Hrun|]. outcome. }
  unfold bind at 1 in Hrun.
  destruct (Execute.validateDocument env _ document s2) as [[[]|e] s3] eqn:Evalidate.
  2:{ left. destruct (validateDocument_answered _ _ _ _ _ _ Hvalidate Evalidate)
        as [formatted Hanswered].
      exists e, s3, 400, formatted.
      apply validateDocument_ctx in Evalidate. rewrite Evalidate, Hs2, Hs1.
      outcome. }
  pose proof (validateDocument_ctx _ _ _ _ _ _ Evalidate) as Hs3.
  unfold bind at 1 in Hrun. unfold getContext at 1 in Hrun.
  unfold bind at 1 in Hrun. unfold lift at 1 in Hrun.
  assert (ctx s3 = ctx s) as Hctx by (now rewrite Hs3, Hs2, Hs1).
  rewrite Hctx in Hrun.
  rewrite (isPlainObject_readProp _ "variables" Hobject) in Hrun.
  unfold bind at 1 in Hrun. unfold lift at 1 in Hrun.
  rewrite (isPlainObject_readProp _ "operationName" Hobject) in Hrun.
  match type of Hrun with
  | context [Execute.runOperation env ?a next s3] =>
      destruct (runOperation_cases env a next s3)
        as [(message & _ & Hop)|[(result & errs & _ & _ & Hop)
                                |(result & _ & _ & Hop)]];
        rewrite Hop in Hrun
  end.
  - left.
    destruct (badRequest_answered ("GraphQL operation field invalid: " ++ message))
      as [formatted Hanswered].
    eexists. eexists. exists 400, formatted. split; [exact Hrun|].
    cbn [ctx]. rewrite Hctx. outcome.
  - left. eexists. eexists. exists 200, (map formattedError errs).
    split; [exact Hrun|].
    unfold respond. cbn [ctx request_body response_status response_body].
    rewrite Hctx.
    assert (bodyReady (written result (response_body (ctx s))) = true)
      by (unfold written; destruct (truthy (data result));
          [reflexivity|exact Hready]).
    pose proof (execution_answered errs).
    outcome.
  - right. eexists. split; [exact Hrun|]. reflexivity.
Qed.

(** No array index is the key [errors]. *)
Lemma lookup_indexed_errors elems : lookup "errors" (indexed elems) = None.
Proof.
  unfold indexed. generalize (seq 0 (List.length elems)) as ns.
  intros ns. revert elems.
  induction ns as [|n ns IH]; intros [|e rest]; cbn [map combine lookup];
    try reflexivity.
  destruct (String.eqb (indexKey n) "errors") eqn:E; [|apply IH].
  apply String.eqb_eq in E. unfold indexKey in E.
  destruct (Nat.to_uint n); discriminate.
Qed.

Lemma lookup_append key (ps qs : Props) :
  lookup key (ps ++ qs)%list
  = match lookup key ps with Some v => Some v | None => lookup key qs end.
Proof.
  induction ps as [|[k v] rest IH]; cbn [app lookup]; [reflexivity|].
  destruct (String.eqb k key); [reflexivity|exact IH].
Qed.

Lemma withErrors_errors body formatted :
  bodyReady body = true ->
  getProp (withErrors body formatted) "errors" = jsArray formatted.
Proof.
  unfold bodyReady, withErrors. intros Hready.
  destruct (truthy body) eqn:Et; cbn [negb orb] in Hready.
  - destruct body; try discriminate; unfold getProp; cbn [ownProps setProp].
    + now rewrite lookup_append, lookup_indexed_errors, lookup_assign_same.
    + now rewrite lookup_assign_same.
  - unfold getProp; cbn [ownProps setProp]. now rewrite lookup_assign_same.
Qed.

(** X18. With [errorHandler] ahead of the [execute] of [src/execute.mjs],
    a response body that is unset or an object, and an [override] function
    and a [validate] that do not throw, the request never fails: either the
    rest of the chain ran, with the status 200 set before it, or the
    response has the status 200, 400 or 500 and a body with an [errors]
    array, the request body being as it was. *)
Theorem handled_execute env st next s :
  (forall fn c e, call env fn c <> Throw e) ->
  (forall sch doc e, validate env sch doc <> Throw e) ->
  (forall s0, fst (next s0) = Normal tt) ->
  bodyReady (response_body (ctx s)) = true ->
  exists s',
    Index.errorHandler (Execute.middleware env st next) s = (Normal tt, s') /\
    ((exists s0,
        Execute.middleware env st next s = next s0 /\
        next s0 = (Normal tt, s') /\
        response_status (ctx s0) = VNumber 200) \/
     (exists status formatted,
        ownStatus status /\
        response_status (ctx s') = VNumber status /\
        getProp (response_body (ctx s')) "errors" = jsArray formatted /\
        request_body (ctx s') = request_body (ctx s))).
Proof.
  intros Hcall Hvalidate Hnext Hready.
  destruct (middleware_outcomes env st next s Hcall Hvalidate Hready)
    as [(error & s1 & status & formatted & Hrun & Hbody & Hready1 & Hstatus
         & Hstat & Hformat)
       |(s0 & Hrun & Hstatus)].
  - eexists. split.
    + exact (errorHandler_caught _ s error s1 Hrun Hready1 (answerOf error)
               formatted eq_refl Hformat).
    + right. exists status, formatted. split; [exact Hstatus|].
      unfold respond. cbn [ctx response_status response_body request_body].
      split; [exact Hstat|]. split; [|exact Hbody].
      now apply withErrors_errors.
  - specialize (Hnext s0). destruct (next s0) as [[[]|e] s'] eqn:Enext;
      cbn in Hnext; [|discriminate].
    exists s'. split.
    + unfold Index.errorHandler, tryCatch. rewrite Hrun. reflexivity.
    + left. exists s0. rewrite Enext. auto.
Qed.

(** The [validate] of the example application does not throw. *)
Lemma demo_validate_returns sch doc e : validate Demo.env sch doc <> Throw e.
Proof.
  cbn [validate Demo.env].
  repeat match goal with
         | |- context [match ?x with _ => _ end] => destruct x
         end; discriminate.
Qed.

Lemma handled_execute_witness :
  exists s',
    Index.errorHandler (Execute.middleware Demo.env Demo.static (ret tt))
      (Demo.request "{ missingField }")
    = (Normal tt, s') /\
    ((exists s0,
        Execute.middleware Demo.env Demo.static (ret tt)
          (Demo.request "{ missingField }") = ret tt s0 /\
        ret tt s0 = (Normal tt, s') /\
        response_status (ctx s0) = VNumber 200) \/
     (exists status formatted,
        ownStatus status /\
        response_status (ctx s') = VNumber status /\
        getProp (response_body (ctx s')) "errors" = jsArray formatted /\
        request_body (ctx s')
        = request_body (ctx (Demo.request "{ missingField }")))).
Proof.
  apply (handled_execute Demo.env Demo.static (ret tt)
           (Demo.request "{ missingField }")).
  - intros fn c e. discriminate.
  - exact demo_validate_returns.
  - intros s0. reflexivity.
  - reflexivity.
Defined.
